(** * AliasForge: username combination generator

    A shallow embedding of [aliasforge.py] (helpers [ini], [low], [trim],
    [parse_dates] and the two generators [generate_chinese] and
    [generate_western]) together with the properties of its specification.

    Modelling conventions.
    - A Python [str] is a [string]; a character is one of the 256 code points
      of Latin-1 ([ascii]), and [len] is [String.length].  Whitespace and case
      mapping follow Python's tables on these code points.
    - [a + b] on strings is [a +:+ b]; the source's left-nested sums are
      written right-nested (string concatenation is associative).
    - A Python list is a [list]; [combos += [...]] appends, a [for d in dates]
      loop that appends a block per date is a [flat_map] over [dates].
    - The [set] named [seen] in [trim] is a [gset string].
    - Indexing ([s[0]], [gparts[1]], [parts[2]]) can raise [IndexError]: it is
      modelled in the error monad [outcome], and the functions that index
      return an [outcome]. *)

From Stdlib Require Import Ascii String NArith Lia.
From stdpp Require Import gmap strings list sorting pretty.

(** ** Exceptions *)

Inductive exn : Type := IndexError.

Inductive outcome (A : Type) : Type :=
| Ok (a : A)
| Raise (e : exn).
Arguments Ok {A} a.
Arguments Raise {A} e.

#[global] Instance outcome_ret : MRet outcome := fun A a => Ok a.
#[global] Instance outcome_bind : MBind outcome := fun A B f m =>
  match m with
  | Ok a => f a
  | Raise e => Raise e
  end.

(** [l[i]] on a list, for [i >= 0]. *)
Definition list_get {A} (l : list A) (i : nat) : outcome A :=
  match l !! i with
  | Some x => Ok x
  | None => Raise IndexError
  end.

(** [s[i]] on a string, for [i >= 0]. *)
Definition str_get (s : string) (i : nat) : outcome ascii :=
  match String.get i s with
  | Some c => Ok c
  | None => Raise IndexError
  end.

(** ** Python string primitives on Latin-1 code points *)

Module Py.

(** [c.isspace()] *)
Definition is_space (c : ascii) : bool :=
  let n := N_of_ascii c in
  ((9 <=? n) && (n <=? 13) || (28 <=? n) && (n <=? 32) || (n =? 133) || (n =? 160))%N.

(** [c.lower()] for a single character *)
Definition lower_char (c : ascii) : ascii :=
  let n := N_of_ascii c in
  if ((65 <=? n) && (n <=? 90)
      || (192 <=? n) && (n <=? 222) && negb (n =? 215))%N
  then ascii_of_N (n + 32) else c.

(** [s.lower()] *)
Fixpoint lower (s : string) : string :=
  match s with
  | "" => ""
  | String c s' => String (lower_char c) (lower s')
  end.

(** [bool(s)]: a string is true when it is not empty. *)
Definition truthy (s : string) : bool :=
  match s with
  | "" => false
  | String _ _ => true
  end.

Definition len (s : string) : nat := String.length s.

(** [s.lstrip()] *)
Fixpoint lstrip (s : string) : string :=
  match s with
  | "" => ""
  | String c s' => if is_space c then lstrip s' else s
  end.

(** [s.rstrip()] *)
Fixpoint rstrip (s : string) : string :=
  match s with
  | "" => ""
  | String c s' =>
      let r := rstrip s' in
      if is_space c && negb (truthy r) then "" else String c r
  end.

(** [s.strip()] *)
Definition strip (s : string) : string := rstrip (lstrip s).

Definition cons_word (w : string) (ws : list string) : list string :=
  if truthy w then w :: ws else ws.

(** [split_go s] is the (possibly empty) word at the head of [s] and the
    words after it. *)
Fixpoint split_go (s : string) : string * list string :=
  match s with
  | "" => ("", [])
  | String c s' =>
      let '(w, ws) := split_go s' in
      if is_space c then ("", cons_word w ws) else (String c w, ws)
  end.

(** [s.split()]: the maximal runs of non-whitespace characters. *)
Definition split (s : string) : list string :=
  let '(w, ws) := split_go s in cons_word w ws.

(** [s.split(sep)] for a one-character separator: never an empty list. *)
Fixpoint split_on (sep : ascii) (s : string) : list string :=
  match s with
  | "" => [""]
  | String c s' =>
      if Ascii.eqb c sep then "" :: split_on sep s'
      else match split_on sep s' with
           | w :: ws => String c w :: ws
           | [] => [String c ""]
           end
  end.

(** [s.replace(old, new)] for one-character [old] and [new]. *)
Fixpoint replace (old new : ascii) (s : string) : string :=
  match s with
  | "" => ""
  | String c s' => String (if Ascii.eqb c old then new else c) (replace old new s')
  end.

Fixpoint drop (n : nat) (s : string) : string :=
  match n, s with
  | O, _ => s
  | S n', "" => ""
  | S n', String _ s' => drop n' s'
  end.

(** [s[-n:]] for [n > 0]: the last [n] characters, all of [s] when it is
    shorter. *)
Definition last_n (n : nat) (s : string) : string := drop (len s - n) s.

Fixpoint zeros (n : nat) : string :=
  match n with
  | O => ""
  | S n' => String "0" (zeros n')
  end.

(** [s.zfill(width)]: pads with ["0"] on the left, after a leading sign. *)
Definition zfill (width : nat) (s : string) : string :=
  if (width <=? len s)%nat then s
  else
    let fill := zeros (width - len s) in
    match s with
    | String c s' =>
        if Ascii.eqb c "+" || Ascii.eqb c "-" then String c (fill +:+ s')
        else fill +:+ s
    | "" => fill
    end.

End Py.

(** ** Helpers of [aliasforge.py] *)

Definition MIN_LEN : nat := 6.
Definition MAX_LEN_CN : nat := 16.
Definition MAX_LEN_EN : nat := 18.

(** [ini]: [s[0].lower() if s else ""] *)
Definition ini (s : string) : outcome string :=
  if Py.truthy s then c ← str_get s 0; mret (Py.lower (String c ""))
  else mret "".

Definition low (s : string) : string := Py.lower s.

(** One iteration of the loop of [trim], on the state [(seen, result)]. *)
Definition trim_step (maxlen : nat) (st : gset string * list string) (x : string)
  : gset string * list string :=
  let '(seen, result) := st in
  let x := Py.strip x in
  if Py.truthy x && (MIN_LEN <=? Py.len x)%nat && (Py.len x <=? maxlen)%nat
     && negb (bool_decide (x ∈ seen))
  then ({[x]} ∪ seen, result ++ [x])
  else (seen, result).

Definition trim (lst : list string) (maxlen : nat) : list string :=
  snd (fold_left (trim_step maxlen) lst (∅, [])).

(** The parts of a date of birth: [dob.strip().replace("-", "/").split("/")] *)
Definition dob_parts (dob : string) : list string :=
  Py.split_on "/" (Py.replace "-" "/" (Py.strip dob)).

(** [parse_dates]: returns [(yr4, yr2, dy2, md)]. *)
Definition parse_dates (year dob : string)
  : outcome (string * string * string * string) :=
  let '(yr4, yr2) :=
    if Py.truthy year
    then let yr4 := Py.last_n 4 (Py.strip year) in (yr4, Py.last_n 2 yr4)
    else ("", "") in
  if Py.truthy dob then
    let parts := dob_parts dob in
    if (length parts =? 3)%nat then
      '(yr4, yr2) ← (if negb (Py.truthy yr4)
                     then p0 ← list_get parts 0; mret (p0, Py.last_n 2 p0)
                     else mret (yr4, yr2));
      p1 ← list_get parts 1;
      let mo := Py.zfill 2 p1 in
      p2 ← list_get parts 2;
      let dy := Py.zfill 2 p2 in
      mret (yr4, yr2, Py.last_n 2 dy, mo +:+ dy)
    else mret (yr4, yr2, "", "")
  else mret (yr4, yr2, "", "").

(** [dates = [x for x in [yr4, yr2, md, dy2] if x]] *)
Definition date_list (yr4 yr2 dy2 md : string) : list string :=
  List.filter Py.truthy [yr4; yr2; md; dy2].

(** ** Chinese name generator

    The candidate list [combos] of [generate_chinese], block by block, as a
    function of the derived tokens. *)

Section ChineseCombos.

Variables (s a a2 g g2 si gi ai init_sg init_as init_asg yr2 dy2 : string).
Variable dates : list string.

(** TIER 1: alias alone + quick initial combos *)
Definition cn_tier1 : list string :=
  if Py.truthy a then
    flat_map (fun d => [a +:+ d]) dates
    ++ (if Py.truthy dy2 && Py.truthy yr2 then [a +:+ dy2 +:+ yr2] else [])
    ++ [a +:+ si; a +:+ "." +:+ si; si +:+ "." +:+ a]
    ++ [init_as; init_asg; ai +:+ "." +:+ s]
  else [].

(** TIER 2: alias + full given, alias + given + date *)
Definition cn_tier2 : list string :=
  if Py.truthy a then
    [a +:+ g; a +:+ "." +:+ g; g +:+ "." +:+ a]
    ++ flat_map (fun d => [a +:+ g +:+ d; a +:+ "." +:+ g +:+ d]) dates
  else [].

(** TIER 3: alias + init_sg *)
Definition cn_tier3 : list string :=
  if Py.truthy a then
    [a +:+ init_sg; a +:+ "." +:+ init_sg; init_sg +:+ "." +:+ a]
    ++ flat_map (fun d => [a +:+ init_sg +:+ d; a +:+ "." +:+ init_sg +:+ d]) dates
  else [].

(** TIER 4: alias + surname *)
Definition cn_tier4 : list string :=
  if Py.truthy a then
    [a +:+ s; a +:+ "." +:+ s; s +:+ "." +:+ a]
    ++ flat_map (fun d => [a +:+ s +:+ d; a +:+ "." +:+ s +:+ d]) dates
  else [].

(** TIER 5: g2 alone + date/initial *)
Definition cn_tier5 : list string :=
  if Py.truthy g2 then
    flat_map (fun d => [g2 +:+ d]) dates
    ++ (if Py.truthy dy2 && Py.truthy yr2 then [g2 +:+ dy2 +:+ yr2] else [])
    ++ [g2 +:+ si; g2 +:+ "." +:+ si; si +:+ "." +:+ g2]
    ++ flat_map (fun d => [g2 +:+ si +:+ d; g2 +:+ "." +:+ si +:+ d]) dates
  else [].

(** TIER 6: g2 + given / g2 + init_sg / g2 + surname *)
Definition cn_tier6 : list string :=
  if Py.truthy g2 then
    [g2 +:+ g; g2 +:+ "." +:+ g]
    ++ flat_map (fun d => [g2 +:+ g +:+ d; g2 +:+ "." +:+ g +:+ d]) dates
    ++ [g2 +:+ init_sg; g2 +:+ "." +:+ init_sg; init_sg +:+ "." +:+ g2]
    ++ flat_map (fun d => [g2 +:+ init_sg +:+ d; g2 +:+ "." +:+ init_sg +:+ d]) dates
    ++ [g2 +:+ s; g2 +:+ "." +:+ s; s +:+ "." +:+ g2]
    ++ flat_map (fun d => [g2 +:+ s +:+ d; g2 +:+ "." +:+ s +:+ d]) dates
  else [].

(** TIER 7: given + surname-initial, given + si + date *)
Definition cn_tier7 : list string :=
  [g +:+ si; g +:+ "." +:+ si; si +:+ "." +:+ g]
  ++ flat_map (fun d => [g +:+ si +:+ d; g +:+ "." +:+ si +:+ d]) dates.

(** TIER 8: given + date *)
Definition cn_tier8 : list string :=
  flat_map (fun d => [g +:+ d]) dates.

(** TIER 9: surname + given-initials only (no bare s+date) *)
Definition cn_tier9 : list string :=
  [s +:+ gi; init_sg; s +:+ "." +:+ gi]
  ++ flat_map (fun d => [s +:+ gi +:+ d; init_sg +:+ d]) dates.

(** TIER 10: full surname combos *)
Definition cn_tier10 : list string :=
  [s +:+ g; g +:+ s].

(** ALIAS2 *)
Definition cn_alias2 : list string :=
  if Py.truthy a2 then
    [a2 +:+ g; a2 +:+ s; g +:+ "." +:+ a2;
     if Py.truthy a then a +:+ "." +:+ a2 else ""]
    ++ flat_map (fun d => [a2 +:+ d; a2 +:+ g +:+ d]) dates
  else [].

(** FULL mode: alias x all combos x all dates *)
Definition cn_full_alias : list string :=
  if Py.truthy a then
    flat_map (fun d =>
      [a +:+ g +:+ si +:+ d;
       a +:+ "." +:+ g +:+ "." +:+ si +:+ d;
       ai +:+ g +:+ d;
       ai +:+ "." +:+ g +:+ d;
       ai +:+ init_sg +:+ d]) dates
    ++ [ai +:+ g; ai +:+ "." +:+ g; ai +:+ init_sg;
        a +:+ "." +:+ s +:+ "." +:+ g; a +:+ gi; a +:+ "." +:+ gi]
  else [].

(** FULL mode: given x date dot variants *)
Definition cn_full_given : list string :=
  flat_map (fun d => [g +:+ "." +:+ d; g +:+ "." +:+ si +:+ "." +:+ d]) dates.

(** FULL mode: surname dot combos (no bare s+date) *)
Definition cn_full_surname : list string :=
  [s +:+ "." +:+ g; g +:+ "." +:+ s; s +:+ "." +:+ init_sg; init_sg +:+ "." +:+ s].

(** FULL mode: g2 extended *)
Definition cn_full_g2 : list string :=
  if Py.truthy g2 then
    flat_map (fun d =>
      [g2 +:+ g +:+ si +:+ d;
       if Py.truthy a then ai +:+ g2 +:+ d else "";
       g2 +:+ "." +:+ g +:+ "." +:+ si]) dates
    ++ [g2 +:+ "." +:+ g +:+ si; g2 +:+ gi; g2 +:+ "." +:+ gi;
        if Py.truthy a then ai +:+ g2 else "";
        if Py.truthy a then ai +:+ "." +:+ g2 else ""]
    ++ (if Py.truthy a then
          [a +:+ g2; a +:+ "." +:+ g2]
          ++ flat_map (fun d =>
               [a +:+ g2 +:+ d; a +:+ "." +:+ g2 +:+ d; a +:+ g2 +:+ si +:+ d]) dates
        else [])
  else [].

(** FULL mode: alias2 extended *)
Definition cn_full_alias2 : list string :=
  if Py.truthy a2 then
    flat_map (fun d => [a2 +:+ d; a2 +:+ "." +:+ d; a2 +:+ g +:+ d]) dates
    ++ [a2 +:+ "." +:+ g; a2 +:+ "." +:+ s; a2 +:+ init_sg]
  else [].

(** The candidates appended whatever [full] is. *)
Definition cn_default : list string :=
  cn_tier1 ++ cn_tier2 ++ cn_tier3 ++ cn_tier4 ++ cn_tier5 ++ cn_tier6
  ++ cn_tier7 ++ cn_tier8 ++ cn_tier9 ++ cn_tier10 ++ cn_alias2.

(** The candidates appended under [if full:]. *)
Definition cn_full : list string :=
  cn_full_alias ++ cn_full_given ++ cn_full_surname ++ cn_full_g2
  ++ cn_full_alias2.

(** [combos] when [trim] is called. *)
Definition cn_combos (full : bool) : list string :=
  cn_default ++ (if full then cn_full else []).

End ChineseCombos.

Definition generate_chinese
  (last first alias alias2 year dob : string) (full : bool)
  : outcome (list string) :=
  let s := low (Py.strip last) in
  let a := if Py.truthy alias then low (Py.strip alias) else "" in
  let a2 := if Py.truthy alias2 then low (Py.strip alias2) else "" in
  let gparts := Py.split (low (Py.strip first)) in
  g1 ← (if (1 <=? length gparts)%nat then list_get gparts 0 else mret "");
  g2 ← (if (2 <=? length gparts)%nat then list_get gparts 1 else mret "");
  let g := g1 +:+ g2 in
  si ← ini s;
  g1i ← ini g1;
  g2i ← (if Py.truthy g2 then ini g2 else mret "");
  let gi := g1i +:+ g2i in
  ai ← (if Py.truthy a then ini a else mret "");
  let init_sg := si +:+ gi in
  let init_as := if Py.truthy ai then ai +:+ si else "" in
  let init_asg := if Py.truthy ai then ai +:+ init_sg else "" in
  '(yr4, yr2, dy2, md) ← parse_dates year dob;
  let dates := date_list yr4 yr2 dy2 md in
  mret (trim (cn_combos s a a2 g g2 si gi ai init_sg init_as init_asg
                yr2 dy2 dates full) MAX_LEN_CN).

(** ** Western name generator *)

Section WesternCombos.

Variables (f l m a a2 fi li mi ai init_fl init_fml ml yr2 dy2 md : string).
Variable dates : list string.

(** PLAIN NAME *)
Definition en_plain : list string :=
  [f +:+ l; l +:+ f]
  ++ (if Py.truthy m then [f +:+ mi +:+ l; ml] else []).

(** SHORT COMBOS *)
Definition en_short : list string :=
  [f +:+ li; fi +:+ l; f +:+ "." +:+ li; fi +:+ "." +:+ l; li +:+ "." +:+ f]
  ++ (if Py.truthy m then
        [f +:+ mi; f +:+ "." +:+ mi; fi +:+ "." +:+ m;
         fi +:+ mi +:+ "." +:+ l; f +:+ mi +:+ "." +:+ li]
      else []).

(** ALIAS COMBOS *)
Definition en_alias : list string :=
  if Py.truthy a then
    [a +:+ f; f +:+ a;
     a +:+ l; l +:+ a;
     a +:+ fi; ai +:+ f;
     a +:+ li; ai +:+ l;
     a +:+ "." +:+ fi; ai +:+ "." +:+ f;
     a +:+ "." +:+ li; ai +:+ "." +:+ l;
     li +:+ "." +:+ a; fi +:+ "." +:+ a]
    ++ (if Py.truthy m then [a +:+ init_fml] else [])
  else [].

(** ALIAS + DATE *)
Definition en_alias_date : list string :=
  if Py.truthy a then
    flat_map (fun d => [a +:+ d]) dates
    ++ (if Py.truthy dy2 && Py.truthy yr2 then [a +:+ dy2 +:+ yr2] else [])
  else [].

(** INITIALS *)
Definition en_initials : list string :=
  [init_fml; init_fml +:+ "." +:+ l; f +:+ "." +:+ init_fml]
  ++ flat_map (fun d => [init_fml +:+ d; init_fl +:+ d]) dates
  ++ (if Py.truthy a then
        let ai_fml := ai +:+ init_fml in [ai_fml]
      else []).

(** ALIAS + INITIALS (fl / fml) + DATE *)
Definition en_alias_initials : list string :=
  if Py.truthy a then
    [a +:+ init_fl; a +:+ "." +:+ init_fl; init_fl +:+ "." +:+ a]
    ++ flat_map (fun d =>
         [a +:+ init_fl +:+ d; a +:+ "." +:+ init_fl +:+ d]) dates
  else [].

(** ALIAS + LAST + DATE *)
Definition en_alias_last_date : list string :=
  if Py.truthy a then
    flat_map (fun d => [a +:+ l +:+ d; a +:+ "." +:+ l +:+ d]) dates
  else [].

(** DATE + NAME *)
Definition en_date_name : list string :=
  flat_map (fun d => [f +:+ d; l +:+ d]) dates
  ++ (if Py.truthy a then
        flat_map (fun d =>
          [a +:+ f +:+ d; a +:+ "." +:+ f +:+ d; a +:+ init_fml +:+ d]) dates
      else [])
  ++ (if Py.truthy md then
        if Py.truthy m then [ml +:+ md; ml +:+ dy2] else []
      else []).

(** SEPARATOR VARIANTS (dot only) *)
Definition en_dots : list string :=
  [f +:+ "." +:+ l; l +:+ "." +:+ f]
  ++ (if Py.truthy m then
        [f +:+ "." +:+ mi +:+ "." +:+ l; fi +:+ "." +:+ mi +:+ "." +:+ l]
      else [])
  ++ (if Py.truthy a then
        [a +:+ "." +:+ f; f +:+ "." +:+ a;
         a +:+ "." +:+ l; l +:+ "." +:+ a;
         a +:+ "." +:+ init_fml;
         init_fml +:+ "." +:+ a]
        ++ flat_map (fun d => [a +:+ "." +:+ init_fml +:+ d]) dates
        ++ (if Py.truthy m then
              [a +:+ f +:+ mi +:+ li; a +:+ fi +:+ li +:+ f]
            else [])
      else []).

(** FIRST + ALIAS combos *)
Definition en_first_alias : list string :=
  if Py.truthy a then
    [f +:+ a +:+ l; f +:+ "." +:+ a +:+ "." +:+ l;
     f +:+ a +:+ li; f +:+ "." +:+ a +:+ li]
    ++ flat_map (fun d =>
         [f +:+ a +:+ d; f +:+ "." +:+ a +:+ d; f +:+ a +:+ li +:+ d]) dates
    ++ [f +:+ ai; f +:+ "." +:+ ai]
    ++ flat_map (fun d => [f +:+ ai +:+ d; f +:+ "." +:+ ai +:+ d]) dates
  else [].

(** ALIAS2 (the same block is appended a second time in full mode) *)
Definition en_alias2 : list string :=
  if Py.truthy a2 then
    flat_map (fun sep =>
      [a2 +:+ sep +:+ f; a2 +:+ sep +:+ l;
       f +:+ sep +:+ a2;
       if Py.truthy a then a2 +:+ sep +:+ a else "";
       if Py.truthy a then a +:+ sep +:+ a2 else "";
       a2 +:+ sep +:+ init_fml]) [""; "."]
  else [].

(** FULL mode: primary tokens x all dates *)
Definition en_full_cores : list string :=
  let cores := List.filter Py.truthy [f; l; a; a2; init_fml; init_fl; ml] in
  flat_map (fun name =>
    flat_map (fun d => [name +:+ d; name +:+ "." +:+ d]) dates) cores.

Definition en_full_alias2 : list string :=
  if Py.truthy a2 then
    flat_map (fun sep =>
      [a2 +:+ sep +:+ f; a2 +:+ sep +:+ l; f +:+ sep +:+ a2;
       if Py.truthy a then a2 +:+ sep +:+ a else "";
       if Py.truthy a then a +:+ sep +:+ a2 else "";
       a2 +:+ sep +:+ init_fml]) [""; "."]
    ++ flat_map (fun d => [a2 +:+ d; a2 +:+ "." +:+ d]) dates
  else [].

Definition en_full_middle : list string :=
  if Py.truthy m then [f +:+ "." +:+ mi +:+ li; fi +:+ mi +:+ "." +:+ l] else [].

Definition en_full_alias : list string :=
  (if Py.truthy a then
     [ai +:+ "." +:+ f +:+ l; a +:+ "." +:+ f +:+ l; ai +:+ f +:+ "." +:+ l]
     ++ flat_map (fun d =>
          [f +:+ "." +:+ a +:+ "." +:+ d; f +:+ a +:+ init_fl +:+ d]) dates
   else [])
  ++ (if Py.truthy a && Py.truthy m then
        [if Py.truthy md then a +:+ "." +:+ init_fml +:+ md else ""]
      else []).

(** The candidates appended whatever [full] is. *)
Definition en_default : list string :=
  en_plain ++ en_short ++ en_alias ++ en_alias_date ++ en_initials
  ++ en_alias_initials ++ en_alias_last_date ++ en_date_name ++ en_dots
  ++ en_first_alias ++ en_alias2.

(** The candidates appended under [if full:]. *)
Definition en_full : list string :=
  en_full_cores ++ en_full_alias2 ++ en_full_middle ++ en_full_alias.

(** [combos] when [trim] is called. *)
Definition en_combos (full : bool) : list string :=
  en_default ++ (if full then en_full else []).

End WesternCombos.

Definition generate_western
  (first last middle alias alias2 year dob : string) (full : bool)
  : outcome (list string) :=
  let f := low (Py.strip first) in
  let l := low (Py.strip last) in
  let m := if Py.truthy middle then low (Py.strip middle) else "" in
  let a := if Py.truthy alias then low (Py.strip alias) else "" in
  let a2 := if Py.truthy alias2 then low (Py.strip alias2) else "" in
  fi ← ini f;
  li ← ini l;
  mi ← (if Py.truthy m then ini m else mret "");
  ai ← (if Py.truthy a then ini a else mret "");
  let init_fl := fi +:+ li in
  let init_fml := if Py.truthy mi then fi +:+ mi +:+ li else fi +:+ li in
  let ml := if Py.truthy m then m +:+ l else "" in
  '(yr4, yr2, dy2, md) ← parse_dates year dob;
  let dates := date_list yr4 yr2 dy2 md in
  mret (trim (en_combos f l m a a2 fi li mi ai init_fl init_fml ml
                yr2 dy2 md dates full) MAX_LEN_EN).

(** * Derived definitions

    Total counterparts of the monadic functions, the vocabulary of the
    specification, and the shapes of strings used in the proofs. *)

(** What [ini] returns. *)
Definition ini_of (s : string) : string :=
  match s with
  | "" => ""
  | String c _ => String (Py.lower_char c) ""
  end.

(** [yr4] after the [if year:] block of [parse_dates]. *)
Definition year_yr4 (year : string) : string :=
  if Py.truthy year then Py.last_n 4 (Py.strip year) else "".

(** What [parse_dates] returns. *)
Definition date_tokens (year dob : string) : string * string * string * string :=
  let y4 := year_yr4 year in
  match dob_parts dob with
  | [y; mo; dy] =>
      let yr4 := if Py.truthy y4 then y4 else y in
      (yr4, Py.last_n 2 yr4, Py.last_n 2 (Py.zfill 2 dy), Py.zfill 2 mo +:+ Py.zfill 2 dy)
  | _ => (y4, Py.last_n 2 y4, "", "")
  end.

(** The list [dates] of both generators. *)
Definition dates_of (year dob : string) : list string :=
  let '(yr4, yr2, dy2, md) := date_tokens year dob in date_list yr4 yr2 dy2 md.

(** [low(x.strip()) if x else ""]: the token of an optional field. *)
Definition opt_name (x : string) : string :=
  if Py.truthy x then low (Py.strip x) else "".

(** [gparts] of [generate_chinese]. *)
Definition given_parts (first : string) : list string :=
  Py.split (low (Py.strip first)).

(** The list [combos] of [generate_chinese] as a function of its inputs. *)
Definition cn_candidates
  (last first alias alias2 year dob : string) (full : bool) : list string :=
  let s := low (Py.strip last) in
  let a := opt_name alias in
  let a2 := opt_name alias2 in
  let g1 := nth 0 (given_parts first) "" in
  let g2 := nth 1 (given_parts first) "" in
  let g := g1 +:+ g2 in
  let si := ini_of s in
  let gi := ini_of g1 +:+ ini_of g2 in
  let ai := ini_of a in
  let init_sg := si +:+ gi in
  let init_as := if Py.truthy ai then ai +:+ si else "" in
  let init_asg := if Py.truthy ai then ai +:+ init_sg else "" in
  let '(yr4, yr2, dy2, md) := date_tokens year dob in
  cn_combos s a a2 g g2 si gi ai init_sg init_as init_asg yr2 dy2
    (date_list yr4 yr2 dy2 md) full.

(** The list [combos] of [generate_western] as a function of its inputs. *)
Definition en_candidates
  (first last middle alias alias2 year dob : string) (full : bool) : list string :=
  let f := low (Py.strip first) in
  let l := low (Py.strip last) in
  let m := opt_name middle in
  let a := opt_name alias in
  let a2 := opt_name alias2 in
  let fi := ini_of f in
  let li := ini_of l in
  let mi := ini_of m in
  let ai := ini_of a in
  let init_fl := fi +:+ li in
  let init_fml := if Py.truthy mi then fi +:+ mi +:+ li else fi +:+ li in
  let ml := if Py.truthy m then m +:+ l else "" in
  let '(yr4, yr2, dy2, md) := date_tokens year dob in
  en_combos f l m a a2 fi li mi ai init_fl init_fml ml yr2 dy2 md
    (date_list yr4 yr2 dy2 md) full.

(** Not empty and of a length in [[MIN_LEN, maxlen]]. *)
Definition in_window (maxlen : nat) (x : string) : Prop :=
  x ≠ "" ∧ (MIN_LEN ≤ Py.len x)%nat ∧ (Py.len x ≤ maxlen)%nat.

#[global] Instance in_window_dec maxlen x : Decision (in_window maxlen x).
Proof. unfold in_window. apply _. Defined.

(** Drops every repetition of an element after its first occurrence. *)
Fixpoint keep_first (l : list string) : list string :=
  match l with
  | [] => []
  | x :: l' => x :: filter (λ y, y ≠ x) (keep_first l')
  end.

(** The filter/dedupe stage as the specification words it: trim every
    entry, keep those in the length window, keep the first occurrence of
    each. *)
Definition trim_spec (lst : list string) (maxlen : nat) : list string :=
  keep_first (filter (in_window maxlen) (Py.strip <$> lst)).

(** Position of the first occurrence of [x] in [l] ([length l] if none). *)
Fixpoint first_index (x : string) (l : list string) : nat :=
  match l with
  | [] => 0
  | y :: l' => if decide (x = y) then 0 else S (first_index x l')
  end.

(** Scenario 1 of the specification. *)
Definition scenario_cn : outcome (list string) :=
  generate_chinese "Chan" "Tai Man" "Tommy" "" "" "2001/10/15" false.

(** Scenario 2 of the specification. *)
Definition scenario_en : outcome (list string) :=
  generate_western "Charlie" "Brown" "Monroe" "" "" "" "1990/03/22" false.

(** Shapes of characters and strings. *)
Definition is_dot (c : ascii) : bool := Ascii.eqb c ".".

Definition is_digit (c : ascii) : bool :=
  let n := N_of_ascii c in ((48 <=? n) && (n <=? 57))%N.

Definition not_space (c : ascii) : bool := negb (Py.is_space c).

Definition not_dot (c : ascii) : bool := negb (is_dot c).

Definition not_digit (c : ascii) : bool := negb (is_digit c).

(** Neither whitespace nor a dot. *)
Definition solid_char (c : ascii) : bool := not_space c && not_dot c.

(** The first character exists and satisfies [p]. *)
Definition hd_sat (p : ascii → bool) (s : string) : bool :=
  match s with
  | "" => false
  | String c _ => p c
  end.

(** The last character exists and satisfies [p]. *)
Fixpoint lst_sat (p : ascii → bool) (s : string) : bool :=
  match s with
  | "" => false
  | String c s' => if Py.truthy s' then lst_sat p s' else p c
  end.

(** Every character satisfies [p]. *)
Fixpoint all_sat (p : ascii → bool) (s : string) : bool :=
  match s with
  | "" => true
  | String c s' => p c && all_sat p s'
  end.

(** Two consecutive dots occur. *)
Fixpoint double_dot (s : string) : bool :=
  match s with
  | "" => false
  | String c s' => is_dot c && hd_sat is_dot s' || double_dot s'
  end.

(** Does not begin with a dot, does not end with a dot, has no two
    consecutive dots. *)
Definition dot_well_formed (s : string) : bool :=
  negb (hd_sat is_dot s) && negb (lst_sat is_dot s) && negb (double_dot s).

Definition no_dot (s : string) : Prop := all_sat not_dot s = true.

Definition no_digit (s : string) : Prop := all_sat not_digit s = true.

Definition all_digits (s : string) : Prop := all_sat is_digit s = true.

(** Some character is not whitespace. *)
Definition nonblank (s : string) : Prop := all_sat Py.is_space s = false.

(** A non-empty string that begins and ends with a character that is neither
    whitespace nor a dot, and has no two consecutive dots. *)
Definition firm (s : string) : Prop :=
  hd_sat solid_char s = true ∧ lst_sat solid_char s = true ∧ double_dot s = false.

(** Empty, or beginning and ending with a character that is not whitespace. *)
Definition edged (s : string) : Prop :=
  s = "" ∨ (hd_sat not_space s = true ∧ lst_sat not_space s = true).

(** What [trim] makes of the candidate [c] is dot-well-formed. *)
Definition good (c : string) : Prop := dot_well_formed (Py.strip c) = true.

(** [t] may follow any firm string in a candidate. *)
Definition after (t : string) : Prop := ∀ x, firm x → good (x +:+ t).

(** An optional token is empty or firm; under its guard it is firm. *)
Definition firm_opt (x : string) : Prop := x ≠ "" → firm x.

(** Some character is a dot. *)
Definition has_dot (c : string) : Prop := all_sat not_dot c = false.

(** The strings that [generate_chinese] puts directly in front of a date
    token, apart from those that contain a dot or the whole surname
    (alias + surname, g2 + surname, surname + given initials). *)
Definition cn_date_bodies (a a2 g g2 si ai init_sg : string) (full : bool)
  : list string :=
  (if Py.truthy a then [a; a +:+ g; a +:+ init_sg] else [])
  ++ (if Py.truthy g2 then [g2; g2 +:+ si; g2 +:+ g; g2 +:+ init_sg] else [])
  ++ [g +:+ si; g; init_sg]
  ++ (if Py.truthy a2 then [a2; a2 +:+ g] else [])
  ++ (if full then
        (if Py.truthy a then [a +:+ g +:+ si; ai +:+ g; ai +:+ init_sg] else [])
        ++ (if Py.truthy g2 then
              [g2 +:+ g +:+ si]
              ++ (if Py.truthy a then [ai +:+ g2; a +:+ g2; a +:+ g2 +:+ si] else [])
            else [])
      else []).

(** The same list for the inputs of [generate_chinese]. *)
Definition cn_bodies (last first alias alias2 : string) (full : bool) : list string :=
  let s := low (Py.strip last) in
  let a := opt_name alias in
  let a2 := opt_name alias2 in
  let g1 := nth 0 (given_parts first) "" in
  let g2 := nth 1 (given_parts first) "" in
  cn_date_bodies a a2 (g1 +:+ g2) g2 (ini_of s) (ini_of a)
    (ini_of s +:+ ini_of g1 +:+ ini_of g2) full.

(** A token made of the characters of a name. *)
Definition name_token (x : string) : Prop := no_digit x ∧ edged x.

(** The candidate [c] does not come out of [trim] as the surname [s]
    followed by the date token [d0]. *)
Definition bare_free (s d0 c : string) : Prop := Py.strip c ≠ s +:+ d0.

(** ** Classes of characters of the inputs and outputs *)

(** A character that [lower] leaves unchanged. *)
Definition lower_fixed (c : ascii) : bool := Ascii.eqb (Py.lower_char c) c.

(** A character allowed in a date of birth: one of [p], or a separator. *)
Definition or_separator (p : ascii → bool) (c : ascii) : bool :=
  p c || Ascii.eqb c "-" || Ascii.eqb c "/".

(** Neither '_' nor '-'. *)
Definition not_dash_underscore (c : ascii) : bool :=
  negb (Ascii.eqb c "_") && negb (Ascii.eqb c "-").

Definition not_underscore (c : ascii) : bool := negb (Ascii.eqb c "_").

(** ** The date token of a candidate *)

(** The digits that end a candidate: its date token. *)
Fixpoint date_part (c : string) : string :=
  match c with
  | "" => ""
  | String _ c' => if all_sat is_digit c then c else date_part c'
  end.

(** What precedes the date token. *)
Fixpoint name_part (c : string) : string :=
  match c with
  | "" => ""
  | String a c' => if all_sat is_digit c then "" else String a (name_part c')
  end.

(** The date tokens a candidate can end with: none, one of the four
    components of [parse_dates], or the day followed by the 2-character
    year. *)
Definition date_suffixes (yr4 yr2 dy2 md : string) : list string :=
  [""; yr4; yr2; md; dy2; dy2 +:+ yr2].

(** A candidate made of a name part without digits and a date token of
    [D]. *)
Definition dated (D : list string) (c : string) : Prop :=
  no_digit (name_part c) ∧ date_part c ∈ D.

(** ** Console, files and the command-line layer

    [ask_style] and [main] read the console and write to it and to a file.
    The state they act on is explicit: the lines still to be read on stdin
    (what [input] returns, one string per line), the strings written to
    stdout, in order, and the files written, in order, each with the content
    passed to [write].  What the platform decides is explicit too: the
    characters that the encoding of stdout and the encoding of text files
    can encode, and the paths that [open] can open for writing.  [print]
    raises [UnicodeEncodeError] on a string that stdout cannot encode,
    [open] raises [OSError] on a path that cannot be opened, and [write]
    raises [UnicodeEncodeError] on a content that cannot be encoded.  Both
    encodings are taken to hold the characters of ASCII.  [main] is modelled
    from the point where [parse_args] has returned, as a function of the
    parsed arguments. *)

Record environment : Type := Environment {
  stdout_encodes : ascii → bool;
  file_encodes : ascii → bool;
  can_open : string → bool
}.

Record world : Type := World {
  stdin : list string;
  stdout : list string;
  files : list (string * string);
  env : environment
}.

(** What a run of console code can raise. *)
Inductive io_exn : Type :=
| EOFError
| UnicodeEncodeError
| OSError
| Generator (e : exn).

Inductive run (A : Type) : Type :=
| Returned (a : A) (w : world)
| Raised (e : io_exn) (w : world).
Arguments Returned {A} a w.
Arguments Raised {A} e w.

Definition io (A : Type) : Type := world → run A.

#[global] Instance io_ret : MRet io := fun A a w => Returned a w.
#[global] Instance io_bind : MBind io := fun A B f m w =>
  match m w with
  | Returned a w' => f a w'
  | Raised e w' => Raised e w'
  end.

(** The newline character as a string. *)
Definition nl : string := String "010"%char "".

Definition is_ascii (c : ascii) : bool := (N_of_ascii c <? 128)%N.

(** An encoding that holds the characters [enc] beyond ASCII can encode
    [s]. *)
Definition encodable (enc : ascii → bool) (s : string) : bool :=
  all_sat (λ c, is_ascii c || enc c) s.

(** [print(s)]: nothing is written when [s] cannot be encoded. *)
Definition print (s : string) : io unit := fun w =>
  if encodable (stdout_encodes (env w)) s
  then Returned tt (World (stdin w) (stdout w ++ [s +:+ nl]) (files w) (env w))
  else Raised UnicodeEncodeError w.

(** [with open(path, "w") as fh: fh.write(content)]: [open] empties the
    file, which stays empty when [write] raises. *)
Definition write_file (path content : string) : io unit := fun w =>
  if can_open (env w) path then
    if encodable (file_encodes (env w)) content
    then Returned tt
           (World (stdin w) (stdout w) (files w ++ [(path, content)]) (env w))
    else Raised UnicodeEncodeError
           (World (stdin w) (stdout w) (files w ++ [(path, "")]) (env w))
  else Raised OSError w.

(** A value of the error monad of the generators, in [io]. *)
Definition lift {A} (o : outcome A) : io A := fun w =>
  match o with
  | Ok a => Returned a w
  | Raise e => Raised (Generator e) w
  end.

(** [sep.join(l)] *)
Fixpoint join (sep : string) (l : list string) : string :=
  match l with
  | [] => ""
  | [x] => x
  | x :: l' => x +:+ sep +:+ join sep l'
  end.

(** [s * n] *)
Fixpoint repeat_str (s : string) (n : nat) : string :=
  match n with
  | O => ""
  | S n' => s +:+ repeat_str s n'
  end.

(** The [while True] loop of [ask_style] with [lines] left on stdin: one
    iteration per line read.  [input(prompt)] writes the prompt, then
    returns the next line of stdin or raises [EOFError] when there is
    none. *)
Fixpoint ask_loop (lines : list string) (w : world) : run string :=
  match lines with
  | [] =>
      Raised EOFError
        (World [] (stdout w ++ ["    Enter 1 or 2: "]) (files w) (env w))
  | line :: rest =>
      let w1 :=
        World rest (stdout w ++ ["    Enter 1 or 2: "]) (files w) (env w) in
      let choice := Py.strip line in
      if String.eqb choice "1" then Returned "chinese" w1
      else if String.eqb choice "2" then Returned "western" w1
      else match print "    Please enter 1 or 2." w1 with
           | Returned _ w2 => ask_loop rest w2
           | Raised e w2 => Raised e w2
           end
  end.

Definition ask_style : io string := fun w =>
  match
    (print (nl +:+ "[?] Is the target Chinese or Western?") ≫= λ _,
     print "    1) Chinese  -- surname first  (e.g. chan tai man, alias tommy)" ≫= λ _,
     print "    2) Western  -- given name first  (e.g. charlie monroe brown)") w
  with
  | Returned _ w' => ask_loop (stdin w') w'
  | Raised e w' => Raised e w'
  end.

(** The namespace returned by [parse_args]. *)
Record args : Type := Args {
  a_style : option string;
  a_first : string;
  a_last : string;
  a_middle : string;
  a_alias : string;
  a_alias2 : string;
  a_year : string;
  a_dob : string;
  a_full : bool;
  a_output : string;
  a_no_print : bool
}.

(** [if c: m] *)
Definition when (c : bool) (m : io unit) : io unit :=
  if c then m else mret tt.

(** [for u in l: print(u)] *)
Fixpoint print_all (l : list string) : io unit :=
  match l with
  | [] => mret tt
  | u :: l' => print u ≫= λ _, print_all l'
  end.

(** [main], after [args = parse_args()]. *)
Definition main (ar : args) : io unit :=
  style ← (match a_style ar with
           | Some st => if Py.truthy st then mret st else ask_style
           | None => ask_style
           end);
  usernames ←
    (if String.eqb style "chinese" then
       usernames ← lift (generate_chinese (a_last ar) (a_first ar) (a_alias ar)
                           (a_alias2 ar) (a_year ar) (a_dob ar) (a_full ar));
       print (nl +:+ "[+] Style   : Chinese (surname first)") ≫= λ _,
       print ("[+] Surname : " +:+ Py.lower (a_last ar)) ≫= λ _,
       print ("[+] Given   : " +:+ Py.lower (a_first ar)) ≫= λ _,
       when (Py.truthy (a_alias ar))
         (print ("[+] Alias   : " +:+ Py.lower (a_alias ar))) ≫= λ _,
       mret usernames
     else
       usernames ← lift (generate_western (a_first ar) (a_last ar) (a_middle ar)
                           (a_alias ar) (a_alias2 ar) (a_year ar) (a_dob ar)
                           (a_full ar));
       print (nl +:+ "[+] Style   : Western (given name first)") ≫= λ _,
       print ("[+] First   : " +:+ Py.lower (a_first ar)) ≫= λ _,
       when (Py.truthy (a_middle ar))
         (print ("[+] Middle  : " +:+ Py.lower (a_middle ar))) ≫= λ _,
       print ("[+] Last    : " +:+ Py.lower (a_last ar)) ≫= λ _,
       when (Py.truthy (a_alias ar))
         (print ("[+] Alias   : " +:+ Py.lower (a_alias ar))) ≫= λ _,
       mret usernames);
  when (Py.truthy (a_dob ar) || Py.truthy (a_year ar))
    (print ("[+] DOB     : "
            +:+ (if Py.truthy (a_dob ar) then a_dob ar else a_year ar))) ≫= λ _,
  let mode := if a_full ar then "FULL" else "DEFAULT" in
  let maxlen := if String.eqb style "chinese" then MAX_LEN_CN else MAX_LEN_EN in
  let header :=
    "[+] Generated " +:+ pretty (length usernames) +:+ " usernames "
    +:+ "(" +:+ mode +:+ " mode " +:+ String "183"%char "" +:+ " "
    +:+ pretty MIN_LEN +:+ "-" +:+ pretty maxlen +:+ " chars)" in
  print header ≫= λ _,
  print (repeat_str "-" (Py.len header)) ≫= λ _,
  when (negb (a_no_print ar)) (print_all usernames) ≫= λ _,
  when (Py.truthy (a_output ar))
    (write_file (a_output ar) (join nl usernames +:+ nl) ≫= λ _,
     print (nl +:+ "[+] Saved to: " +:+ a_output ar)).

(** In the environment [e], [m] returns [a], reads nothing, writes [out] to
    stdout and the files [fs]. *)
Definition effects {A} (e : environment) (m : io A) (a : A) (out : list string)
  (fs : list (string * string)) : Prop :=
  ∀ w, env w = e →
    m w = Returned a (World (stdin w) (stdout w ++ out) (files w ++ fs) e).

(** In the environment [e], [m] raises [x], having read nothing and written
    [out] to stdout and the files [fs]. *)
Definition raises {A} (e : environment) (m : io A) (x : io_exn)
  (out : list string) (fs : list (string * string)) : Prop :=
  ∀ w, env w = e →
    m w = Raised x (World (stdin w) (stdout w ++ out) (files w ++ fs) e).

(** Stdin, the files and the environment are the same in [w] and [w']. *)
Definition same_files (w w' : world) : Prop :=
  stdin w' = stdin w ∧ files w' = files w ∧ env w' = env w.

(** [m] reads nothing and writes no file, and raises nothing but
    [UnicodeEncodeError]. *)
Definition quiet {A} (m : io A) : Prop :=
  ∀ w, (∃ a w', m w = Returned a w' ∧ same_files w w')
       ∨ (∃ w', m w = Raised UnicodeEncodeError w' ∧ same_files w w').

(** In the environment [e], [m] raises [UnicodeEncodeError], having read
    nothing and written no file. *)
Definition fails_encoding {A} (e : environment) (m : io A) : Prop :=
  ∀ w, env w = e → ∃ w', m w = Raised UnicodeEncodeError w' ∧ same_files w w'.

(** A line that is not an answer to the style prompt. *)
Definition not_answer (line : string) : Prop :=
  Py.strip line ≠ "1" ∧ Py.strip line ≠ "2".


(** What [ask_style] writes before the first prompt. *)
Definition ask_banner : list string :=
  [(nl +:+ "[?] Is the target Chinese or Western?") +:+ nl;
   "    1) Chinese  -- surname first  (e.g. chan tai man, alias tommy)" +:+ nl;
   "    2) Western  -- given name first  (e.g. charlie monroe brown)" +:+ nl].

(** What it writes for a line that is not an answer. *)
Definition ask_retry : list string :=
  ["    Enter 1 or 2: "; "    Please enter 1 or 2." +:+ nl].


(** The list [usernames] of [main] for a given style. *)
Definition main_usernames (ar : args) (style : string) : list string :=
  if String.eqb style "chinese"
  then trim (cn_candidates (a_last ar) (a_first ar) (a_alias ar) (a_alias2 ar)
               (a_year ar) (a_dob ar) (a_full ar)) MAX_LEN_CN
  else trim (en_candidates (a_first ar) (a_last ar) (a_middle ar) (a_alias ar)
               (a_alias2 ar) (a_year ar) (a_dob ar) (a_full ar)) MAX_LEN_EN.


(** The fields of the arguments can be encoded: the name fields once
    lowercased, the year and the date of birth as they are. *)
Definition args_encodable (enc : ascii → bool) (ar : args) : Prop :=
  Forall (λ x, encodable enc (Py.lower x) = true)
    [a_first ar; a_last ar; a_middle ar; a_alias ar; a_alias2 ar]
  ∧ Forall (λ x, encodable enc x = true) [a_year ar; a_dob ar].

(** Stdout can encode what [main] prints: the middle dot of the header, the
    fields of the arguments and the output path. *)
Definition console_ok (e : environment) (ar : args) : Prop :=
  stdout_encodes e "183"%char = true
  ∧ args_encodable (stdout_encodes e) ar
  ∧ encodable (stdout_encodes e) (a_output ar) = true.



(** A platform whose console and files encode ASCII only. *)
Definition ascii_only : environment :=
  Environment (λ _, false) (λ _, false) (λ _, true).


(** A platform whose console encodes every character and whose files encode
    ASCII only. *)
Definition ascii_files : environment :=
  Environment (λ _, true) (λ _, false) (λ _, true).

(** * Properties *)

Example parse_dates_doc :
  parse_dates "" "2001/10/15" = Ok ("2001", "01", "15", "1015").
Proof. reflexivity. Qed.

Example trim_ex :
  trim ["  abcdefg "; "abc"; "abcdefg"; "hijklmnop"; ""; "abcdefghijklmnopqrstu"] 16
  = ["abcdefg"; "hijklmnop"].
Proof. vm_compute. reflexivity. Qed.

Example split_ex : Py.split "  tai  man x " = ["tai"; "man"; "x"].
Proof. reflexivity. Qed.

Example zfill_ex : (Py.zfill 2 "5", Py.zfill 2 "+", Py.zfill 2 "", Py.zfill 2 "123")
  = ("05", "+0", "00", "123").
Proof. reflexivity. Qed.

(** ** The generators raise no exception

    Every index is guarded, so each monadic function returns [Ok] of the
    value given by its total counterpart. *)

Lemma ini_ok s : ini s = Ok (ini_of s).
Proof. destruct s; reflexivity. Qed.

Lemma ini_guard_ok s : (if Py.truthy s then ini s else mret "") = Ok (ini_of s).
Proof. destruct s; reflexivity. Qed.

Lemma get0_ok (l : list string) :
  (if (1 <=? length l)%nat then list_get l 0 else mret "") = Ok (nth 0 l "").
Proof. destruct l; reflexivity. Qed.

Lemma get1_ok (l : list string) :
  (if (2 <=? length l)%nat then list_get l 1 else mret "") = Ok (nth 1 l "").
Proof. destruct l as [|x [|y l']]; reflexivity. Qed.

Lemma parse_dates_ok year dob : parse_dates year dob = Ok (date_tokens year dob).
Proof.
  unfold parse_dates, date_tokens, year_yr4.
  destruct (Py.truthy year); cbn zeta iota beta.
  - destruct dob as [|c dob']; [reflexivity|]. cbn [Py.truthy].
    destruct (dob_parts (String c dob')) as [|y [|mo [|dy [|z ps]]]];
      try reflexivity.
    cbn. destruct (Py.truthy (Py.last_n 4 (Py.strip year))); reflexivity.
  - destruct dob as [|c dob']; [reflexivity|]. cbn [Py.truthy].
    destruct (dob_parts (String c dob')) as [|y [|mo [|dy [|z ps]]]];
      reflexivity.
Qed.

Lemma generate_chinese_ok last first alias alias2 year dob full :
  generate_chinese last first alias alias2 year dob full
  = Ok (trim (cn_candidates last first alias alias2 year dob full) MAX_LEN_CN).
Proof.
  unfold generate_chinese, cn_candidates.
  rewrite get0_ok, get1_ok. cbn [mbind outcome_bind].
  rewrite !ini_guard_ok, !ini_ok. cbn [mbind outcome_bind].
  rewrite parse_dates_ok. cbn [mbind outcome_bind].
  fold (given_parts first). fold (opt_name alias). fold (opt_name alias2).
  destruct (date_tokens year dob) as [[[yr4 yr2] dy2] md]. reflexivity.
Qed.

Lemma generate_western_ok first last middle alias alias2 year dob full :
  generate_western first last middle alias alias2 year dob full
  = Ok (trim (en_candidates first last middle alias alias2 year dob full) MAX_LEN_EN).
Proof.
  unfold generate_western, en_candidates.
  rewrite !ini_guard_ok, !ini_ok. cbn [mbind outcome_bind].
  rewrite parse_dates_ok. cbn [mbind outcome_bind].
  fold (opt_name middle). fold (opt_name alias). fold (opt_name alias2).
  destruct (date_tokens year dob) as [[[yr4 yr2] dy2] md]. reflexivity.
Qed.

(** ** The filter/dedupe stage *)

Section TrimFacts.

Variable maxlen : nat.

Lemma truthy_ne x : Py.truthy x = true ↔ x ≠ "".
Proof. destruct x; cbn; split; congruence. Qed.

Lemma truthy_false x : Py.truthy x = false ↔ x = "".
Proof. destruct x; cbn; split; congruence. Qed.

Lemma window_test x :
  Py.truthy x && (MIN_LEN <=? Py.len x)%nat && (Py.len x <=? maxlen)%nat = true
  ↔ in_window maxlen x.
Proof.
  unfold in_window. rewrite !andb_true_iff, truthy_ne.
  rewrite !Nat.leb_le. tauto.
Qed.

Lemma trim_step_keep seen result x :
  in_window maxlen (Py.strip x) → Py.strip x ∉ seen →
  trim_step maxlen (seen, result) x
  = ({[Py.strip x]} ∪ seen, result ++ [Py.strip x]).
Proof.
  intros Hw Hn. unfold trim_step.
  apply window_test in Hw. rewrite Hw.
  rewrite bool_decide_eq_false_2 by done. reflexivity.
Qed.

Lemma trim_step_seen seen result x :
  Py.strip x ∈ seen → trim_step maxlen (seen, result) x = (seen, result).
Proof.
  intros Hin. unfold trim_step.
  rewrite (bool_decide_eq_true_2 _ Hin). cbn. by rewrite andb_false_r.
Qed.

Lemma trim_step_out seen result x :
  ¬ in_window maxlen (Py.strip x) →
  trim_step maxlen (seen, result) x = (seen, result).
Proof.
  intros Hw. unfold trim_step.
  destruct (Py.truthy (Py.strip x) && (MIN_LEN <=? Py.len (Py.strip x))%nat
            && (Py.len (Py.strip x) <=? maxlen)%nat) eqn:E; [|done].
  apply window_test in E. contradiction.
Qed.

(** The loop of [trim] from any state whose [seen] holds the elements of
    [result]. *)
Lemma trim_loop lst : ∀ (seen : gset string) (result : list string),
  (∀ x, x ∈ seen ↔ x ∈ result) →
  snd (fold_left (trim_step maxlen) lst (seen, result))
  = result ++ filter (λ y, y ∉ result) (trim_spec lst maxlen).
Proof.
  induction lst as [|x lst IH]; intros seen result Hinv.
  - cbn. by rewrite app_nil_r.
  - cbn [fold_left]. unfold trim_spec. rewrite fmap_cons.
    destruct (decide (in_window maxlen (Py.strip x))) as [Hw|Hw].
    + rewrite filter_cons_True by done. cbn [keep_first].
      destruct (decide (Py.strip x ∈ seen)) as [Hs|Hs].
      * rewrite trim_step_seen by done. rewrite IH by done.
        rewrite filter_cons_False by (rewrite <-Hinv; tauto).
        f_equal. unfold trim_spec. symmetry.
        apply list_filter_filter_l. intros y Hy ->. by apply Hy, Hinv.
      * rewrite trim_step_keep by done. rewrite IH.
        2:{ intros y. rewrite elem_of_union, elem_of_singleton, elem_of_app,
              list_elem_of_singleton, Hinv. tauto. }
        rewrite filter_cons_True by (rewrite <-Hinv; tauto).
        rewrite <-app_assoc. cbn [app]. do 2 f_equal. unfold trim_spec.
        rewrite list_filter_filter. apply list_filter_iff.
        intros y. rewrite elem_of_app, list_elem_of_singleton. tauto.
    + rewrite filter_cons_False by done.
      rewrite trim_step_out by done. by rewrite IH.
Qed.

Lemma trim_refines lst : trim lst maxlen = trim_spec lst maxlen.
Proof.
  unfold trim. rewrite trim_loop by set_solver.
  cbn [app]. induction (trim_spec lst maxlen) as [|y l IH]; [done|].
  rewrite filter_cons_True by apply not_elem_of_nil. by rewrite IH.
Qed.

Lemma elem_of_keep_first l x : x ∈ keep_first l ↔ x ∈ l.
Proof.
  induction l as [|y l IH]; [done|]. cbn [keep_first].
  rewrite !elem_of_cons, list_elem_of_filter, IH.
  destruct (decide (x = y)); tauto.
Qed.

Lemma NoDup_keep_first l : NoDup (keep_first l).
Proof.
  induction l as [|y l IH]; cbn [keep_first]; [constructor|].
  apply NoDup_cons. split; [|by apply NoDup_filter].
  rewrite list_elem_of_filter. tauto.
Qed.

Lemma StronglySorted_filter {A} (R : A → A → Prop) (P : A → Prop)
  `{!∀ x, Decision (P x)} (l : list A) :
  StronglySorted R l → StronglySorted R (filter P l).
Proof.
  induction l as [|y l IH]; [done|].
  rewrite StronglySorted_cons. intros [Hy Hl]. rewrite filter_cons.
  destruct (decide (P y)); [|auto].
  apply StronglySorted_cons. split; [|auto].
  apply Forall_forall. intros z Hz. apply list_elem_of_filter in Hz as [_ Hz].
  rewrite Forall_forall in Hy. auto.
Qed.

Lemma filter_all {A} (P : A → Prop) `{!∀ x, Decision (P x)} (l : list A) :
  Forall P l → filter P l = l.
Proof.
  induction 1 as [|y l Hy Hl IH]; [done|].
  rewrite filter_cons_True by done. by rewrite IH.
Qed.

(** Later survivors of [keep_first] first occur later in the list. *)
Lemma keep_first_order (P : string → Prop) `{!∀ x, Decision (P x)} (l : list string) :
  StronglySorted (λ x y, first_index x l < first_index y l)
    (keep_first (filter P l)).
Proof.
  induction l as [|z l IH]; [constructor|].
  assert (Hshift : StronglySorted
            (λ x y, first_index x (z :: l) < first_index y (z :: l))
            (filter (λ y, y ≠ z) (keep_first (filter P l)))).
  { apply (StronglySorted_filter _ (λ y, y ≠ z)) in IH.
    revert IH. generalize (keep_first (filter P l)). intros k.
    induction k as [|a k IHk]; [constructor|].
    rewrite !filter_cons. destruct (decide (a ≠ z)) as [Ha|Ha]; [|auto].
    rewrite !StronglySorted_cons. intros [Hhd Htl]. split; [|auto].
    rewrite !Forall_forall in *. intros b Hb. specialize (Hhd b Hb).
    apply list_elem_of_filter in Hb as [Hb _]. cbn [first_index].
    rewrite !decide_False by done. lia. }
  rewrite filter_cons. destruct (decide (P z)); cbn [keep_first].
  - apply StronglySorted_cons. split; [|done].
    apply Forall_forall. intros b Hb. apply list_elem_of_filter in Hb as [Hb _].
    cbn [first_index]. rewrite decide_True by done.
    rewrite decide_False by done. lia.
  - rewrite (filter_all (λ y, y ≠ z)) in Hshift; [done|].
    apply Forall_forall. intros b Hb ->.
    apply elem_of_keep_first, list_elem_of_filter in Hb. tauto.
Qed.

Lemma trim_step_inv (st : gset string * list string) x :
  (∀ y, y ∈ st.1 ↔ y ∈ st.2) →
  ∀ y, y ∈ (trim_step maxlen st x).1 ↔ y ∈ (trim_step maxlen st x).2.
Proof.
  destruct st as [seen result]. cbn [fst snd]. intros Hinv y.
  destruct (decide (in_window maxlen (Py.strip x))) as [Hw|Hw].
  - destruct (decide (Py.strip x ∈ seen)) as [Hs|Hs].
    + rewrite trim_step_seen by done. apply Hinv.
    + rewrite trim_step_keep by done. cbn [fst snd].
      rewrite elem_of_union, elem_of_singleton, elem_of_app,
        list_elem_of_singleton, Hinv. tauto.
  - rewrite trim_step_out by done. apply Hinv.
Qed.

Lemma trim_fold_inv lst : ∀ (st : gset string * list string),
  (∀ y, y ∈ st.1 ↔ y ∈ st.2) →
  ∀ y, y ∈ (fold_left (trim_step maxlen) lst st).1
       ↔ y ∈ (fold_left (trim_step maxlen) lst st).2.
Proof.
  induction lst as [|x lst IH]; intros st Hinv; [done|].
  cbn [fold_left]. apply IH. by apply trim_step_inv.
Qed.

(** Appending candidates only appends to the output. *)
Lemma trim_app l1 l2 :
  trim (l1 ++ l2) maxlen
  = trim l1 maxlen ++ filter (λ y, y ∉ trim l1 maxlen) (trim_spec l2 maxlen).
Proof.
  unfold trim. rewrite fold_left_app.
  pose proof (trim_fold_inv l1 (∅, [])) as Hinv.
  destruct (fold_left (trim_step maxlen) l1 (∅, [])) as [seen result].
  apply trim_loop. cbn [fst snd] in Hinv. apply Hinv.
  intros y. by rewrite elem_of_empty, elem_of_nil.
Qed.

Lemma trim_app_prefix l1 l2 : trim l1 maxlen `prefix_of` trim (l1 ++ l2) maxlen.
Proof. rewrite trim_app. by apply prefix_app_r. Qed.

Lemma elem_of_trim lst x :
  x ∈ trim lst maxlen ↔ x ∈ (Py.strip <$> lst) ∧ in_window maxlen x.
Proof.
  rewrite trim_refines. unfold trim_spec.
  rewrite elem_of_keep_first, list_elem_of_filter. tauto.
Qed.

Lemma trim_window lst :
  Forall (λ x, (MIN_LEN ≤ Py.len x)%nat ∧ (Py.len x ≤ maxlen)%nat) (trim lst maxlen).
Proof.
  apply Forall_forall. intros x Hx. apply elem_of_trim in Hx as [_ (_ & ? & ?)].
  done.
Qed.

Lemma trim_NoDup lst : NoDup (trim lst maxlen).
Proof. rewrite trim_refines. apply NoDup_keep_first. Qed.

End TrimFacts.

(** C3. For every list and every [maxlen], [trim] returns the whitespace-
    trimmed entries whose length is in [6, maxlen], without the empty ones
    and without repetitions, each at the place of its first occurrence: it
    is [trim_spec]; an entry is returned exactly when it is a trimmed input
    in the window; no entry is repeated; and the returned entries are ordered
    by the position of their first occurrence among the trimmed inputs. *)
Theorem trim_filter_dedupe (lst : list string) (maxlen : nat) :
  trim lst maxlen = trim_spec lst maxlen
  ∧ (∀ x, x ∈ trim lst maxlen
          ↔ x ∈ (Py.strip <$> lst)
            ∧ x ≠ "" ∧ (MIN_LEN ≤ Py.len x)%nat ∧ (Py.len x ≤ maxlen)%nat)
  ∧ NoDup (trim lst maxlen)
  ∧ StronglySorted
      (λ x y, first_index x (Py.strip <$> lst) < first_index y (Py.strip <$> lst))
      (trim lst maxlen).
Proof.
  split; [apply trim_refines|].
  split; [intros x; apply elem_of_trim|].
  split; [apply trim_NoDup|].
  rewrite trim_refines. apply keep_first_order.
Qed.

(** C4. Every string returned by [generate_chinese] has length between 6 and
    16, every string returned by [generate_western] has length between 6 and
    18, and neither returned list repeats an element. *)
Theorem generators_length_nodup
  (last first middle alias alias2 year dob : string) (full : bool) :
  (∃ r, generate_chinese last first alias alias2 year dob full = Ok r
        ∧ Forall (λ x, (6 ≤ Py.len x)%nat ∧ (Py.len x ≤ 16)%nat) r
        ∧ NoDup r)
  ∧ (∃ r, generate_western first last middle alias alias2 year dob full = Ok r
          ∧ Forall (λ x, (6 ≤ Py.len x)%nat ∧ (Py.len x ≤ 18)%nat) r
          ∧ NoDup r).
Proof.
  split.
  - eexists. split; [apply generate_chinese_ok|].
    split; [apply (trim_window MAX_LEN_CN)|apply trim_NoDup].
  - eexists. split; [apply generate_western_ok|].
    split; [apply (trim_window MAX_LEN_EN)|apply trim_NoDup].
Qed.

Lemma cn_candidates_full last first alias alias2 year dob :
  ∃ extra, cn_candidates last first alias alias2 year dob true
           = cn_candidates last first alias alias2 year dob false ++ extra.
Proof.
  unfold cn_candidates. destruct (date_tokens year dob) as [[[yr4 yr2] dy2] md].
  unfold cn_combos. rewrite app_nil_r. eauto.
Qed.

Lemma en_candidates_full first last middle alias alias2 year dob :
  ∃ extra, en_candidates first last middle alias alias2 year dob true
           = en_candidates first last middle alias alias2 year dob false ++ extra.
Proof.
  unfold en_candidates. destruct (date_tokens year dob) as [[[yr4 yr2] dy2] md].
  unfold en_combos. rewrite app_nil_r. eauto.
Qed.

(** C7. For the same inputs, the list returned with [full=False] is a prefix
    of the list returned with [full=True]; so every candidate of default mode
    also appears in full mode. *)
Theorem full_mode_superset
  (last first middle alias alias2 year dob : string) :
  (∃ r0 r1, generate_chinese last first alias alias2 year dob false = Ok r0
            ∧ generate_chinese last first alias alias2 year dob true = Ok r1
            ∧ r0 `prefix_of` r1 ∧ ∀ x, x ∈ r0 → x ∈ r1)
  ∧ (∃ r0 r1, generate_western first last middle alias alias2 year dob false = Ok r0
              ∧ generate_western first last middle alias alias2 year dob true = Ok r1
              ∧ r0 `prefix_of` r1 ∧ ∀ x, x ∈ r0 → x ∈ r1).
Proof.
  split.
  - do 2 eexists. split; [apply generate_chinese_ok|].
    split; [apply generate_chinese_ok|].
    destruct (cn_candidates_full last first alias alias2 year dob) as [extra ->].
    pose proof (trim_app_prefix MAX_LEN_CN
      (cn_candidates last first alias alias2 year dob false) extra) as Hp.
    split; [done|]. intros x Hx. by apply (elem_of_prefix _ _ _ Hx).
  - do 2 eexists. split; [apply generate_western_ok|].
    split; [apply generate_western_ok|].
    destruct (en_candidates_full first last middle alias alias2 year dob) as [extra ->].
    pose proof (trim_app_prefix MAX_LEN_EN
      (en_candidates first last middle alias alias2 year dob false) extra) as Hp.
    split; [done|]. intros x Hx. by apply (elem_of_prefix _ _ _ Hx).
Qed.

(** ** Scenarios *)

Ltac concrete_list := apply (bool_decide_unpack _); vm_compute; exact I.

(** C2. [generate_chinese(last="Chan", first="Tai Man", alias="Tommy",
    dob="2001/10/15")] returns a list that includes "tommy2001", "tommy01",
    "tommy1015", "tommy15", "tommy1501", "tommyctm", "tommy.ctm", "manchan",
    "taimanc" and "ctm2001", and excludes "tommy10", "ctm" and "chan2001". *)
Theorem chinese_scenario :
  ∃ r, scenario_cn = Ok r
       ∧ Forall (λ x, x ∈ r)
           ["tommy2001"; "tommy01"; "tommy1015"; "tommy15"; "tommy1501";
            "tommyctm"; "tommy.ctm"; "manchan"; "taimanc"; "ctm2001"]
       ∧ Forall (λ x, x ∉ r) ["tommy10"; "ctm"; "chan2001"].
Proof.
  eexists. split; [vm_compute; reflexivity|].
  split; concrete_list.
Qed.

(** C1, as the code has it.  [generate_western(first="Charlie",
    middle="Monroe", last="Brown", dob="1990/03/22")] returns a list that
    includes "charliebrown", "browncharlie", "charlie.brown", "cmb0322" and
    "charliem", and excludes "charlie03", "cb" and also "cmb90", which has
    5 characters and is dropped by the length window. *)
Theorem western_scenario :
  ∃ r, scenario_en = Ok r
       ∧ Forall (λ x, x ∈ r)
           ["charliebrown"; "browncharlie"; "charlie.brown"; "cmb0322"; "charliem"]
       ∧ Forall (λ x, x ∉ r) ["charlie03"; "cb"; "cmb90"].
Proof.
  eexists. split; [vm_compute; reflexivity|].
  split; concrete_list.
Qed.

(** C1 as stated fails: "cmb90" is not in the returned list. *)
Lemma cmb90_not_returned :
  ¬ ∃ r, scenario_en = Ok r
         ∧ Forall (λ x, x ∈ r)
             ["charliebrown"; "browncharlie"; "charlie.brown"; "cmb0322";
              "cmb90"; "charliem"]
         ∧ Forall (λ x, x ∉ r) ["charlie03"; "cb"].
Proof.
  intros (r & Hr & Hin & _).
  vm_compute in Hr. injection Hr as <-.
  pose proof (proj1 (Forall_forall _ _) Hin "cmb90") as H.
  revert H. apply (bool_decide_unpack _). vm_compute. exact I.
Qed.

(** ** Basic facts on strings *)

Lemma str_app_cons c x y : String c x +:+ y = String c (x +:+ y).
Proof. reflexivity. Qed.

Lemma str_app_nil_l x : "" +:+ x = x.
Proof. reflexivity. Qed.

Lemma str_app_nil_r x : x +:+ "" = x.
Proof. induction x as [|c x IH]; [done|]. by rewrite str_app_cons, IH. Qed.

Lemma str_app_assoc x y z : (x +:+ y) +:+ z = x +:+ y +:+ z.
Proof. induction x as [|c x IH]; [done|]. by rewrite !str_app_cons, IH. Qed.

Lemma len_app x y : Py.len (x +:+ y) = Py.len x + Py.len y.
Proof.
  induction x as [|c x IH]; [done|].
  rewrite str_app_cons. unfold Py.len in *. cbn. by rewrite IH.
Qed.

Lemma len_cons c x : Py.len (String c x) = S (Py.len x).
Proof. reflexivity. Qed.

Lemma len_zero x : Py.len x = 0 ↔ x = "".
Proof. destruct x; cbn; split; (done || lia). Qed.

Lemma strip_nil : Py.strip "" = "".
Proof. reflexivity. Qed.

Lemma len_zeros n : Py.len (Py.zeros n) = n.
Proof. induction n as [|n IH]; [done|]. unfold Py.len in *. cbn. by rewrite IH. Qed.

Lemma len_zfill width x : width ≤ Py.len (Py.zfill width x).
Proof.
  unfold Py.zfill. destruct (width <=? Py.len x)%nat eqn:E.
  - by apply Nat.leb_le.
  - apply Nat.leb_gt in E. destruct x as [|c x].
    + rewrite len_zeros. change (Py.len "") with 0. lia.
    + destruct (Ascii.eqb c "+" || Ascii.eqb c "-").
      * rewrite len_cons in E. rewrite len_cons, len_app, len_zeros, len_cons. lia.
      * rewrite len_app, len_zeros. lia.
Qed.

(** [zfill(2)] on the shapes a date part can have. *)
Lemma zfill2_long x : 2 ≤ Py.len x → Py.zfill 2 x = x.
Proof.
  intros H. unfold Py.zfill. by rewrite (proj2 (Nat.leb_le _ _) H).
Qed.

Lemma zfill2_one c :
  c ≠ "+"%char → c ≠ "-"%char → Py.zfill 2 (String c "") = String "0" (String c "").
Proof.
  intros H1 H2. unfold Py.zfill. cbn.
  apply Ascii.eqb_neq in H1, H2. by rewrite H1, H2.
Qed.

Lemma zfill2_empty : Py.zfill 2 "" = "00".
Proof. reflexivity. Qed.

Lemma year_yr4_strip year : Py.strip year ≠ "" → year_yr4 year = Py.last_n 4 (Py.strip year).
Proof. unfold year_yr4. destruct year; [done|]. done. Qed.

Lemma year_yr4_blank year : Py.strip year = "" → year_yr4 year = "".
Proof. unfold year_yr4. intros ->. by destruct (Py.truthy year). Qed.

Lemma drop_nonempty n x : n < Py.len x → Py.drop n x ≠ "".
Proof.
  revert x. induction n as [|n IH]; intros [|c x]; cbn; try (done || lia).
  intros H. apply IH. unfold Py.len in *. lia.
Qed.

Lemma last_n_nonempty n x : 0 < n → x ≠ "" → Py.last_n n x ≠ "".
Proof.
  intros Hn Hx. unfold Py.last_n. apply drop_nonempty.
  assert (Py.len x ≠ 0) by by rewrite len_zero. lia.
Qed.

Lemma date_tokens_3 year dob y mo dy :
  dob_parts dob = [y; mo; dy] →
  date_tokens year dob =
    (let yr4 := if Py.truthy (year_yr4 year) then year_yr4 year else y in
     (yr4, Py.last_n 2 yr4, Py.last_n 2 (Py.zfill 2 dy),
      Py.zfill 2 mo +:+ Py.zfill 2 dy)).
Proof. unfold date_tokens. by intros ->. Qed.

Lemma date_tokens_not3 year dob :
  length (dob_parts dob) ≠ 3 →
  date_tokens year dob = (year_yr4 year, Py.last_n 2 (year_yr4 year), "", "").
Proof.
  unfold date_tokens.
  destruct (dob_parts dob) as [|y [|mo [|dy [|z ps]]]]; cbn; done.
Qed.

Lemma date_tokens_yr2 year dob :
  (date_tokens year dob).1.1.2 = Py.last_n 2 (date_tokens year dob).1.1.1.
Proof.
  unfold date_tokens.
  destruct (dob_parts dob) as [|y [|mo [|dy [|z ps]]]]; done.
Qed.

(** C5, as the code has it.  [parse_dates] returns [(yr4, yr2, dy2, md)]
    with [yr2] the last 2 characters of [yr4]; when the trimmed [year] is not
    empty, [yr4] is its last 4 characters; when [dob] splits on '/' or '-'
    into exactly 3 parts (year, month, day), [yr4] is the year part whenever
    the trimmed [year] is empty, the month and the day are padded by
    [zfill(2)] to at least 2 characters, [dy2] is the last 2 characters of
    the padded day and [md] is the padded month followed by the padded
    day. *)
Theorem parse_dates_fields (year dob : string) :
  ∃ yr4 yr2 dy2 md,
    parse_dates year dob = Ok (yr4, yr2, dy2, md)
    ∧ yr2 = Py.last_n 2 yr4
    ∧ (Py.strip year ≠ "" → yr4 = Py.last_n 4 (Py.strip year))
    ∧ (∀ y mo dy, dob_parts dob = [y; mo; dy] →
         (Py.strip year = "" → yr4 = y)
         ∧ 2 ≤ Py.len (Py.zfill 2 mo) ∧ 2 ≤ Py.len (Py.zfill 2 dy)
         ∧ dy2 = Py.last_n 2 (Py.zfill 2 dy)
         ∧ md = Py.zfill 2 mo +:+ Py.zfill 2 dy).
Proof.
  rewrite parse_dates_ok.
  pose proof (date_tokens_yr2 year dob) as Hyr2.
  destruct (date_tokens year dob) as [[[yr4 yr2] dy2] md] eqn:E.
  cbn in Hyr2. exists yr4, yr2, dy2, md.
  split; [done|]. split; [done|]. split.
  - intros Hy. unfold date_tokens in E. rewrite (year_yr4_strip _ Hy) in E.
    assert (Ht : Py.truthy (Py.last_n 4 (Py.strip year)) = true)
      by by apply truthy_ne, last_n_nonempty; [lia|].
    destruct (dob_parts dob) as [|y [|mo [|dy [|z ps]]]];
      try rewrite Ht in E; congruence.
  - intros y mo dy Hp. rewrite (date_tokens_3 _ _ _ _ _ Hp) in E. cbn zeta in E.
    split.
    + intros Hy. rewrite (year_yr4_blank _ Hy) in E. cbn in E. congruence.
    + split; [apply len_zfill|]. split; [apply len_zfill|]. split; congruence.
Qed.

Lemma parse_dates_fields_witness :
  ∃ yr4 yr2 dy2 md,
    parse_dates "1999" "2001/3/7" = Ok (yr4, yr2, dy2, md)
    ∧ yr4 = "1999" ∧ yr2 = "99" ∧ dy2 = "07" ∧ md = "0307".
Proof.
  destruct (parse_dates_fields "1999" "2001/3/7")
    as (yr4 & yr2 & dy2 & md & Hp & Hyr2 & Hyr4 & Hdob).
  exists yr4, yr2, dy2, md.
  assert (H4 : yr4 = "1999") by (apply Hyr4; vm_compute; discriminate).
  destruct (Hdob "2001" "3" "7" eq_refl) as (_ & _ & _ & Hdy & Hmd).
  subst. repeat split; done.
Defined.

(** C5 as stated fails for a year made of whitespace: it is not empty, its
    trimmed form is, and [yr4] then comes from the date of birth. *)
Lemma parse_dates_blank_year :
  ¬ (" " ≠ "" →
     ∃ yr2 dy2 md,
       parse_dates " " "2001/10/15" = Ok (Py.last_n 4 (Py.strip " "), yr2, dy2, md)).
Proof.
  intros H. destruct (H ltac:(discriminate)) as (yr2 & dy2 & md & E).
  vm_compute in E. discriminate.
Qed.

Lemma elem_of_date_list yr4 yr2 dy2 md d :
  d ∈ date_list yr4 yr2 dy2 md ↔ d ≠ "" ∧ d ∈ [yr4; yr2; md; dy2].
Proof.
  unfold date_list. rewrite list_elem_of_In, filter_In, <-list_elem_of_In.
  rewrite truthy_ne. tauto.
Qed.

Lemma zfill_app_ne x y : Py.zfill 2 x +:+ Py.zfill 2 y ≠ Py.zfill 2 x.
Proof.
  intros H. apply (f_equal Py.len) in H. rewrite len_app in H.
  pose proof (len_zfill 2 y). lia.
Qed.

(** C6 as stated fails by value: for a birth date in October on the 10th the
    day component is "10", the padded month, and alias + "10" is returned. *)
Lemma month_value_returned_as_day :
  ∃ yr4 yr2 dy2 md r,
    parse_dates "" "2001/10/10" = Ok (yr4, yr2, dy2, md)
    ∧ dob_parts "2001/10/10" = ["2001"; "10"; "10"]
    ∧ dy2 = Py.zfill 2 "10"
    ∧ dy2 ∈ date_list yr4 yr2 dy2 md
    ∧ generate_chinese "Chan" "Tai Man" "Tommy" "" "" "2001/10/10" false = Ok r
    ∧ "tommy10" ∈ r.
Proof.
  do 5 eexists. split; [vm_compute; reflexivity|].
  split; [reflexivity|]. split; [reflexivity|].
  split; [concrete_list|]. split; [vm_compute; reflexivity|]. concrete_list.
Qed.

(** C8. The generators raise no exception on any strings.  When [dob] does
    not split on '/' or '-' into exactly 3 parts, [parse_dates] returns empty
    day and month-day components, a non-empty [year] still gives [yr4] and
    [yr2], and the result of [parse_dates] and of both generators is the one
    obtained with an empty [dob]. *)
Theorem no_exception_malformed_dob
  (last first middle alias alias2 year dob : string) (full : bool) :
  (∃ r, generate_chinese last first alias alias2 year dob full = Ok r)
  ∧ (∃ r, generate_western first last middle alias alias2 year dob full = Ok r)
  ∧ (length (dob_parts dob) ≠ 3 →
       (∃ yr4 yr2,
          parse_dates year dob = Ok (yr4, yr2, "", "")
          ∧ (year ≠ "" → yr4 = Py.last_n 4 (Py.strip year) ∧ yr2 = Py.last_n 2 yr4))
       ∧ parse_dates year dob = parse_dates year ""
       ∧ generate_chinese last first alias alias2 year dob full
         = generate_chinese last first alias alias2 year "" full
       ∧ generate_western first last middle alias alias2 year dob full
         = generate_western first last middle alias alias2 year "" full).
Proof.
  split; [eexists; apply generate_chinese_ok|].
  split; [eexists; apply generate_western_ok|].
  intros Hp.
  assert (Hd : date_tokens year dob = date_tokens year "").
  { rewrite (date_tokens_not3 _ _ Hp). by rewrite date_tokens_not3. }
  split; [|split; [|split]].
  - rewrite parse_dates_ok, (date_tokens_not3 _ _ Hp). do 2 eexists.
    split; [done|]. intros Hy. unfold year_yr4.
    destruct year; [done|]. done.
  - by rewrite !parse_dates_ok, Hd.
  - rewrite !generate_chinese_ok. unfold cn_candidates. by rewrite Hd.
  - rewrite !generate_western_ok. unfold en_candidates. by rewrite Hd.
Qed.

Lemma no_exception_malformed_dob_witness :
  (∃ r, generate_chinese "Chan" "Tai Man" "Tommy" "" "2001" "10/15" false = Ok r)
  ∧ parse_dates "2001" "10/15" = Ok ("2001", "01", "", "").
Proof.
  destruct (no_exception_malformed_dob "Chan" "Tai Man" "" "Tommy" "" "2001" "10/15" false)
    as (Hcn & _ & Hdob).
  split; [exact Hcn|].
  destruct Hdob as ((yr4 & yr2 & Hp & Hy) & _); [vm_compute; lia|].
  destruct Hy as [-> ->]; [discriminate|]. exact Hp.
Defined.

(** ** Shapes of strings: dots, whitespace and digits *)

Section CharFacts.

Variables p q : ascii → bool.

Lemma truthy_app x y : Py.truthy (x +:+ y) = Py.truthy x || Py.truthy y.
Proof. by destruct x. Qed.

Lemma hd_sat_app x y :
  hd_sat p (x +:+ y) = if Py.truthy x then hd_sat p x else hd_sat p y.
Proof. by destruct x. Qed.

Lemma lst_sat_app x y :
  lst_sat p (x +:+ y) = if Py.truthy y then lst_sat p y else lst_sat p x.
Proof.
  induction x as [|c x IH].
  - rewrite str_app_nil_l. by destruct y.
  - rewrite str_app_cons. cbn [lst_sat]. rewrite truthy_app, IH.
    by destruct (Py.truthy x), (Py.truthy y).
Qed.

Lemma all_sat_app x y : all_sat p (x +:+ y) = all_sat p x && all_sat p y.
Proof.
  induction x as [|c x IH]; [done|].
  rewrite str_app_cons. cbn [all_sat]. by rewrite IH, andb_assoc.
Qed.

Lemma all_sat_hd x : all_sat p x = true → x ≠ "" → hd_sat p x = true.
Proof. destruct x; [done|]. cbn. by intros [? _]%andb_true_iff. Qed.

Lemma all_sat_lst x : all_sat p x = true → x ≠ "" → lst_sat p x = true.
Proof.
  induction x as [|c x IH]; [done|]. cbn. intros [Hc Hx]%andb_true_iff _.
  destruct x; [done|]. by apply IH.
Qed.

Lemma all_sat_impl x :
  (∀ c, p c = true → q c = true) → all_sat p x = true → all_sat q x = true.
Proof.
  intros Hpq. induction x as [|c x IH]; [done|]. cbn.
  intros [Hc Hx]%andb_true_iff. rewrite (Hpq _ Hc). by apply IH.
Qed.

Lemma hd_sat_impl x :
  (∀ c, p c = true → q c = true) → hd_sat p x = true → hd_sat q x = true.
Proof. intros Hpq. destruct x; [done|]. apply Hpq. Qed.

Lemma lst_sat_impl x :
  (∀ c, p c = true → q c = true) → lst_sat p x = true → lst_sat q x = true.
Proof.
  intros Hpq. induction x as [|c x IH]; [done|]. cbn.
  destruct (Py.truthy x); [done|apply Hpq].
Qed.

Lemma hd_sat_truthy x : hd_sat p x = true → Py.truthy x = true.
Proof. by destruct x. Qed.

Lemma lst_sat_truthy x : lst_sat p x = true → Py.truthy x = true.
Proof. by destruct x. Qed.

Lemma all_sat_drop n x : all_sat p x = true → all_sat p (Py.drop n x) = true.
Proof.
  revert x. induction n as [|n IH]; intros [|c x]; cbn; try done.
  intros [_ Hx]%andb_true_iff. by apply IH.
Qed.

Lemma all_sat_last_n n x : all_sat p x = true → all_sat p (Py.last_n n x) = true.
Proof. apply all_sat_drop. Qed.

Lemma all_sat_lstrip x : all_sat p x = true → all_sat p (Py.lstrip x) = true.
Proof.
  induction x as [|c x IH]; [done|]. cbn [Py.lstrip].
  destruct (Py.is_space c); [|done]. cbn. intros [_ Hx]%andb_true_iff. auto.
Qed.

Lemma all_sat_rstrip x : all_sat p x = true → all_sat p (Py.rstrip x) = true.
Proof.
  induction x as [|c x IH]; [done|]. cbn.
  intros [Hc Hx]%andb_true_iff.
  destruct (Py.is_space c && negb (Py.truthy (Py.rstrip x))); [done|].
  cbn. rewrite Hc. auto.
Qed.

Lemma all_sat_strip x : all_sat p x = true → all_sat p (Py.strip x) = true.
Proof. intros H. by apply all_sat_rstrip, all_sat_lstrip. Qed.

End CharFacts.

Lemma double_dot_app x y :
  double_dot (x +:+ y)
  = double_dot x || double_dot y || lst_sat is_dot x && hd_sat is_dot y.
Proof.
  induction x as [|c x IH].
  - rewrite str_app_nil_l. cbn. by rewrite orb_false_r.
  - rewrite str_app_cons. cbn [double_dot lst_sat]. rewrite IH, hd_sat_app.
    destruct (Py.truthy x) eqn:Ex.
    + destruct (is_dot c && hd_sat is_dot x), (double_dot x), (double_dot y),
        (lst_sat is_dot x && hd_sat is_dot y); done.
    + apply truthy_false in Ex as ->. cbn.
      destruct (is_dot c), (hd_sat is_dot y), (double_dot y); done.
Qed.

Lemma solid_not_dot c : solid_char c = true → is_dot c = false.
Proof. unfold solid_char, not_dot. destruct (is_dot c), (not_space c); done. Qed.

Lemma solid_not_space c : solid_char c = true → not_space c = true.
Proof. unfold solid_char. by destruct (not_space c). Qed.

Lemma hd_sat_neg p q x :
  (∀ c, p c = true → q c = false) → hd_sat p x = true → hd_sat q x = false.
Proof. intros Hpq. destruct x; [done|]. apply Hpq. Qed.

Lemma lst_sat_neg p q x :
  (∀ c, p c = true → q c = false) → lst_sat p x = true → lst_sat q x = false.
Proof.
  intros Hpq. induction x as [|c x IH]; [done|]. cbn.
  destruct (Py.truthy x); [done|apply Hpq].
Qed.

Lemma not_dot_neg c : not_dot c = true → is_dot c = false.
Proof. unfold not_dot. by destruct (is_dot c). Qed.

Lemma no_dot_hd x : no_dot x → hd_sat is_dot x = false.
Proof. destruct x; [done|]. cbn. intros [H _]%andb_true_iff. by apply not_dot_neg. Qed.

Lemma no_dot_lst x : no_dot x → lst_sat is_dot x = false.
Proof.
  induction x as [|c x IH]; [done|]. cbn. intros [Hc Hx]%andb_true_iff.
  destruct (Py.truthy x); [by apply IH|by apply not_dot_neg].
Qed.

Lemma no_dot_double x : no_dot x → double_dot x = false.
Proof.
  induction x as [|c x IH]; [done|]. cbn. intros [Hc Hx]%andb_true_iff.
  rewrite (not_dot_neg _ Hc). by apply IH.
Qed.

Lemma no_dot_app x y : no_dot x → no_dot y → no_dot (x +:+ y).
Proof. unfold no_dot. rewrite all_sat_app. by intros -> ->. Qed.

Section FirmFacts.

Lemma firm_truthy x : firm x → Py.truthy x = true.
Proof. intros (H & _). by apply hd_sat_truthy in H. Qed.

Lemma firm_ne x : firm x → x ≠ "".
Proof. intros H. by apply truthy_ne, firm_truthy. Qed.

Lemma firm_hd_dot x : firm x → hd_sat is_dot x = false.
Proof. intros (H & _). by apply (hd_sat_neg _ _ _ solid_not_dot). Qed.

Lemma firm_lst_dot x : firm x → lst_sat is_dot x = false.
Proof. intros (_ & H & _). by apply (lst_sat_neg _ _ _ solid_not_dot). Qed.

Lemma firm_hd_space x : firm x → hd_sat not_space x = true.
Proof. intros (H & _). by apply (hd_sat_impl _ _ _ solid_not_space). Qed.

Lemma firm_lst_space x : firm x → lst_sat not_space x = true.
Proof. intros (_ & H & _). by apply (lst_sat_impl _ _ _ solid_not_space). Qed.

Lemma firm_app x y : firm x → firm y → firm (x +:+ y).
Proof.
  intros Hx Hy. pose proof (firm_truthy _ Hx). pose proof (firm_truthy _ Hy).
  pose proof (firm_lst_dot _ Hx) as Hl.
  destruct Hx as (Hx1 & Hx2 & Hx3), Hy as (Hy1 & Hy2 & Hy3).
  unfold firm. rewrite hd_sat_app, lst_sat_app, double_dot_app.
  rewrite H, H0, Hx3, Hy3, Hl. done.
Qed.

Lemma firm_dot x y : firm x → firm y → firm (x +:+ "." +:+ y).
Proof.
  intros Hx Hy. pose proof (firm_truthy _ Hx). pose proof (firm_truthy _ Hy).
  pose proof (firm_lst_dot _ Hx) as Hl. pose proof (firm_hd_dot _ Hy) as Hh.
  destruct Hx as (Hx1 & Hx2 & Hx3), Hy as (Hy1 & Hy2 & Hy3).
  unfold firm. rewrite hd_sat_app, lst_sat_app, double_dot_app.
  rewrite truthy_app, lst_sat_app, double_dot_app.
  rewrite H, H0, Hx3, Hy3, Hl, Hh. cbn. done.
Qed.

Lemma firm_well_formed x : firm x → dot_well_formed x = true.
Proof.
  intros Hx. unfold dot_well_formed.
  rewrite (firm_hd_dot _ Hx), (firm_lst_dot _ Hx).
  destruct Hx as (_ & _ & ->). done.
Qed.

(** A dot-free tail after a firm string. *)
Lemma firm_tail_well_formed x t :
  firm x → no_dot t → dot_well_formed (x +:+ t) = true.
Proof.
  intros Hx Ht. unfold dot_well_formed.
  rewrite hd_sat_app, lst_sat_app, double_dot_app.
  rewrite (firm_truthy _ Hx), (firm_hd_dot _ Hx), (firm_lst_dot _ Hx).
  rewrite (no_dot_lst _ Ht), (no_dot_double _ Ht).
  destruct Hx as (_ & _ & ->). by destruct (Py.truthy t).
Qed.

(** A dot and a non-empty dot-free tail after a firm string. *)
Lemma firm_dot_tail_well_formed x t :
  firm x → no_dot t → t ≠ "" → dot_well_formed (x +:+ "." +:+ t) = true.
Proof.
  intros Hx Ht Hne. apply truthy_ne in Hne. unfold dot_well_formed.
  rewrite hd_sat_app, lst_sat_app, double_dot_app.
  rewrite truthy_app, lst_sat_app, double_dot_app.
  rewrite (firm_truthy _ Hx), (firm_hd_dot _ Hx), (firm_lst_dot _ Hx).
  rewrite (no_dot_lst _ Ht), (no_dot_double _ Ht), (no_dot_hd _ Ht), Hne.
  destruct Hx as (_ & _ & ->). done.
Qed.

End FirmFacts.

(** [strip] on strings whose ends are known *)

Lemma lstrip_hd x : hd_sat not_space x = true → Py.lstrip x = x.
Proof.
  destruct x as [|c x]; [done|]. cbn. unfold not_space.
  by destruct (Py.is_space c).
Qed.

Lemma rstrip_app x y :
  lst_sat not_space x = true → Py.rstrip (x +:+ y) = x +:+ Py.rstrip y.
Proof.
  induction x as [|c x IH]; [done|]. cbn [lst_sat]. intros H.
  rewrite !str_app_cons. cbn [Py.rstrip].
  destruct (Py.truthy x) eqn:Ex.
  - rewrite (IH H), truthy_app, Ex. cbn. by rewrite andb_false_r.
  - apply truthy_false in Ex as ->. rewrite !str_app_nil_l.
    unfold not_space in H. by destruct (Py.is_space c).
Qed.

Lemma rstrip_lst x : lst_sat not_space x = true → Py.rstrip x = x.
Proof.
  intros H. rewrite <-(str_app_nil_r x) at 1. rewrite (rstrip_app _ _ H).
  apply str_app_nil_r.
Qed.

Lemma strip_edged x : edged x → Py.strip x = x.
Proof.
  intros [->|[Hh Hl]]; [done|]. unfold Py.strip.
  rewrite (lstrip_hd _ Hh). by apply rstrip_lst.
Qed.

Lemma firm_edged x : firm x → edged x.
Proof. intros Hx. right. split; [by apply firm_hd_space|by apply firm_lst_space]. Qed.

Lemma strip_firm_tail x t : firm x → Py.strip (x +:+ t) = x +:+ Py.rstrip t.
Proof.
  intros Hx. unfold Py.strip. rewrite lstrip_hd.
  - apply rstrip_app. by apply firm_lst_space.
  - rewrite hd_sat_app, (firm_truthy _ Hx). by apply firm_hd_space.
Qed.

Lemma rstrip_nonblank t : nonblank t → Py.rstrip t ≠ "".
Proof.
  unfold nonblank. induction t as [|c t IH]; [done|]. cbn.
  destruct (Py.is_space c); cbn; [|done].
  intros H. specialize (IH H). apply truthy_ne in IH. by rewrite IH.
Qed.

(** ** Dot-well-formed candidates *)

Lemma good_nil : good "".
Proof. reflexivity. Qed.

Lemma good_firm t : firm t → good t.
Proof.
  intros Ht. unfold good. rewrite strip_edged by by apply firm_edged.
  by apply firm_well_formed.
Qed.

Lemma good_cons t r : firm t → after r → good (t +:+ r).
Proof. intros Ht Hr. by apply Hr. Qed.

Lemma after_firm t : firm t → after t.
Proof. intros Ht x Hx. by apply good_firm, firm_app. Qed.

Lemma after_cons t r : firm t → after r → after (t +:+ r).
Proof.
  intros Ht Hr x Hx. rewrite <-str_app_assoc. apply Hr. by apply firm_app.
Qed.

Lemma after_dot_firm t : firm t → after ("." +:+ t).
Proof. intros Ht x Hx. by apply good_firm, firm_dot. Qed.

Lemma after_dot_cons t r : firm t → after r → after ("." +:+ t +:+ r).
Proof.
  intros Ht Hr x Hx.
  replace (x +:+ "." +:+ t +:+ r) with ((x +:+ "." +:+ t) +:+ r)
    by by rewrite !str_app_assoc.
  apply Hr. by apply firm_dot.
Qed.

Lemma after_date d : no_dot d → after d.
Proof.
  intros Hd x Hx. unfold good. rewrite (strip_firm_tail _ _ Hx).
  apply firm_tail_well_formed; [done|]. by apply all_sat_rstrip.
Qed.

Lemma after_date2 d1 d2 : no_dot d1 → no_dot d2 → after (d1 +:+ d2).
Proof. intros H1 H2. by apply after_date, no_dot_app. Qed.

Lemma after_dot_date d : no_dot d → nonblank d → after ("." +:+ d).
Proof.
  intros Hd Hb x Hx. unfold good. rewrite (strip_firm_tail _ _ Hx).
  rewrite (rstrip_app "." d) by done.
  apply firm_dot_tail_well_formed; [done| |by apply rstrip_nonblank].
  by apply all_sat_rstrip.
Qed.

(** Decides [good] on a candidate by the shape of its concatenation; the
    facts on its tokens are taken from the context. *)
Ltac solve_after :=
  lazymatch goal with
  | |- after ("." +:+ ?t +:+ ?r) =>
      apply after_dot_cons; [assumption|solve_after]
  | |- after ("." +:+ ?t) =>
      first [apply after_dot_firm; assumption|apply after_dot_date; assumption]
  | |- after (?t +:+ ?r) =>
      first [apply after_cons; [assumption|solve_after]
            |apply after_date2; assumption]
  | |- after ?t =>
      first [apply after_firm; assumption|apply after_date; assumption]
  end.

Ltac solve_good :=
  lazymatch goal with
  | |- good "" => exact good_nil
  | |- good (?t +:+ ?r) => apply good_cons; [assumption|solve_after]
  | |- good ?t => apply good_firm; assumption
  end.

Lemma Forall_flat_map {A B} (P : B → Prop) (f : A → list B) (l : list A) :
  (∀ x, x ∈ l → Forall P (f x)) → Forall P (flat_map f l).
Proof.
  induction l as [|x l IH]; intros H; cbn; [constructor|].
  apply Forall_app_2.
  - apply H. by left.
  - apply IH. intros y Hy. apply H. by right.
Qed.

(** Splits a goal on a block of candidates into one goal per candidate. *)
Ltac each_candidate :=
  repeat first
    [ apply Forall_nil_2
    | apply Forall_cons_2
    | apply Forall_app_2
    | apply Forall_flat_map; intros ? ? ].

Ltac case_guards :=
  repeat match goal with
    | |- context [if Py.truthy ?x then _ else _] =>
        let E := fresh "E" in destruct (Py.truthy x) eqn:E; cbn [andb]
    | |- context [if Py.truthy ?x && Py.truthy ?y then _ else _] =>
        let E := fresh "E" in let E' := fresh "E" in
        destruct (Py.truthy x) eqn:E; destruct (Py.truthy y) eqn:E';
        cbn [andb]
    end.

Section ChineseDots.

Variables (s a a2 g g2 si gi ai init_sg init_as init_asg yr2 dy2 : string).
Variable dates : list string.

Hypothesis Hs : firm s.
Hypothesis Hg : firm g.
Hypothesis Hsi : firm si.
Hypothesis Hgi : firm gi.
Hypothesis Hinit_sg : firm init_sg.
Hypothesis Ha : firm_opt a.
Hypothesis Ha2 : firm_opt a2.
Hypothesis Hg2 : firm_opt g2.
Hypothesis Hai : a ≠ "" → firm ai.
Hypothesis Hinit_as : a ≠ "" → firm init_as.
Hypothesis Hinit_asg : a ≠ "" → firm init_asg.
Hypothesis Hyr2 : no_dot yr2.
Hypothesis Hdy2 : no_dot dy2.
Hypothesis Hdates : Forall no_dot dates.

Ltac use_guards :=
  repeat match goal with
    | E : Py.truthy a = true |- _ =>
        apply truthy_ne in E;
        pose proof (Ha E); pose proof (Hai E); pose proof (Hinit_as E);
        pose proof (Hinit_asg E); clear E
    | E : Py.truthy a2 = true |- _ =>
        apply truthy_ne in E; pose proof (Ha2 E); clear E
    | E : Py.truthy g2 = true |- _ =>
        apply truthy_ne in E; pose proof (Hg2 E); clear E
    | H : ?d ∈ dates |- _ =>
        pose proof (proj1 (Forall_forall _ _) Hdates _ H); clear H
    end.

Ltac dots := case_guards; each_candidate; use_guards; solve_good.

Lemma cn_default_good :
  Forall good (cn_default s a a2 g g2 si gi ai init_sg init_as init_asg yr2 dy2 dates).
Proof.
  unfold cn_default.
  apply Forall_app_2; [unfold cn_tier1; dots|].
  apply Forall_app_2; [unfold cn_tier2; dots|].
  apply Forall_app_2; [unfold cn_tier3; dots|].
  apply Forall_app_2; [unfold cn_tier4; dots|].
  apply Forall_app_2; [unfold cn_tier5; dots|].
  apply Forall_app_2; [unfold cn_tier6; dots|].
  apply Forall_app_2; [unfold cn_tier7; dots|].
  apply Forall_app_2; [unfold cn_tier8; dots|].
  apply Forall_app_2; [unfold cn_tier9; dots|].
  apply Forall_app_2; [unfold cn_tier10; dots|].
  unfold cn_alias2; dots.
Qed.

Hypothesis Hblank : Forall nonblank dates.

Ltac use_blank :=
  repeat match goal with
    | H : ?d ∈ dates |- _ =>
        pose proof (proj1 (Forall_forall _ _) Hdates _ H);
        pose proof (proj1 (Forall_forall _ _) Hblank _ H); clear H
    end.

Ltac dots_full := case_guards; each_candidate; use_blank; use_guards; solve_good.

Lemma cn_full_good :
  Forall good (cn_full s a a2 g g2 si gi ai init_sg dates).
Proof.
  unfold cn_full.
  apply Forall_app_2; [unfold cn_full_alias; dots_full|].
  apply Forall_app_2; [unfold cn_full_given; dots_full|].
  apply Forall_app_2; [unfold cn_full_surname; dots_full|].
  apply Forall_app_2; [unfold cn_full_g2; dots_full|].
  unfold cn_full_alias2; dots_full.
Qed.

End ChineseDots.

Section WesternDots.

Variables (f l m a a2 fi li mi ai init_fl init_fml ml yr2 dy2 md : string).
Variable dates : list string.

Hypothesis Hf : firm f.
Hypothesis Hl : firm l.
Hypothesis Hfi : firm fi.
Hypothesis Hli : firm li.
Hypothesis Hinit_fl : firm init_fl.
Hypothesis Hinit_fml : firm init_fml.
Hypothesis Hm : firm_opt m.
Hypothesis Ha : firm_opt a.
Hypothesis Ha2 : firm_opt a2.
Hypothesis Hmi : m ≠ "" → firm mi.
Hypothesis Hml : firm_opt ml.
Hypothesis Hml_m : m ≠ "" → firm ml.
Hypothesis Hai : a ≠ "" → firm ai.
Hypothesis Hyr2 : no_dot yr2.
Hypothesis Hdy2 : no_dot dy2.
Hypothesis Hmd : no_dot md.
Hypothesis Hdates : Forall no_dot dates.

Ltac use_guards :=
  repeat match goal with
    | E : Py.truthy a = true |- _ =>
        apply truthy_ne in E; pose proof (Ha E); pose proof (Hai E); clear E
    | E : Py.truthy m = true |- _ =>
        apply truthy_ne in E; pose proof (Hm E); pose proof (Hmi E);
        pose proof (Hml_m E); clear E
    | E : Py.truthy a2 = true |- _ =>
        apply truthy_ne in E; pose proof (Ha2 E); clear E
    | E : Py.truthy ml = true |- _ =>
        apply truthy_ne in E; pose proof (Hml E); clear E
    | H : ?d ∈ dates |- _ =>
        pose proof (proj1 (Forall_forall _ _) Hdates _ H); clear H
    end.

Ltac dots :=
  cbn zeta; cbn [flat_map app]; rewrite ?str_app_nil_l;
  case_guards; each_candidate; use_guards; solve_good.

Lemma en_default_good :
  Forall good (en_default f l m a a2 fi li mi ai init_fl init_fml ml yr2 dy2 md dates).
Proof.
  unfold en_default.
  apply Forall_app_2; [unfold en_plain; dots|].
  apply Forall_app_2; [unfold en_short; dots|].
  apply Forall_app_2; [unfold en_alias; dots|].
  apply Forall_app_2; [unfold en_alias_date; dots|].
  apply Forall_app_2; [unfold en_initials; dots|].
  apply Forall_app_2; [unfold en_alias_initials; dots|].
  apply Forall_app_2; [unfold en_alias_last_date; dots|].
  apply Forall_app_2; [unfold en_date_name; dots|].
  apply Forall_app_2; [unfold en_dots; dots|].
  apply Forall_app_2; [unfold en_first_alias; dots|].
  unfold en_alias2; dots.
Qed.

Hypothesis Hblank : Forall nonblank dates.

Ltac use_blank :=
  repeat match goal with
    | H : ?d ∈ dates |- _ =>
        pose proof (proj1 (Forall_forall _ _) Hdates _ H);
        pose proof (proj1 (Forall_forall _ _) Hblank _ H); clear H
    end.

Ltac dots_full :=
  cbn zeta; cbn [flat_map app]; rewrite ?str_app_nil_l;
  case_guards; each_candidate; use_blank; use_guards; solve_good.

Lemma en_cores_firm name :
  name ∈ List.filter Py.truthy [f; l; a; a2; init_fml; init_fl; ml] → firm name.
Proof.
  rewrite list_elem_of_In, filter_In, <-list_elem_of_In, truthy_ne.
  rewrite !elem_of_cons, elem_of_nil.
  intros [[->|[->|[->|[->|[->|[->|[->|[]]]]]]]] Hne]; auto.
Qed.

Lemma en_full_good :
  Forall good (en_full f l m a a2 fi li mi ai init_fl init_fml ml md dates).
Proof.
  unfold en_full.
  apply Forall_app_2.
  { unfold en_full_cores. cbn zeta. apply Forall_flat_map. intros name Hn.
    apply en_cores_firm in Hn. each_candidate; use_blank; solve_good. }
  apply Forall_app_2; [unfold en_full_alias2; dots_full|].
  apply Forall_app_2; [unfold en_full_middle; dots_full|].
  unfold en_full_alias; dots_full.
Qed.

End WesternDots.

(** ** Tokens derived from the inputs *)

Ltac all_chars c := destruct c as [[] [] [] [] [] [] [] []]; vm_compute; reflexivity.

Lemma lower_char_space c : not_space (Py.lower_char c) = not_space c.
Proof. all_chars c. Qed.

Lemma lower_char_dot c : not_dot (Py.lower_char c) = not_dot c.
Proof. all_chars c. Qed.

Lemma lower_char_is_dot c : is_dot (Py.lower_char c) = is_dot c.
Proof. all_chars c. Qed.

Lemma lower_char_digit c : not_digit (Py.lower_char c) = not_digit c.
Proof. all_chars c. Qed.

Lemma lower_char_solid c : solid_char (Py.lower_char c) = solid_char c.
Proof. unfold solid_char. by rewrite lower_char_space, lower_char_dot. Qed.

Section LowerFacts.

Variable p : ascii → bool.
Hypothesis Hp : ∀ c, p (Py.lower_char c) = p c.

Lemma truthy_lower x : Py.truthy (Py.lower x) = Py.truthy x.
Proof. by destruct x. Qed.

Lemma hd_sat_lower x : hd_sat p (Py.lower x) = hd_sat p x.
Proof. destruct x; [done|]. apply Hp. Qed.

Lemma lst_sat_lower x : lst_sat p (Py.lower x) = lst_sat p x.
Proof.
  induction x as [|c x IH]; [done|]. cbn. by rewrite truthy_lower, IH, Hp.
Qed.

Lemma all_sat_lower x : all_sat p (Py.lower x) = all_sat p x.
Proof. induction x as [|c x IH]; [done|]. cbn. by rewrite IH, Hp. Qed.

End LowerFacts.

Lemma double_dot_lower x : double_dot (Py.lower x) = double_dot x.
Proof.
  induction x as [|c x IH]; [done|]. cbn.
  by rewrite IH, lower_char_is_dot, (hd_sat_lower _ lower_char_is_dot).
Qed.

Lemma lower_ne x : Py.lower x ≠ "" ↔ x ≠ "".
Proof. by destruct x. Qed.

Lemma firm_lower x : firm x → firm (low x).
Proof.
  unfold firm, low. rewrite double_dot_lower.
  by rewrite (hd_sat_lower _ lower_char_solid), (lst_sat_lower _ lower_char_solid).
Qed.

Lemma hd_sat_and p q x :
  hd_sat p x = true → all_sat q x = true → hd_sat (λ c, p c && q c) x = true.
Proof.
  destruct x as [|c x]; [done|]. cbn. intros -> [-> _]%andb_true_iff. done.
Qed.

Lemma lst_sat_and p q x :
  lst_sat p x = true → all_sat q x = true → lst_sat (λ c, p c && q c) x = true.
Proof.
  induction x as [|c x IH]; [done|]. cbn. intros Hl [Hc Hx]%andb_true_iff.
  destruct (Py.truthy x); [by apply IH|]. by rewrite Hl, Hc.
Qed.

Lemma firm_intro x :
  hd_sat not_space x = true → lst_sat not_space x = true → no_dot x → firm x.
Proof.
  intros Hh Hl Hd. split; [|split; [|by apply no_dot_double]].
  - by apply (hd_sat_and not_space not_dot).
  - by apply (lst_sat_and not_space not_dot).
Qed.

(** [strip] leaves no whitespace at either end. *)
Lemma lstrip_hd_sat x : Py.lstrip x ≠ "" → hd_sat not_space (Py.lstrip x) = true.
Proof.
  induction x as [|c x IH]; [done|]. cbn. unfold not_space in *.
  destruct (Py.is_space c) eqn:E; [done|]. cbn. by rewrite E.
Qed.

Lemma rstrip_lst_sat x : Py.rstrip x ≠ "" → lst_sat not_space (Py.rstrip x) = true.
Proof.
  induction x as [|c x IH]; [done|]. cbn.
  destruct (Py.truthy (Py.rstrip x)) eqn:E.
  - rewrite andb_false_r. cbn. rewrite E. intros _. by apply IH, truthy_ne.
  - rewrite andb_true_r. apply truthy_false in E. rewrite E.
    destruct (Py.is_space c) eqn:Ec; [done|]. cbn. unfold not_space.
    by rewrite Ec.
Qed.

Lemma rstrip_hd_sat p x :
  Py.rstrip x ≠ "" → hd_sat p x = true → hd_sat p (Py.rstrip x) = true.
Proof.
  destruct x as [|c x]; [done|]. cbn.
  by destruct (Py.is_space c && negb (Py.truthy (Py.rstrip x))).
Qed.

Lemma strip_edges x :
  Py.strip x ≠ "" →
  hd_sat not_space (Py.strip x) = true ∧ lst_sat not_space (Py.strip x) = true.
Proof.
  unfold Py.strip. intros Hne. split; [|by apply rstrip_lst_sat].
  apply rstrip_hd_sat; [done|]. apply lstrip_hd_sat. by intros E; rewrite E in Hne.
Qed.

Lemma firm_surname x : no_dot x → Py.strip x ≠ "" → firm (low (Py.strip x)).
Proof.
  intros Hd Hne. apply firm_lower. destruct (strip_edges _ Hne).
  apply firm_intro; [done..|]. by apply all_sat_strip.
Qed.

Lemma opt_name_ne x : opt_name x ≠ "" → Py.strip x ≠ "".
Proof.
  unfold opt_name, low. destruct (Py.truthy x); [|done]. by rewrite lower_ne.
Qed.

Lemma firm_opt_name x : no_dot x → firm_opt (opt_name x).
Proof.
  intros Hd Hne. pose proof (opt_name_ne _ Hne) as Hs. unfold opt_name in *.
  destruct (Py.truthy x); [|done]. by apply firm_surname.
Qed.

Lemma firm_ini x : firm x → firm (ini_of x).
Proof.
  intros (Hh & _). destruct x as [|c x]; [done|]. cbn in *.
  unfold firm. cbn. rewrite lower_char_solid, Hh.
  rewrite (solid_not_dot (Py.lower_char c)) by by rewrite lower_char_solid.
  done.
Qed.

Lemma ini_of_ne x : ini_of x ≠ "" ↔ x ≠ "".
Proof. by destruct x. Qed.

(** The words of [split] are non-empty, free of whitespace, and made of
    characters of the split string. *)
Lemma split_go_words s :
  all_sat not_space (Py.split_go s).1 = true
  ∧ Forall (λ w, w ≠ "" ∧ all_sat not_space w = true) (Py.split_go s).2.
Proof.
  induction s as [|c s [IH1 IH2]]; [done|]. cbn.
  destruct (Py.split_go s) as [w ws]. cbn [fst snd] in *.
  destruct (Py.is_space c) eqn:E; cbn [fst snd].
  - split; [done|]. unfold Py.cons_word. destruct (Py.truthy w) eqn:Ew; [|done].
    constructor; [|done]. split; [by apply truthy_ne|done].
  - split; [|done]. cbn. unfold not_space at 1. by rewrite E.
Qed.

Lemma split_go_all p s :
  all_sat p s = true →
  all_sat p (Py.split_go s).1 = true
  ∧ Forall (λ w, all_sat p w = true) (Py.split_go s).2.
Proof.
  induction s as [|c s IH]; [done|]. cbn. intros [Hc Hs]%andb_true_iff.
  destruct (IH Hs) as [IH1 IH2].
  destruct (Py.split_go s) as [w ws]. cbn [fst snd] in *.
  destruct (Py.is_space c); cbn [fst snd].
  - split; [done|]. unfold Py.cons_word. destruct (Py.truthy w); [|done].
    by constructor.
  - split; [|done]. cbn. by rewrite Hc.
Qed.

Lemma split_words p s :
  all_sat p s = true →
  Forall (λ w, w ≠ "" ∧ all_sat not_space w = true ∧ all_sat p w = true)
    (Py.split s).
Proof.
  intros Hs. unfold Py.split.
  destruct (split_go_words s) as [H1 H2], (split_go_all p s Hs) as [H3 H4].
  destruct (Py.split_go s) as [w ws]. cbn [fst snd] in *.
  assert (Hws : Forall (λ w, w ≠ "" ∧ all_sat not_space w = true
                             ∧ all_sat p w = true) ws).
  { apply Forall_forall. intros v Hv. rewrite Forall_forall in H2, H4.
    destruct (H2 v Hv). split; [done|]. split; [done|]. by apply H4. }
  unfold Py.cons_word. destruct (Py.truthy w) eqn:Ew; [|done].
  constructor; [|done]. split; [by apply truthy_ne|done].
Qed.

Lemma split_nonempty s : hd_sat not_space s = true → Py.split s ≠ [].
Proof.
  destruct s as [|c s]; [done|]. cbn. unfold Py.split. cbn.
  destruct (Py.split_go s) as [w ws]. unfold not_space.
  destruct (Py.is_space c); [done|]. done.
Qed.

Lemma firm_word w :
  w ≠ "" → all_sat not_space w = true → no_dot w → firm w.
Proof.
  intros Hne Hs Hd. apply firm_intro; [| |done].
  - by apply all_sat_hd.
  - by apply all_sat_lst.
Qed.

Lemma Forall_nth0 (P : string → Prop) l : Forall P l → l ≠ [] → P (nth 0 l "").
Proof. destruct l; [done|]. cbn. by intros [? _]%Forall_cons. Qed.

Lemma Forall_nth1 (P : string → Prop) l :
  Forall P l → nth 1 l "" ≠ "" → P (nth 1 l "").
Proof.
  destruct l as [|x [|y l]]; [done..|]. cbn.
  by intros [_ [? _]%Forall_cons]%Forall_cons.
Qed.

Lemma given_parts_words p first :
  (∀ c, p (Py.lower_char c) = p c) → all_sat p first = true →
  Forall (λ w, w ≠ "" ∧ all_sat not_space w = true ∧ all_sat p w = true)
    (given_parts first).
Proof.
  intros Hp Hf. apply split_words. unfold low.
  rewrite (all_sat_lower _ Hp). by apply all_sat_strip.
Qed.

Lemma given_parts_nonempty first : Py.strip first ≠ "" → given_parts first ≠ [].
Proof.
  intros Hne. apply split_nonempty. unfold low.
  rewrite (hd_sat_lower _ lower_char_space). by apply strip_edges.
Qed.

Lemma given_parts_firm first :
  no_dot first → Forall firm (given_parts first).
Proof.
  intros Hd. eapply Forall_impl; [by apply (given_parts_words _ _ lower_char_dot)|].
  intros w (? & ? & ?). by apply firm_word.
Qed.

Section DateChars.

Variable p : ascii → bool.
Hypothesis Hzero : p "0"%char = true.
Hypothesis Hslash : p "/"%char = true.

Lemma all_sat_zeros n : all_sat p (Py.zeros n) = true.
Proof. induction n as [|n IH]; [done|]. cbn. by rewrite Hzero. Qed.

Lemma all_sat_zfill w s : all_sat p s = true → all_sat p (Py.zfill w s) = true.
Proof.
  intros Hs. unfold Py.zfill. destruct (w <=? Py.len s); [done|].
  destruct s as [|c s]; [apply all_sat_zeros|].
  cbn in Hs. apply andb_true_iff in Hs as [Hc Hs].
  destruct (Ascii.eqb c "+" || Ascii.eqb c "-").
  - cbn. by rewrite Hc, all_sat_app, all_sat_zeros.
  - rewrite all_sat_app, all_sat_zeros. cbn. by rewrite Hc.
Qed.

Lemma all_sat_replace old s :
  all_sat p s = true → all_sat p (Py.replace old "/" s) = true.
Proof.
  induction s as [|c s IH]; [done|]. cbn. intros [Hc Hs]%andb_true_iff.
  rewrite (IH Hs). by destruct (Ascii.eqb c old); rewrite ?Hslash, ?Hc.
Qed.

Lemma all_sat_split_on sep s :
  all_sat p s = true → Forall (λ w, all_sat p w = true) (Py.split_on sep s).
Proof.
  induction s as [|c s IH]; [by repeat constructor|]. cbn.
  intros [Hc Hs]%andb_true_iff. specialize (IH Hs).
  destruct (Ascii.eqb c sep); [by constructor|].
  destruct (Py.split_on sep s) as [|w ws]; [by repeat constructor; cbn; rewrite Hc|].
  apply Forall_cons in IH as [Hw Hws]. constructor; [|done]. cbn. by rewrite Hc.
Qed.

(** The date tokens are made of characters of [year] and [dob] and of
    padding zeros. *)
Lemma date_tokens_all year dob :
  all_sat p year = true → all_sat p dob = true →
  Forall (λ w, all_sat p w = true)
    [(date_tokens year dob).1.1.1; (date_tokens year dob).1.1.2;
     (date_tokens year dob).1.2; (date_tokens year dob).2].
Proof.
  intros Hy Hd.
  assert (H4 : all_sat p (year_yr4 year) = true).
  { unfold year_yr4. destruct (Py.truthy year); [|done].
    by apply all_sat_last_n, all_sat_strip. }
  assert (Hparts : Forall (λ w, all_sat p w = true) (dob_parts dob)).
  { by apply all_sat_split_on, all_sat_replace, all_sat_strip. }
  unfold date_tokens.
  destruct (dob_parts dob) as [|y [|mo [|dy [|z ps]]]]; cbn [fst snd];
    try (repeat constructor; (done || by apply all_sat_last_n)).
  apply Forall_cons in Hparts as [Hy' Hparts].
  apply Forall_cons in Hparts as [Hmo Hparts].
  apply Forall_cons in Hparts as [Hdy _].
  assert (all_sat p (if Py.truthy (year_yr4 year) then year_yr4 year else y) = true)
    by by destruct (Py.truthy (year_yr4 year)).
  repeat constructor; [done|by apply all_sat_last_n| |].
  - by apply all_sat_last_n, all_sat_zfill.
  - rewrite all_sat_app, !all_sat_zfill; done.
Qed.

End DateChars.

Lemma date_tokens_no_dot year dob :
  no_dot year → no_dot dob →
  no_dot (date_tokens year dob).1.1.1 ∧ no_dot (date_tokens year dob).1.1.2
  ∧ no_dot (date_tokens year dob).1.2 ∧ no_dot (date_tokens year dob).2.
Proof.
  intros Hy Hd.
  pose proof (date_tokens_all not_dot eq_refl eq_refl year dob Hy Hd) as H.
  rewrite !Forall_cons in H. tauto.
Qed.

Lemma date_list_Forall (P : string → Prop) yr4 yr2 dy2 md :
  P yr4 → P yr2 → P dy2 → P md → Forall P (date_list yr4 yr2 dy2 md).
Proof.
  intros. apply Forall_forall. intros d [_ Hd]%elem_of_date_list.
  rewrite !elem_of_cons, elem_of_nil in Hd.
  destruct Hd as [->|[->|[->|[->|[]]]]]; done.
Qed.

Lemma trim_good lst maxlen :
  Forall good lst → Forall (λ x, dot_well_formed x = true) (trim lst maxlen).
Proof.
  intros Hl. apply Forall_forall. intros x [Hx _]%elem_of_trim.
  apply list_elem_of_fmap in Hx as (c & -> & Hc).
  rewrite Forall_forall in Hl. by apply Hl.
Qed.

Lemma cn_candidates_good last first alias alias2 year dob full :
  no_dot last → no_dot first → no_dot alias → no_dot alias2 →
  no_dot year → no_dot dob →
  Py.strip first ≠ "" → Py.strip last ≠ "" →
  (full = true → Forall nonblank (dates_of year dob)) →
  Forall good (cn_candidates last first alias alias2 year dob full).
Proof.
  intros Hlast Hfirst Halias Halias2 Hyear Hdob Hf Hl Hblank.
  unfold cn_candidates. unfold dates_of in Hblank.
  destruct (date_tokens_no_dot year dob Hyear Hdob) as (D1 & D2 & D3 & D4).
  destruct (date_tokens year dob) as [[[yr4 yr2] dy2] md]. cbn [fst snd] in *.
  pose proof (given_parts_firm first Hfirst) as Hparts.
  pose proof (given_parts_nonempty first Hf) as Hne.
  pose proof (Forall_nth0 _ _ Hparts Hne) as Hg1.
  assert (Hg2 : firm_opt (nth 1 (given_parts first) ""))
    by (intros ?; by apply Forall_nth1).
  pose proof (firm_surname last Hlast Hl) as Hs.
  pose proof (firm_opt_name alias Halias) as Ha.
  pose proof (firm_opt_name alias2 Halias2) as Ha2.
  set (s := low (Py.strip last)) in *.
  set (a := opt_name alias) in *. set (a2 := opt_name alias2) in *.
  set (g1 := nth 0 (given_parts first) "") in *.
  set (g2 := nth 1 (given_parts first) "") in *.
  assert (Hg : firm (g1 +:+ g2)).
  { destruct (decide (g2 = "")) as [->|E]; [by rewrite str_app_nil_r|].
    apply firm_app; auto. }
  assert (Hgi : firm (ini_of g1 +:+ ini_of g2)).
  { destruct (decide (g2 = "")) as [->|E].
    - rewrite str_app_nil_r. by apply firm_ini.
    - apply firm_app; apply firm_ini; auto. }
  assert (Hsi : firm (ini_of s)) by by apply firm_ini.
  assert (Hai : a ≠ "" → firm (ini_of a)) by (intros ?; apply firm_ini; auto).
  assert (Hisg : firm (ini_of s +:+ ini_of g1 +:+ ini_of g2)) by by apply firm_app.
  assert (Hias : a ≠ "" →
            firm (if Py.truthy (ini_of a) then ini_of a +:+ ini_of s else "")).
  { intros E. rewrite (firm_truthy _ (Hai E)). apply firm_app; auto. }
  assert (Hiasg : a ≠ "" →
            firm (if Py.truthy (ini_of a)
                  then ini_of a +:+ ini_of s +:+ ini_of g1 +:+ ini_of g2 else "")).
  { intros E. rewrite (firm_truthy _ (Hai E)). apply firm_app; auto. }
  pose proof (date_list_Forall no_dot yr4 yr2 dy2 md D1 D2 D3 D4) as Hdates.
  unfold cn_combos. apply Forall_app_2.
  - by apply cn_default_good.
  - destruct full; [|constructor]. eapply cn_full_good; eauto.
Qed.

Lemma en_candidates_good first last middle alias alias2 year dob full :
  no_dot last → no_dot first → no_dot middle → no_dot alias → no_dot alias2 →
  no_dot year → no_dot dob →
  Py.strip first ≠ "" → Py.strip last ≠ "" →
  (full = true → Forall nonblank (dates_of year dob)) →
  Forall good (en_candidates first last middle alias alias2 year dob full).
Proof.
  intros Hlast Hfirst Hmiddle Halias Halias2 Hyear Hdob Hnf Hnl Hblank.
  unfold en_candidates. unfold dates_of in Hblank.
  destruct (date_tokens_no_dot year dob Hyear Hdob) as (D1 & D2 & D3 & D4).
  destruct (date_tokens year dob) as [[[yr4 yr2] dy2] md]. cbn [fst snd] in *.
  pose proof (firm_surname first Hfirst Hnf) as Hf.
  pose proof (firm_surname last Hlast Hnl) as Hl.
  pose proof (firm_opt_name middle Hmiddle) as Hm.
  pose proof (firm_opt_name alias Halias) as Ha.
  pose proof (firm_opt_name alias2 Halias2) as Ha2.
  set (f := low (Py.strip first)) in *. set (l := low (Py.strip last)) in *.
  set (m := opt_name middle) in *.
  set (a := opt_name alias) in *. set (a2 := opt_name alias2) in *.
  assert (Hfi : firm (ini_of f)) by by apply firm_ini.
  assert (Hli : firm (ini_of l)) by by apply firm_ini.
  assert (Hmi : m ≠ "" → firm (ini_of m)) by (intros ?; apply firm_ini; auto).
  assert (Hai : a ≠ "" → firm (ini_of a)) by (intros ?; apply firm_ini; auto).
  assert (Hfl : firm (ini_of f +:+ ini_of l)) by by apply firm_app.
  assert (Hfml : firm (if Py.truthy (ini_of m)
                       then ini_of f +:+ ini_of m +:+ ini_of l
                       else ini_of f +:+ ini_of l)).
  { destruct (Py.truthy (ini_of m)) eqn:E; [|exact Hfl].
    apply truthy_ne in E. apply (proj1 (ini_of_ne m)) in E.
    apply firm_app; [done|]. apply firm_app; auto. }
  assert (Hml_m : m ≠ "" → firm (if Py.truthy m then m +:+ l else "")).
  { intros E. rewrite (proj2 (truthy_ne m) E). apply firm_app; auto. }
  assert (Hml : firm_opt (if Py.truthy m then m +:+ l else "")).
  { intros E. apply Hml_m. intros ->. done. }
  pose proof (date_list_Forall no_dot yr4 yr2 dy2 md D1 D2 D3 D4) as Hdates.
  unfold en_combos. apply Forall_app_2.
  - by apply en_default_good.
  - destruct full; [|constructor]. eapply en_full_good; eauto.
Qed.

(** C10, as the code has it.  When no input contains a '.', the trimmed
    first and last fields are not empty and, in full mode, no date token is
    made of whitespace only, every string returned by [generate_chinese] and
    by [generate_western] is dot-well-formed. *)
Theorem outputs_dot_well_formed
  (last first middle alias alias2 year dob : string) (full : bool) :
  no_dot last → no_dot first → no_dot middle → no_dot alias → no_dot alias2 →
  no_dot year → no_dot dob →
  Py.strip first ≠ "" → Py.strip last ≠ "" →
  (full = true → Forall nonblank (dates_of year dob)) →
  (∃ r, generate_chinese last first alias alias2 year dob full = Ok r
        ∧ Forall (λ x, dot_well_formed x = true) r)
  ∧ (∃ r, generate_western first last middle alias alias2 year dob full = Ok r
          ∧ Forall (λ x, dot_well_formed x = true) r).
Proof.
  intros. split.
  - eexists. split; [apply generate_chinese_ok|].
    by apply trim_good, cn_candidates_good.
  - eexists. split; [apply generate_western_ok|].
    by apply trim_good, en_candidates_good.
Qed.

Lemma outputs_dot_well_formed_witness :
  (∃ r, generate_chinese "Chan" "Tai Man" "Tommy" "" "" "2001/10/15" true = Ok r
        ∧ Forall (λ x, dot_well_formed x = true) r)
  ∧ (∃ r, generate_western "Charlie" "Brown" "Monroe" "" "" "" "1990/03/22" true = Ok r
          ∧ Forall (λ x, dot_well_formed x = true) r).
Proof.
  destruct (outputs_dot_well_formed "Chan" "Tai Man" "" "Tommy" "" "" "2001/10/15" true)
    as [Hcn _]; try reflexivity; try (vm_compute; discriminate).
  { intros _. vm_compute. repeat constructor. }
  destruct (outputs_dot_well_formed "Brown" "Charlie" "Monroe" "" "" "" "1990/03/22" true)
    as [_ Hen]; try reflexivity; try (vm_compute; discriminate).
  { intros _. vm_compute. repeat constructor. }
  exact (conj Hcn Hen).
Defined.

(** C10 as stated fails when an input holds a dot: the first name
    ".charlie" is returned at the head of ".charliebrown". *)
Lemma dotted_input_not_well_formed :
  Py.strip ".charlie" ≠ "" ∧ Py.strip "brown" ≠ ""
  ∧ ∃ r, generate_western ".charlie" "brown" "" "" "" "" "" false = Ok r
         ∧ ".charliebrown" ∈ r
         ∧ dot_well_formed ".charliebrown" = false.
Proof.
  split; [vm_compute; discriminate|]. split; [vm_compute; discriminate|].
  eexists. split; [vm_compute; reflexivity|]. split; [concrete_list|reflexivity].
Qed.

(** In full mode a date token made of whitespace leaves a trailing dot: the
    year part "2001  " gives the two-character year "  ", and the candidate
    "taiman." is returned. *)
Lemma blank_date_token_trailing_dot :
  ∃ r, generate_chinese "Chan" "Tai Man" "" "" "" "2001  /10/15" true = Ok r
       ∧ "taiman." ∈ r
       ∧ dot_well_formed "taiman." = false.
Proof.
  eexists. split; [vm_compute; reflexivity|]. split; [concrete_list|reflexivity].
Qed.

(** ** Surname + date

    A candidate is compared with surname + date through its split into a
    digit-free body and a tail of digits. *)

Lemma has_dot_here r : has_dot ("." +:+ r).
Proof. reflexivity. Qed.

Lemma has_dot_later t r : has_dot r → has_dot (t +:+ r).
Proof. unfold has_dot. rewrite all_sat_app. intros ->. apply andb_false_r. Qed.

Lemma digit_not_dot c : is_digit c = true → not_dot c = true.
Proof. destruct c as [[] [] [] [] [] [] [] []]; vm_compute; congruence. Qed.

Lemma digit_not_space c : is_digit c = true → not_space c = true.
Proof. destruct c as [[] [] [] [] [] [] [] []]; vm_compute; congruence. Qed.

Lemma digit_not_digit c : is_digit c = true → not_digit c = true → False.
Proof. unfold not_digit. by intros ->. Qed.

Lemma digits_no_dot d : all_digits d → no_dot d.
Proof. apply all_sat_impl, digit_not_dot. Qed.

Lemma dot_ne_surname_date c s d :
  has_dot c → no_dot s → all_digits d → c ≠ s +:+ d.
Proof.
  unfold has_dot. intros Hc Hs Hd ->.
  rewrite all_sat_app, Hs, (digits_no_dot _ Hd) in Hc. done.
Qed.

Lemma no_digit_app x y : no_digit x → no_digit y → no_digit (x +:+ y).
Proof. unfold no_digit. rewrite all_sat_app. by intros -> ->. Qed.

Lemma all_digits_app x y : all_digits x → all_digits y → all_digits (x +:+ y).
Proof. unfold all_digits. rewrite all_sat_app. by intros -> ->. Qed.

Lemma no_digit_ne_surname_date c s d :
  no_digit c → d ≠ "" → all_digits d → c ≠ s +:+ d.
Proof.
  unfold no_digit, all_digits. intros Hc Hne Hd ->.
  rewrite all_sat_app in Hc. apply andb_true_iff in Hc as [_ Hc].
  destruct d as [|x d]; [done|]. cbn in *.
  apply andb_true_iff in Hc as [Hc _], Hd as [Hd _].
  by apply (digit_not_digit x).
Qed.

(** The digit-free body of a string that ends in digits is unique. *)
Lemma body_date_inj b t s d :
  no_digit b → no_digit s → all_digits t → all_digits d →
  b +:+ t = s +:+ d → b = s.
Proof.
  unfold no_digit, all_digits. revert s.
  induction b as [|c b IH]; intros [|c' s] Hb Hs Ht Hd E; [done|..].
  - rewrite str_app_nil_l, str_app_cons in E. subst t. cbn in *.
    apply andb_true_iff in Hs as [Hs _], Ht as [Ht _].
    by destruct (digit_not_digit c').
  - rewrite str_app_nil_l, str_app_cons in E. subst d. cbn in *.
    apply andb_true_iff in Hb as [Hb _], Hd as [Hd _].
    by destruct (digit_not_digit c).
  - rewrite !str_app_cons in E. injection E as -> E. cbn in *.
    apply andb_true_iff in Hb as [_ Hb], Hs as [_ Hs].
    f_equal. by apply IH.
Qed.

Lemma body_ne_surname_date b t s d :
  no_digit b → all_digits t → no_digit s → all_digits d →
  b ≠ s → b +:+ t ≠ s +:+ d.
Proof.
  intros Hb Ht Hs Hd Hne E. apply Hne.
  exact (body_date_inj b t s d Hb Hs Ht Hd E).
Qed.

Lemma app_ne_self_l x s : x ≠ "" → x +:+ s ≠ s.
Proof.
  intros Hx E. apply (f_equal Py.len) in E. rewrite len_app in E.
  apply Hx, len_zero; lia.
Qed.

Lemma app_ne_self_r x s : x ≠ "" → s +:+ x ≠ s.
Proof.
  intros Hx E. apply (f_equal Py.len) in E. rewrite len_app in E.
  apply Hx, len_zero; lia.
Qed.

Lemma edged_nil : edged "".
Proof. by left. Qed.

Lemma edged_dot : edged ".".
Proof. by right. Qed.

Lemma edged_app x y : edged x → edged y → edged (x +:+ y).
Proof.
  intros [->|[Hx1 Hx2]]; [done|]. intros [->|[Hy1 Hy2]].
  - rewrite str_app_nil_r. by right.
  - right. rewrite hd_sat_app, lst_sat_app.
    by rewrite (hd_sat_truthy _ _ Hx1), (hd_sat_truthy _ _ Hy1).
Qed.

Lemma edged_word w : all_sat not_space w = true → edged w.
Proof.
  intros Hw. destruct (decide (w = "")) as [->|Hne]; [by left|]. right.
  split; [by apply all_sat_hd|by apply all_sat_lst].
Qed.

Lemma edged_digits d : all_digits d → edged d.
Proof.
  intros Hd. apply edged_word.
  exact (all_sat_impl is_digit not_space d digit_not_space Hd).
Qed.

Lemma edged_strip x : edged (Py.strip x).
Proof.
  destruct (decide (Py.strip x = "")) as [->|Hne]; [by left|].
  right. by apply strip_edges.
Qed.

Lemma edged_lower x : edged x → edged (low x).
Proof.
  unfold low. intros [->|[H1 H2]]; [by left|]. right.
  by rewrite (hd_sat_lower _ lower_char_space), (lst_sat_lower _ lower_char_space).
Qed.

Lemma edged_opt_name x : edged (opt_name x).
Proof.
  unfold opt_name. destruct (Py.truthy x); [|by left].
  apply edged_lower, edged_strip.
Qed.

Lemma edged_ini x : edged x → edged (ini_of x).
Proof.
  intros [->|[H1 _]]; [by left|]. destruct x as [|c x]; [done|]. right.
  cbn in *. by rewrite lower_char_space.
Qed.

Lemma no_digit_ini x : no_digit x → no_digit (ini_of x).
Proof.
  unfold no_digit. destruct x as [|c x]; [done|]. cbn.
  intros [Hc _]%andb_true_iff. by rewrite lower_char_digit, Hc.
Qed.

Lemma no_digit_name x : no_digit x → no_digit (low (Py.strip x)).
Proof.
  unfold no_digit, low. intros H.
  rewrite (all_sat_lower _ lower_char_digit). by apply all_sat_strip.
Qed.

Lemma no_digit_opt_name x : no_digit x → no_digit (opt_name x).
Proof. unfold opt_name. destruct (Py.truthy x); [apply no_digit_name|done]. Qed.

Lemma no_dot_name x : no_dot x → no_dot (low (Py.strip x)).
Proof.
  unfold no_dot, low. intros H.
  rewrite (all_sat_lower _ lower_char_dot). by apply all_sat_strip.
Qed.

Lemma nil_ne_surname_date s d : d ≠ "" → Py.strip "" ≠ s +:+ d.
Proof. intros Hd E. cbn in E. symmetry in E. destruct s; [done|discriminate]. Qed.

Ltac solve_edged :=
  lazymatch goal with
  | |- edged "" => exact edged_nil
  | |- edged "." => exact edged_dot
  | |- edged (?t +:+ ?r) => apply edged_app; [solve_edged|solve_edged]
  | |- edged ?t => first [assumption|apply edged_digits; assumption]
  end.

Ltac solve_has_dot :=
  lazymatch goal with
  | |- has_dot ("." +:+ _) => apply has_dot_here
  | |- has_dot (_ +:+ ?r) => apply has_dot_later; solve_has_dot
  end.

Ltac solve_no_digit :=
  lazymatch goal with
  | |- no_digit (?t +:+ ?r) => apply no_digit_app; [solve_no_digit|solve_no_digit]
  | |- no_digit ?t => assumption
  end.

Ltac solve_digits :=
  lazymatch goal with
  | |- all_digits (?x +:+ ?y) => apply all_digits_app; assumption
  | |- all_digits ?x => assumption
  end.

Ltac solve_body_ne :=
  first [assumption
        |apply app_ne_self_l; assumption
        |apply app_ne_self_r; assumption].

(** Decides that a candidate is not surname + date: it is empty, or has a
    dot, or has another body before its digits, or has no digit. *)
Ltac solve_bare :=
  lazymatch goal with
  | |- Py.strip "" ≠ _ => apply nil_ne_surname_date; assumption
  | |- Py.strip ?c ≠ _ =>
      rewrite (strip_edged c) by solve_edged;
      first
        [ apply dot_ne_surname_date; [solve_has_dot|assumption|assumption]
        | apply body_ne_surname_date;
            [solve_no_digit|solve_digits|assumption|assumption|solve_body_ne]
        | rewrite <-!str_app_assoc; apply body_ne_surname_date;
            [solve_no_digit|solve_digits|assumption|assumption
            |rewrite ?str_app_assoc; solve_body_ne]
        | apply no_digit_ne_surname_date; [solve_no_digit|assumption|assumption] ]
  end.

Section ChineseBare.

Variables (s a a2 g g2 si gi ai init_sg init_as init_asg yr2 dy2 : string).
Variable dates : list string.
Variable d0 : string.

Hypothesis Hd0 : all_digits d0.
Hypothesis Hd0_ne : d0 ≠ "".
Hypothesis Hs_dot : no_dot s.
Hypothesis Hs : name_token s.
Hypothesis Ha : name_token a.
Hypothesis Ha2 : name_token a2.
Hypothesis Hg : name_token g.
Hypothesis Hg2 : name_token g2.
Hypothesis Hsi : name_token si.
Hypothesis Hgi : name_token gi.
Hypothesis Hai : name_token ai.
Hypothesis Hinit_sg : name_token init_sg.
Hypothesis Hinit_as : name_token init_as.
Hypothesis Hinit_asg : name_token init_asg.
Hypothesis Hgi_ne : gi ≠ "".
Hypothesis Hyr2 : all_digits yr2.
Hypothesis Hdy2 : all_digits dy2.
Hypothesis Hdates : Forall all_digits dates.

Ltac facts :=
  pose proof (proj1 Hs); pose proof (proj2 Hs);
  pose proof (proj1 Ha); pose proof (proj2 Ha);
  pose proof (proj1 Ha2); pose proof (proj2 Ha2);
  pose proof (proj1 Hg); pose proof (proj2 Hg);
  pose proof (proj1 Hg2); pose proof (proj2 Hg2);
  pose proof (proj1 Hsi); pose proof (proj2 Hsi);
  pose proof (proj1 Hgi); pose proof (proj2 Hgi);
  pose proof (proj1 Hai); pose proof (proj2 Hai);
  pose proof (proj1 Hinit_sg); pose proof (proj2 Hinit_sg);
  pose proof (proj1 Hinit_as); pose proof (proj2 Hinit_as);
  pose proof (proj1 Hinit_asg); pose proof (proj2 Hinit_asg).

Ltac use_dates :=
  repeat match goal with
    | E : Py.truthy _ = true |- _ => apply truthy_ne in E
    | H : ?d ∈ dates |- _ =>
        pose proof (proj1 (Forall_forall _ _) Hdates _ H); clear H
    end.

Ltac known_guards :=
  repeat match goal with
    | E : Py.truthy ?x = _ |- context [Py.truthy ?x] => rewrite E
    end;
  cbn [andb].

Ltac bare :=
  known_guards; case_guards; each_candidate; use_dates; facts;
  unfold bare_free; solve_bare.

Hypothesis Hbodies :
  Forall (λ b, b ≠ s) (cn_date_bodies a a2 g g2 si ai init_sg false).

Ltac use_bodies H :=
  unfold cn_date_bodies in H;
  repeat match type of H with
    | context [if Py.truthy ?x then _ else _] =>
        let E := fresh "E" in destruct (Py.truthy x) eqn:E
    end;
  cbn [app] in H;
  repeat (apply Forall_cons in H; destruct H as [? H]).

Lemma cn_default_bare :
  Forall (bare_free s d0)
    (cn_default s a a2 g g2 si gi ai init_sg init_as init_asg yr2 dy2 dates).
Proof.
  pose proof Hbodies as Hb.
  use_bodies Hb;
    (unfold cn_default;
     apply Forall_app_2; [unfold cn_tier1; bare|];
     apply Forall_app_2; [unfold cn_tier2; bare|];
     apply Forall_app_2; [unfold cn_tier3; bare|];
     apply Forall_app_2; [unfold cn_tier4; bare|];
     apply Forall_app_2; [unfold cn_tier5; bare|];
     apply Forall_app_2; [unfold cn_tier6; bare|];
     apply Forall_app_2; [unfold cn_tier7; bare|];
     apply Forall_app_2; [unfold cn_tier8; bare|];
     apply Forall_app_2; [unfold cn_tier9; bare|];
     apply Forall_app_2; [unfold cn_tier10; bare|];
     unfold cn_alias2; bare).
Qed.

Hypothesis Hbodies_full :
  Forall (λ b, b ≠ s) (cn_date_bodies a a2 g g2 si ai init_sg true).

Lemma cn_full_bare :
  Forall (bare_free s d0) (cn_full s a a2 g g2 si gi ai init_sg dates).
Proof.
  pose proof Hbodies_full as Hb.
  use_bodies Hb;
    (unfold cn_full;
     apply Forall_app_2; [unfold cn_full_alias; bare|];
     apply Forall_app_2; [unfold cn_full_given; bare|];
     apply Forall_app_2; [unfold cn_full_surname; bare|];
     apply Forall_app_2; [unfold cn_full_g2; bare|];
     unfold cn_full_alias2; bare).
Qed.

End ChineseBare.

Lemma cn_date_bodies_default a a2 g g2 si ai init_sg full x :
  x ∈ cn_date_bodies a a2 g g2 si ai init_sg false →
  x ∈ cn_date_bodies a a2 g g2 si ai init_sg full.
Proof.
  unfold cn_date_bodies. rewrite !elem_of_app, elem_of_nil. tauto.
Qed.

Lemma name_token_name x : no_digit x → name_token (low (Py.strip x)).
Proof.
  intros Hx. split; [by apply no_digit_name|]. apply edged_lower, edged_strip.
Qed.

Lemma name_token_opt x : no_digit x → name_token (opt_name x).
Proof. intros Hx. split; [by apply no_digit_opt_name|apply edged_opt_name]. Qed.

Lemma name_token_ini x : name_token x → name_token (ini_of x).
Proof. intros [? ?]. split; [by apply no_digit_ini|by apply edged_ini]. Qed.

Lemma name_token_app x y : name_token x → name_token y → name_token (x +:+ y).
Proof. intros [? ?] [? ?]. split; [by apply no_digit_app|by apply edged_app]. Qed.

Lemma name_token_nil : name_token "".
Proof. split; [done|by left]. Qed.

Lemma name_token_if (b : bool) x : name_token x → name_token (if b then x else "").
Proof. destruct b; [done|]. intros _. apply name_token_nil. Qed.

Lemma given_parts_tokens first :
  no_digit first →
  name_token (nth 0 (given_parts first) "") ∧ name_token (nth 1 (given_parts first) "").
Proof.
  intros Hf.
  pose proof (given_parts_words _ first lower_char_digit Hf) as Hw.
  assert (Ht : Forall name_token (given_parts first)).
  { eapply Forall_impl; [exact Hw|]. intros w (_ & ? & ?).
    split; [done|by apply edged_word]. }
  destruct (given_parts first) as [|x [|y l]]; cbn.
  - split; apply name_token_nil.
  - apply Forall_cons in Ht as [? _]. split; [done|apply name_token_nil].
  - apply Forall_cons in Ht as [? [? _]%Forall_cons]. done.
Qed.

Lemma cn_candidates_bare last first alias alias2 year dob full d :
  no_digit last → no_dot last → no_digit first → no_digit alias →
  no_digit alias2 →
  Py.strip first ≠ "" →
  Forall all_digits (dates_of year dob) →
  low (Py.strip last) ∉ cn_bodies last first alias alias2 full →
  d ∈ dates_of year dob →
  Forall (bare_free (low (Py.strip last)) d)
    (cn_candidates last first alias alias2 year dob full).
Proof.
  intros Hlast Hlast_dot Hfirst Halias Halias2 Hf Hdig Hbod Hd.
  unfold cn_candidates, dates_of, cn_bodies in *.
  destruct (date_tokens year dob) as [[[yr4 yr2] dy2] md].
  destruct (given_parts_tokens first Hfirst) as [Hg1 Hg2].
  pose proof (given_parts_nonempty first Hf) as Hne.
  pose proof (given_parts_words _ first lower_char_digit Hfirst) as Hw.
  assert (Hg1_ne : nth 0 (given_parts first) "" ≠ "").
  { by apply (Forall_nth0 (λ w, w ≠ "")); [eapply Forall_impl; [exact Hw|]; intros ? (? & _)|]. }
  pose proof (name_token_name last Hlast) as Hs.
  pose proof (no_dot_name last Hlast_dot) as Hs_dot.
  pose proof (name_token_opt alias Halias) as Ha.
  pose proof (name_token_opt alias2 Halias2) as Ha2.
  set (s := low (Py.strip last)) in *.
  set (a := opt_name alias) in *. set (a2 := opt_name alias2) in *.
  set (g1 := nth 0 (given_parts first) "") in *.
  set (g2 := nth 1 (given_parts first) "") in *.
  assert (Hd_dig : all_digits d) by by rewrite Forall_forall in Hdig; apply Hdig.
  assert (Hd_ne : d ≠ "") by by apply elem_of_date_list in Hd as [? _].
  assert (Hopt : ∀ x, x ∈ [yr4; yr2; md; dy2] → all_digits x).
  { intros x Hx. destruct (decide (x = "")) as [->|Hx_ne]; [done|].
    rewrite Forall_forall in Hdig. apply Hdig, elem_of_date_list. done. }
  assert (Hyr2 : all_digits yr2) by (apply Hopt; set_solver).
  assert (Hdy2 : all_digits dy2) by (apply Hopt; set_solver).
  assert (Hgi_ne : ini_of g1 +:+ ini_of g2 ≠ "").
  { intros E. apply (f_equal Py.truthy) in E. rewrite truthy_app in E.
    apply orb_false_iff in E as [E _]. apply truthy_false in E.
    by destruct g1. }
  assert (Hbodies : ∀ full', (full' = true → full = true) →
            Forall (λ b, b ≠ s)
              (cn_date_bodies a a2 (g1 +:+ g2) g2 (ini_of s) (ini_of a)
                 (ini_of s +:+ ini_of g1 +:+ ini_of g2) full')).
  { intros full' Hfull. apply Forall_forall. intros b Hb ->. apply Hbod.
    destruct full'; [by rewrite (Hfull eq_refl)|].
    by apply cn_date_bodies_default. }
  pose proof (Hbodies false ltac:(discriminate)) as Hb0.
  unfold cn_combos. apply Forall_app_2.
  - apply cn_default_bare;
      auto 7 using name_token_ini, name_token_app, name_token_if.
  - destruct full; [|constructor].
    pose proof (Hbodies true (λ _, eq_refl)) as Hb1.
    apply (cn_full_bare _ _ _ _ _ _ _ _ _ "" "");
      auto 7 using name_token_ini, name_token_app, name_token_if, name_token_nil.
Qed.

(** C9, as the code has it.  When the surname and the other name fields
    hold no digit, the surname holds no dot, the given name is not blank,
    every date token is made of digits, and the surname differs from every
    string that the generator puts directly in front of a date token (alias,
    alias2, given name, second given word, surname initial + given initials,
    and the concatenations listed in [cn_date_bodies]), the returned list,
    in default and in full mode, contains no surname + date token. *)
Theorem no_bare_surname_date
  (last first alias alias2 year dob : string) (full : bool) (d : string) :
  no_digit last → no_dot last → no_digit first → no_digit alias →
  no_digit alias2 →
  Py.strip first ≠ "" →
  Forall all_digits (dates_of year dob) →
  low (Py.strip last) ∉ cn_bodies last first alias alias2 full →
  d ∈ dates_of year dob →
  ∃ r, generate_chinese last first alias alias2 year dob full = Ok r
       ∧ low (Py.strip last) +:+ d ∉ r.
Proof.
  intros Hlast Hlast_dot Hfirst Halias Halias2 Hf Hdig Hbod Hd.
  eexists. split; [apply generate_chinese_ok|].
  intros [Hx _]%elem_of_trim.
  apply list_elem_of_fmap in Hx as (c & Hc & Hin).
  pose proof (cn_candidates_bare last first alias alias2 year dob full d
                Hlast Hlast_dot Hfirst Halias Halias2 Hf Hdig Hbod Hd) as Hall.
  rewrite Forall_forall in Hall. by apply (Hall c Hin).
Qed.

Lemma no_bare_surname_date_witness :
  ∃ r, generate_chinese "Chan" "Tai Man" "Tommy" "" "" "2001/10/15" true = Ok r
       ∧ "chan2001" ∉ r.
Proof.
  apply (no_bare_surname_date "Chan" "Tai Man" "Tommy" "" "" "2001/10/15" true "2001");
    try reflexivity.
  - vm_compute. discriminate.
  - vm_compute. repeat constructor.
  - concrete_list.
  - concrete_list.
Defined.

(** C9 as stated fails when the surname is its own initial followed by the
    given initials: for the surname "Ng" and the given name "Gwen", tier 9
    emits init_sg + date = "ng2001", the surname followed by the year. *)
Lemma surname_date_from_initials :
  let s := low (Py.strip "Ng") in
  let g1 := nth 0 (given_parts "Gwen") "" in
  let g2 := nth 1 (given_parts "Gwen") "" in
  opt_name "" ≠ s ∧ g1 +:+ g2 ≠ s ∧ g2 ≠ s
  ∧ "2001" ∈ dates_of "" "2001/10/15"
  ∧ ∃ r, generate_chinese "Ng" "Gwen" "" "" "" "2001/10/15" false = Ok r
         ∧ s +:+ "2001" ∈ r.
Proof.
  cbv zeta. split; [vm_compute; discriminate|].
  split; [vm_compute; discriminate|]. split; [vm_compute; discriminate|].
  split; [concrete_list|].
  eexists. split; [vm_compute; reflexivity|]. concrete_list.
Qed.

(** * Further properties *)

(** ** More on the filter/dedupe stage *)

Lemma strip_idem x : Py.strip (Py.strip x) = Py.strip x.
Proof. apply strip_edged, edged_strip. Qed.

Lemma keep_first_NoDup l : NoDup l → keep_first l = l.
Proof.
  induction 1 as [|x l Hx Hl IH]; [done|]. cbn [keep_first]. rewrite IH.
  f_equal. apply filter_all. apply Forall_forall. by intros y Hy ->.
Qed.

Lemma keep_first_filter (Q : string → Prop) `{!∀ x, Decision (Q x)} l :
  keep_first (filter Q l) = filter Q (keep_first l).
Proof.
  induction l as [|x l IH]; [done|]. cbn [keep_first].
  destruct (decide (Q x)) as [Hx|Hx].
  - rewrite !filter_cons_True by done. cbn [keep_first]. rewrite IH. f_equal.
    rewrite !list_filter_filter. apply list_filter_iff. tauto.
  - rewrite !filter_cons_False by done. rewrite IH. symmetry.
    apply list_filter_filter_l. by intros y Hy ->.
Qed.

(** Running the stage on its own output changes nothing. *)
Theorem trim_idempotent (lst : list string) (maxlen : nat) :
  trim (trim lst maxlen) maxlen = trim lst maxlen.
Proof.
  rewrite (trim_refines maxlen (trim lst maxlen)). unfold trim_spec.
  assert (Hs : Py.strip <$> trim lst maxlen = trim lst maxlen).
  { rewrite <-(list_fmap_id (trim lst maxlen)) at 2.
    apply list_fmap_ext. intros i x Hx. cbn.
    apply list_elem_of_lookup_2, elem_of_trim in Hx as [Hx _].
    apply list_elem_of_fmap in Hx as (y & -> & _). apply strip_idem. }
  rewrite Hs, filter_all.
  - apply keep_first_NoDup, trim_NoDup.
  - apply Forall_forall. intros x Hx. by apply elem_of_trim in Hx as [_ ?].
Qed.

(** A smaller cap gives the output of the larger cap without its entries
    longer than the smaller cap, in the same order. *)
Theorem trim_cap_filter (lst : list string) (m m' : nat) :
  m ≤ m' →
  trim lst m = filter (λ x, Py.len x ≤ m) (trim lst m').
Proof.
  intros Hm. rewrite !trim_refines. unfold trim_spec.
  rewrite <-keep_first_filter, list_filter_filter. f_equal.
  apply list_filter_iff. intros x. unfold in_window. split.
  - intros (? & ? & ?). repeat split; (done || lia).
  - intros (? & ? & ? & ?). done.
Qed.

Lemma trim_cap_filter_witness :
  trim ["abcdef"; "abcdefghijklmnopq"; "abcdefg"] 16
  = filter (λ x, Py.len x ≤ 16) (trim ["abcdef"; "abcdefghijklmnopq"; "abcdefg"] 18).
Proof. apply trim_cap_filter. lia. Defined.

(** ** More on [parse_dates] *)

Lemma dash_slash_space c :
  Py.is_space (if Ascii.eqb c "-" then "/"%char else c) = Py.is_space c.
Proof. destruct (Ascii.eqb_spec c "-") as [->|]; reflexivity. Qed.

Lemma truthy_replace old new x : Py.truthy (Py.replace old new x) = Py.truthy x.
Proof. by destruct x. Qed.

Lemma lstrip_replace x :
  Py.lstrip (Py.replace "-" "/" x) = Py.replace "-" "/" (Py.lstrip x).
Proof.
  induction x as [|c x IH]; [done|]. cbn [Py.replace Py.lstrip].
  rewrite dash_slash_space. by destruct (Py.is_space c).
Qed.

Lemma rstrip_replace x :
  Py.rstrip (Py.replace "-" "/" x) = Py.replace "-" "/" (Py.rstrip x).
Proof.
  induction x as [|c x IH]; [done|]. cbn [Py.replace Py.rstrip].
  rewrite dash_slash_space, IH, truthy_replace.
  by destruct (Py.is_space c && negb (Py.truthy (Py.rstrip x))).
Qed.

Lemma strip_replace x :
  Py.strip (Py.replace "-" "/" x) = Py.replace "-" "/" (Py.strip x).
Proof. unfold Py.strip. by rewrite lstrip_replace, rstrip_replace. Qed.

Lemma replace_idem x :
  Py.replace "-" "/" (Py.replace "-" "/" x) = Py.replace "-" "/" x.
Proof.
  induction x as [|c x IH]; [done|]. cbn [Py.replace]. rewrite IH. f_equal.
  destruct (Ascii.eqb c "-") eqn:E; [reflexivity|by rewrite E].
Qed.

Lemma dob_parts_replace dob : dob_parts (Py.replace "-" "/" dob) = dob_parts dob.
Proof. unfold dob_parts. by rewrite strip_replace, replace_idem. Qed.

(** The separators '-' and '/' of a date of birth are interchangeable:
    writing every '-' as '/' changes nothing. *)
Theorem parse_dates_separator (year dob : string) :
  parse_dates year (Py.replace "-" "/" dob) = parse_dates year dob.
Proof.
  rewrite !parse_dates_ok. unfold date_tokens. by rewrite dob_parts_replace.
Qed.

Lemma len_drop n x : Py.len (Py.drop n x) = Py.len x - n.
Proof.
  revert x. induction n as [|n IH]; intros [|c x]; cbn; try done; try lia.
Qed.

Lemma len_last_n n x : Py.len (Py.last_n n x) = Nat.min n (Py.len x).
Proof. unfold Py.last_n. rewrite len_drop. lia. Qed.

(** Sizes of the date tokens: [yr2] has at most 2 characters; [yr4] has at
    most 4 when it comes from [year]; for a [dob] of 3 parts [dy2] has
    exactly 2 characters and [md] at least 4; otherwise both are empty. *)
Theorem parse_dates_sizes (year dob : string) :
  ∃ yr4 yr2 dy2 md,
    parse_dates year dob = Ok (yr4, yr2, dy2, md)
    ∧ Py.len yr2 ≤ 2
    ∧ (Py.strip year ≠ "" → 1 ≤ Py.len yr4 ∧ Py.len yr4 ≤ 4)
    ∧ (length (dob_parts dob) = 3 → Py.len dy2 = 2 ∧ 4 ≤ Py.len md)
    ∧ (length (dob_parts dob) ≠ 3 → dy2 = "" ∧ md = "").
Proof.
  rewrite parse_dates_ok.
  pose proof (date_tokens_yr2 year dob) as Hyr2.
  destruct (date_tokens year dob) as [[[yr4 yr2] dy2] md] eqn:E.
  cbn [fst snd] in Hyr2. exists yr4, yr2, dy2, md. split; [done|].
  split; [rewrite Hyr2, len_last_n; lia|]. split; [|split].
  - intros Hy. unfold date_tokens in E. rewrite (year_yr4_strip _ Hy) in E.
    assert (Hl : Py.len (Py.strip year) ≠ 0) by by rewrite len_zero.
    assert (Ht : Py.truthy (Py.last_n 4 (Py.strip year)) = true)
      by by apply truthy_ne, last_n_nonempty; [lia|].
    assert (E4 : yr4 = Py.last_n 4 (Py.strip year)).
    { destruct (dob_parts dob) as [|y [|mo [|dy [|z ps]]]];
        try rewrite Ht in E; congruence. }
    rewrite E4, len_last_n. lia.
  - intros H3. destruct (dob_parts dob) as [|y [|mo [|dy [|z ps]]]] eqn:Ep;
      try discriminate.
    rewrite (date_tokens_3 _ _ _ _ _ Ep) in E. cbn zeta in E.
    injection E as <- <- <- <-. rewrite len_last_n, len_app.
    pose proof (len_zfill 2 mo). pose proof (len_zfill 2 dy). lia.
  - intros H3. rewrite (date_tokens_not3 _ _ H3) in E. by injection E as <- <- <- <-.
Qed.

Lemma parse_dates_sizes_witness :
  ∃ yr4 yr2 dy2 md,
    parse_dates "19999" "2001/3/7" = Ok (yr4, yr2, dy2, md)
    ∧ Py.len yr4 ≤ 4 ∧ Py.len dy2 = 2 ∧ 4 ≤ Py.len md.
Proof.
  destruct (parse_dates_sizes "19999" "2001/3/7")
    as (yr4 & yr2 & dy2 & md & Hp & _ & H4 & H3 & _).
  exists yr4, yr2, dy2, md. split; [exact Hp|].
  destruct H4 as [_ ?]; [vm_compute; discriminate|].
  destruct H3 as [? ?]; [reflexivity|]. done.
Defined.

(** ** Normalisation of the inputs *)

Lemma is_space_lower c : Py.is_space (Py.lower_char c) = Py.is_space c.
Proof. pose proof (lower_char_space c) as H. unfold not_space in H.
  by destruct (Py.is_space (Py.lower_char c)), (Py.is_space c). Qed.

Lemma lower_char_idem c : Py.lower_char (Py.lower_char c) = Py.lower_char c.
Proof. all_chars c. Qed.

Lemma lower_idem x : Py.lower (Py.lower x) = Py.lower x.
Proof. induction x as [|c x IH]; [done|]. cbn. by rewrite IH, lower_char_idem. Qed.

Lemma lower_app x y : Py.lower (x +:+ y) = Py.lower x +:+ Py.lower y.
Proof. induction x as [|c x IH]; [done|]. rewrite str_app_cons. cbn. by rewrite IH. Qed.

Lemma lstrip_lower x : Py.lstrip (Py.lower x) = Py.lower (Py.lstrip x).
Proof.
  induction x as [|c x IH]; [done|]. cbn [Py.lower Py.lstrip].
  rewrite is_space_lower. by destruct (Py.is_space c).
Qed.

Lemma rstrip_lower x : Py.rstrip (Py.lower x) = Py.lower (Py.rstrip x).
Proof.
  induction x as [|c x IH]; [done|]. cbn [Py.lower Py.rstrip].
  rewrite is_space_lower, IH, truthy_lower.
  by destruct (Py.is_space c && negb (Py.truthy (Py.rstrip x))).
Qed.

Lemma strip_lower x : Py.strip (Py.lower x) = Py.lower (Py.strip x).
Proof. unfold Py.strip. by rewrite lstrip_lower, rstrip_lower. Qed.

(** A name token is not changed by normalising it again. *)
Lemma name_norm_idem x : low (Py.strip (low (Py.strip x))) = low (Py.strip x).
Proof. unfold low. by rewrite strip_lower, strip_idem, lower_idem. Qed.

Lemma opt_name_norm x : opt_name (low (Py.strip x)) = opt_name x.
Proof.
  unfold opt_name. rewrite name_norm_idem. unfold low. rewrite truthy_lower.
  destruct (Py.truthy (Py.strip x)) eqn:E.
  - by rewrite (hd_sat_truthy (λ _, true) x) by (destruct x; [done|reflexivity]).
  - apply truthy_false in E. rewrite E. by destruct (Py.truthy x).
Qed.

Lemma opt_name_blank x : Py.strip x = "" → opt_name x = "".
Proof. unfold opt_name. intros ->. by destruct (Py.truthy x). Qed.

Lemma given_parts_norm x : given_parts (low (Py.strip x)) = given_parts x.
Proof. unfold given_parts. by rewrite name_norm_idem. Qed.

Lemma year_yr4_norm year : year_yr4 (Py.strip year) = year_yr4 year.
Proof.
  unfold year_yr4. rewrite strip_idem.
  destruct (Py.truthy (Py.strip year)) eqn:E.
  - destruct year; [done|]. done.
  - apply truthy_false in E. rewrite E. by destruct (Py.truthy year).
Qed.

Lemma dob_parts_norm dob : dob_parts (Py.strip dob) = dob_parts dob.
Proof. unfold dob_parts. by rewrite strip_idem. Qed.

Lemma date_tokens_norm year dob :
  date_tokens (Py.strip year) (Py.strip dob) = date_tokens year dob.
Proof. unfold date_tokens. by rewrite year_yr4_norm, dob_parts_norm. Qed.

Lemma date_tokens_blank_year year dob :
  Py.strip year = "" → date_tokens year dob = date_tokens "" dob.
Proof. intros E. by rewrite <-(date_tokens_norm year), E, <-(date_tokens_norm "" dob). Qed.

Lemma date_tokens_blank_dob year dob :
  Py.strip dob = "" → date_tokens year dob = date_tokens year "".
Proof. intros E. by rewrite <-(date_tokens_norm year dob), E, <-(date_tokens_norm year ""). Qed.

Lemma cn_candidates_norm last first alias alias2 year dob full :
  cn_candidates (low (Py.strip last)) (low (Py.strip first))
    (low (Py.strip alias)) (low (Py.strip alias2))
    (Py.strip year) (Py.strip dob) full
  = cn_candidates last first alias alias2 year dob full.
Proof.
  unfold cn_candidates.
  by rewrite name_norm_idem, !opt_name_norm, given_parts_norm, date_tokens_norm.
Qed.

Lemma en_candidates_norm first last middle alias alias2 year dob full :
  en_candidates (low (Py.strip first)) (low (Py.strip last))
    (low (Py.strip middle)) (low (Py.strip alias)) (low (Py.strip alias2))
    (Py.strip year) (Py.strip dob) full
  = en_candidates first last middle alias alias2 year dob full.
Proof.
  unfold en_candidates.
  by rewrite !name_norm_idem, !opt_name_norm, date_tokens_norm.
Qed.

(** The generators do not see the case or the surrounding whitespace of the
    name fields, nor the surrounding whitespace of [year] and [dob]: the
    lowercased trimmed fields give the same result. *)
Theorem generators_normalise_inputs
  (last first middle alias alias2 year dob : string) (full : bool) :
  generate_chinese (low (Py.strip last)) (low (Py.strip first))
    (low (Py.strip alias)) (low (Py.strip alias2))
    (Py.strip year) (Py.strip dob) full
  = generate_chinese last first alias alias2 year dob full
  ∧ generate_western (low (Py.strip first)) (low (Py.strip last))
      (low (Py.strip middle)) (low (Py.strip alias)) (low (Py.strip alias2))
      (Py.strip year) (Py.strip dob) full
    = generate_western first last middle alias alias2 year dob full.
Proof.
  rewrite !generate_chinese_ok, !generate_western_ok.
  by rewrite cn_candidates_norm, en_candidates_norm.
Qed.

(** An optional field made of whitespace only is treated as an absent one. *)
Theorem blank_fields_absent
  (last first middle alias alias2 year dob : string) (full : bool) :
  (Py.strip alias = "" →
     generate_chinese last first alias alias2 year dob full
     = generate_chinese last first "" alias2 year dob full
     ∧ generate_western first last middle alias alias2 year dob full
       = generate_western first last middle "" alias2 year dob full)
  ∧ (Py.strip alias2 = "" →
       generate_chinese last first alias alias2 year dob full
       = generate_chinese last first alias "" year dob full
       ∧ generate_western first last middle alias alias2 year dob full
         = generate_western first last middle alias "" year dob full)
  ∧ (Py.strip middle = "" →
       generate_western first last middle alias alias2 year dob full
       = generate_western first last "" alias alias2 year dob full)
  ∧ (Py.strip year = "" →
       generate_chinese last first alias alias2 year dob full
       = generate_chinese last first alias alias2 "" dob full
       ∧ generate_western first last middle alias alias2 year dob full
         = generate_western first last middle alias alias2 "" dob full)
  ∧ (Py.strip dob = "" →
       generate_chinese last first alias alias2 year dob full
       = generate_chinese last first alias alias2 year "" full
       ∧ generate_western first last middle alias alias2 year dob full
         = generate_western first last middle alias alias2 year "" full).
Proof.
  rewrite !generate_chinese_ok, !generate_western_ok.
  unfold cn_candidates, en_candidates.
  split; [intros H; by rewrite (opt_name_blank _ H)|].
  split; [intros H; by rewrite (opt_name_blank _ H)|].
  split; [intros H; by rewrite (opt_name_blank _ H)|].
  split; [intros H; by rewrite (date_tokens_blank_year _ _ H)|].
  intros H; by rewrite (date_tokens_blank_dob _ _ H).
Qed.

Lemma blank_fields_absent_witness :
  generate_chinese "Chan" "Tai Man" "  " "" "" "2001/10/15" false
  = generate_chinese "Chan" "Tai Man" "" "" "" "2001/10/15" false.
Proof.
  destruct (blank_fields_absent "Chan" "Tai Man" "" "  " "" "" "2001/10/15" false)
    as [H _].
  destruct H as [H _]; [reflexivity|]. exact H.
Defined.

(** ** The words of the given name *)

Lemma cons_word_app w ws l : Py.cons_word w (ws ++ l) = Py.cons_word w ws ++ l.
Proof. unfold Py.cons_word. by destruct (Py.truthy w). Qed.

Lemma split_go_app_space x sp y :
  Py.is_space sp = true →
  Py.split_go (x +:+ String sp y)
  = ((Py.split_go x).1, (Py.split_go x).2 ++ Py.split y).
Proof.
  intros Hsp. induction x as [|c x IH].
  - rewrite str_app_nil_l. cbn. rewrite Hsp. unfold Py.split.
    by destruct (Py.split_go y).
  - rewrite str_app_cons. cbn [Py.split_go]. rewrite IH.
    destruct (Py.split_go x) as [w ws]. cbn [fst snd].
    destruct (Py.is_space c); cbn [fst snd]; [|done].
    by rewrite cons_word_app.
Qed.

(** [split] of two strings joined by a whitespace character. *)
Lemma split_app_space x sp y :
  Py.is_space sp = true → Py.split (x +:+ String sp y) = Py.split x ++ Py.split y.
Proof.
  intros Hsp. unfold Py.split at 1 2. rewrite (split_go_app_space _ _ _ Hsp).
  destruct (Py.split_go x) as [w ws]. cbn [fst snd]. apply cons_word_app.
Qed.

Lemma split_lstrip x : Py.split (Py.lstrip x) = Py.split x.
Proof.
  induction x as [|c x IH]; [done|]. cbn [Py.lstrip].
  destruct (Py.is_space c) eqn:E; [|done]. rewrite IH.
  by rewrite <-(str_app_nil_l (String c x)), (split_app_space "" c x E).
Qed.

Lemma split_go_rstrip x : Py.split_go (Py.rstrip x) = Py.split_go x.
Proof.
  induction x as [|c x IH]; [done|]. cbn [Py.rstrip].
  destruct (Py.is_space c) eqn:E; cbn [andb].
  - destruct (Py.truthy (Py.rstrip x)) eqn:Et; cbn [negb].
    + cbn [Py.split_go]. by rewrite IH.
    + apply truthy_false in Et. rewrite Et in IH. cbn [Py.split_go].
      rewrite <-IH, E. done.
  - cbn [Py.split_go]. by rewrite IH.
Qed.

Lemma split_strip x : Py.split (Py.strip x) = Py.split x.
Proof.
  unfold Py.strip. unfold Py.split at 1. rewrite split_go_rstrip.
  apply split_lstrip.
Qed.

Lemma given_parts_split first : given_parts first = Py.split (Py.lower first).
Proof. unfold given_parts, low. by rewrite <-strip_lower, split_strip. Qed.

(** The words of a given name followed by more text are its own words
    followed by the words of that text. *)
Lemma given_parts_app first extra :
  given_parts (first +:+ " " +:+ extra) = given_parts first ++ given_parts extra.
Proof.
  rewrite !given_parts_split, lower_app. cbn [Py.lower].
  by apply split_app_space.
Qed.

Lemma nth0_app (l k : list string) : 2 ≤ length l → nth 0 (l ++ k) "" = nth 0 l "".
Proof. destruct l as [|x [|y l]]; cbn; (done || lia). Qed.

Lemma nth1_app (l k : list string) : 2 ≤ length l → nth 1 (l ++ k) "" = nth 1 l "".
Proof. destruct l as [|x [|y l]]; cbn; (done || lia). Qed.

(** Only the first two words of the given name are used by
    [generate_chinese]: text added after a given name of two or more words
    changes nothing. *)
Theorem given_words_after_second_ignored
  (last first extra alias alias2 year dob : string) (full : bool) :
  2 ≤ length (given_parts first) →
  generate_chinese last (first +:+ " " +:+ extra) alias alias2 year dob full
  = generate_chinese last first alias alias2 year dob full.
Proof.
  intros H2. rewrite !generate_chinese_ok. unfold cn_candidates.
  by rewrite given_parts_app, nth0_app, nth1_app.
Qed.

Lemma given_words_after_second_ignored_witness :
  generate_chinese "Chan" ("Tai Man" +:+ " " +:+ "Kit") "Tommy" "" "" "2001/10/15" true
  = generate_chinese "Chan" "Tai Man" "Tommy" "" "" "2001/10/15" true.
Proof.
  apply given_words_after_second_ignored. vm_compute. lia.
Defined.

(** ** The characters of the candidates *)

Section CandidateChars.

Variable p : ascii → bool.
Hypothesis Hdot : p "."%char = true.

Ltac solve_chars :=
  cbn beta;
  lazymatch goal with
  | |- all_sat p "" = true => reflexivity
  | |- all_sat p "." = true => cbn; by rewrite Hdot
  | |- all_sat p (?t +:+ ?r) = true =>
      rewrite all_sat_app; apply andb_true_intro; split; solve_chars
  | |- all_sat p ?t = true => assumption
  end.

Ltac use_dates dates Hdates :=
  repeat match goal with
    | H : ?d ∈ dates |- _ =>
        pose proof (proj1 (Forall_forall _ _) Hdates _ H); clear H
    end.

Section Chinese.

Variables (s a a2 g g2 si gi ai init_sg init_as init_asg yr2 dy2 : string).
Variable dates : list string.

Hypothesis Hs : all_sat p s = true.
Hypothesis Ha : all_sat p a = true.
Hypothesis Ha2 : all_sat p a2 = true.
Hypothesis Hg : all_sat p g = true.
Hypothesis Hg2 : all_sat p g2 = true.
Hypothesis Hsi : all_sat p si = true.
Hypothesis Hgi : all_sat p gi = true.
Hypothesis Hai : all_sat p ai = true.
Hypothesis Hinit_sg : all_sat p init_sg = true.
Hypothesis Hinit_as : all_sat p init_as = true.
Hypothesis Hinit_asg : all_sat p init_asg = true.
Hypothesis Hyr2 : all_sat p yr2 = true.
Hypothesis Hdy2 : all_sat p dy2 = true.
Hypothesis Hdates : Forall (λ d, all_sat p d = true) dates.

Ltac chars := case_guards; each_candidate; use_dates dates Hdates; solve_chars.

Lemma cn_combos_chars full :
  Forall (λ c, all_sat p c = true)
    (cn_combos s a a2 g g2 si gi ai init_sg init_as init_asg yr2 dy2 dates full).
Proof.
  unfold cn_combos. apply Forall_app_2.
  - unfold cn_default.
    apply Forall_app_2; [unfold cn_tier1; chars|].
    apply Forall_app_2; [unfold cn_tier2; chars|].
    apply Forall_app_2; [unfold cn_tier3; chars|].
    apply Forall_app_2; [unfold cn_tier4; chars|].
    apply Forall_app_2; [unfold cn_tier5; chars|].
    apply Forall_app_2; [unfold cn_tier6; chars|].
    apply Forall_app_2; [unfold cn_tier7; chars|].
    apply Forall_app_2; [unfold cn_tier8; chars|].
    apply Forall_app_2; [unfold cn_tier9; chars|].
    apply Forall_app_2; [unfold cn_tier10; chars|].
    unfold cn_alias2; chars.
  - destruct full; [|constructor]. unfold cn_full.
    apply Forall_app_2; [unfold cn_full_alias; chars|].
    apply Forall_app_2; [unfold cn_full_given; chars|].
    apply Forall_app_2; [unfold cn_full_surname; chars|].
    apply Forall_app_2; [unfold cn_full_g2; chars|].
    unfold cn_full_alias2; chars.
Qed.

End Chinese.

Section Western.

Variables (f l m a a2 fi li mi ai init_fl init_fml ml yr2 dy2 md : string).
Variable dates : list string.

Hypothesis Hf : all_sat p f = true.
Hypothesis Hl : all_sat p l = true.
Hypothesis Hm : all_sat p m = true.
Hypothesis Ha : all_sat p a = true.
Hypothesis Ha2 : all_sat p a2 = true.
Hypothesis Hfi : all_sat p fi = true.
Hypothesis Hli : all_sat p li = true.
Hypothesis Hmi : all_sat p mi = true.
Hypothesis Hai : all_sat p ai = true.
Hypothesis Hinit_fl : all_sat p init_fl = true.
Hypothesis Hinit_fml : all_sat p init_fml = true.
Hypothesis Hml : all_sat p ml = true.
Hypothesis Hyr2 : all_sat p yr2 = true.
Hypothesis Hdy2 : all_sat p dy2 = true.
Hypothesis Hmd : all_sat p md = true.
Hypothesis Hdates : Forall (λ d, all_sat p d = true) dates.

Ltac chars :=
  cbn zeta; cbn [flat_map app]; rewrite ?str_app_nil_l;
  case_guards; each_candidate; use_dates dates Hdates; solve_chars.

Lemma en_cores_chars name :
  name ∈ List.filter Py.truthy [f; l; a; a2; init_fml; init_fl; ml] →
  all_sat p name = true.
Proof.
  rewrite list_elem_of_In, filter_In, <-list_elem_of_In.
  rewrite !elem_of_cons, elem_of_nil.
  intros [[->|[->|[->|[->|[->|[->|[->|[]]]]]]]] _]; done.
Qed.

Lemma en_combos_chars full :
  Forall (λ c, all_sat p c = true)
    (en_combos f l m a a2 fi li mi ai init_fl init_fml ml yr2 dy2 md dates full).
Proof.
  unfold en_combos. apply Forall_app_2.
  - unfold en_default.
    apply Forall_app_2; [unfold en_plain; chars|].
    apply Forall_app_2; [unfold en_short; chars|].
    apply Forall_app_2; [unfold en_alias; chars|].
    apply Forall_app_2; [unfold en_alias_date; chars|].
    apply Forall_app_2; [unfold en_initials; chars|].
    apply Forall_app_2; [unfold en_alias_initials; chars|].
    apply Forall_app_2; [unfold en_alias_last_date; chars|].
    apply Forall_app_2; [unfold en_date_name; chars|].
    apply Forall_app_2; [unfold en_dots; chars|].
    apply Forall_app_2; [unfold en_first_alias; chars|].
    unfold en_alias2; chars.
  - destruct full; [|constructor]. unfold en_full.
    apply Forall_app_2.
    { unfold en_full_cores. cbn zeta. apply Forall_flat_map. intros name Hn.
      apply en_cores_chars in Hn.
      each_candidate; use_dates dates Hdates; solve_chars. }
    apply Forall_app_2; [unfold en_full_alias2; chars|].
    apply Forall_app_2; [unfold en_full_middle; chars|].
    unfold en_full_alias; chars.
Qed.

End Western.

End CandidateChars.

Lemma all_sat_lower_fixed x : all_sat lower_fixed x = true ↔ Py.lower x = x.
Proof.
  induction x as [|c x IH]; [done|]. cbn. unfold lower_fixed at 1.
  rewrite andb_true_iff, IH, Ascii.eqb_eq. split.
  - by intros [-> ->].
  - intros E. by injection E as -> ->.
Qed.

Lemma lower_is_fixed x : all_sat lower_fixed (Py.lower x) = true.
Proof. apply all_sat_lower_fixed, lower_idem. Qed.

Section InputChars.

Variables q p : ascii → bool.
Hypothesis Hdot : p "."%char = true.
Hypothesis Hzero : p "0"%char = true.
Hypothesis Hq : ∀ c, q c = true → p (Py.lower_char c) = true.

Lemma all_sat_lower_map x : all_sat q x = true → all_sat p (Py.lower x) = true.
Proof.
  induction x as [|c x IH]; [done|]. cbn. intros [Hc Hx]%andb_true_iff.
  by rewrite (Hq _ Hc), IH.
Qed.

Lemma name_chars x : all_sat q x = true → all_sat p (low (Py.strip x)) = true.
Proof. intros Hx. by apply all_sat_lower_map, all_sat_strip. Qed.

Lemma opt_name_chars x : all_sat q x = true → all_sat p (opt_name x) = true.
Proof. unfold opt_name. destruct (Py.truthy x); [apply name_chars|done]. Qed.

Lemma ini_chars x :
  Py.lower x = x → all_sat p x = true → all_sat p (ini_of x) = true.
Proof.
  destruct x as [|c x]; [done|]. cbn. intros E [Hc _]%andb_true_iff.
  injection E as -> _. by rewrite Hc.
Qed.

Lemma given_word_chars first w :
  all_sat q first = true → w ∈ given_parts first →
  all_sat p w = true ∧ Py.lower w = w.
Proof.
  intros Hf Hw. unfold given_parts in Hw.
  pose proof (split_words p _ (name_chars _ Hf)) as H1.
  pose proof (split_words lower_fixed (low (Py.strip first)) (lower_is_fixed _)) as H2.
  rewrite Forall_forall in H1, H2.
  destruct (H1 w Hw) as (_ & _ & ?), (H2 w Hw) as (_ & _ & ?).
  split; [done|]. by apply all_sat_lower_fixed.
Qed.

Lemma given_nth_chars first i :
  all_sat q first = true →
  all_sat p (nth i (given_parts first) "") = true
  ∧ Py.lower (nth i (given_parts first) "") = nth i (given_parts first) "".
Proof.
  intros Hf. destruct (nth_in_or_default i (given_parts first) "") as [Hin| ->];
    [|done].
  apply list_elem_of_In in Hin. by apply (given_word_chars first).
Qed.

Lemma dob_parts_chars dob :
  all_sat (or_separator p) dob = true →
  Forall (λ w, all_sat p w = true) (dob_parts dob).
Proof.
  intros Hd. unfold dob_parts. apply (all_sat_strip _ dob) in Hd.
  induction (Py.strip dob) as [|c x IH]; [by repeat constructor|].
  cbn in Hd. apply andb_true_iff in Hd as [Hc Hx]. specialize (IH Hx).
  cbn [Py.replace Py.split_on]. unfold or_separator in Hc.
  destruct (Ascii.eqb c "-") eqn:E1.
  { cbn. by constructor. }
  destruct (Ascii.eqb c "/") eqn:E2.
  { by constructor. }
  rewrite !orb_false_r in Hc.
  destruct (Py.split_on "/" (Py.replace "-" "/" x)) as [|w ws].
  - repeat constructor. cbn. by rewrite Hc.
  - apply Forall_cons in IH as [Hw Hws]. constructor; [|done]. cbn. by rewrite Hc.
Qed.

Lemma date_tokens_chars year dob :
  all_sat p year = true → all_sat (or_separator p) dob = true →
  Forall (λ w, all_sat p w = true)
    [(date_tokens year dob).1.1.1; (date_tokens year dob).1.1.2;
     (date_tokens year dob).1.2; (date_tokens year dob).2].
Proof.
  intros Hy Hd.
  assert (H4 : all_sat p (year_yr4 year) = true).
  { unfold year_yr4. destruct (Py.truthy year); [|done].
    by apply all_sat_last_n, all_sat_strip. }
  pose proof (dob_parts_chars dob Hd) as Hparts.
  unfold date_tokens.
  destruct (dob_parts dob) as [|y [|mo [|dy [|z ps]]]]; cbn [fst snd];
    try (repeat constructor; (done || by apply all_sat_last_n)).
  apply Forall_cons in Hparts as [Hy' Hparts].
  apply Forall_cons in Hparts as [Hmo Hparts].
  apply Forall_cons in Hparts as [Hdy _].
  assert (all_sat p (if Py.truthy (year_yr4 year) then year_yr4 year else y) = true)
    by by destruct (Py.truthy (year_yr4 year)).
  repeat constructor; [done|by apply all_sat_last_n| |].
  - by apply all_sat_last_n, all_sat_zfill.
  - rewrite all_sat_app, !all_sat_zfill; done.
Qed.

Lemma trim_chars lst maxlen :
  Forall (λ c, all_sat p c = true) lst →
  Forall (λ x, all_sat p x = true) (trim lst maxlen).
Proof.
  intros Hl. apply Forall_forall. intros x [Hx _]%elem_of_trim.
  apply list_elem_of_fmap in Hx as (c & -> & Hc).
  rewrite Forall_forall in Hl. by apply all_sat_strip, Hl.
Qed.

Lemma cn_candidates_chars last first alias alias2 year dob full :
  all_sat q last = true → all_sat q first = true →
  all_sat q alias = true → all_sat q alias2 = true →
  all_sat p year = true → all_sat (or_separator p) dob = true →
  Forall (λ c, all_sat p c = true)
    (cn_candidates last first alias alias2 year dob full).
Proof.
  intros Hlast Hfirst Halias Halias2 Hyear Hdob. unfold cn_candidates.
  pose proof (date_tokens_chars year dob Hyear Hdob) as Hd.
  destruct (date_tokens year dob) as [[[yr4 yr2] dy2] md]. cbn [fst snd] in Hd.
  apply Forall_cons in Hd as [D1 [D2 [D3 [D4 _]%Forall_cons]%Forall_cons]%Forall_cons].
  destruct (given_nth_chars first 0 Hfirst) as [G1 L1].
  destruct (given_nth_chars first 1 Hfirst) as [G2 L2].
  pose proof (name_chars last Hlast) as Hs.
  pose proof (opt_name_chars alias Halias) as Ha.
  pose proof (opt_name_chars alias2 Halias2) as Ha2.
  assert (La : Py.lower (opt_name alias) = opt_name alias).
  { unfold opt_name, low. destruct (Py.truthy alias); [apply lower_idem|done]. }
  assert (Ls : Py.lower (low (Py.strip last)) = low (Py.strip last))
    by apply lower_idem.
  pose proof (ini_chars _ Ls Hs) as Hsi.
  pose proof (ini_chars _ La Ha) as Hai.
  pose proof (ini_chars _ L1 G1) as Hg1i.
  pose proof (ini_chars _ L2 G2) as Hg2i.
  apply cn_combos_chars; try done.
  - by rewrite all_sat_app, G1, G2.
  - by rewrite all_sat_app, Hg1i, Hg2i.
  - by rewrite !all_sat_app, Hsi, Hg1i, Hg2i.
  - destruct (Py.truthy (ini_of (opt_name alias))); [|done].
    by rewrite all_sat_app, Hai, Hsi.
  - destruct (Py.truthy (ini_of (opt_name alias))); [|done].
    by rewrite !all_sat_app, Hai, Hsi, Hg1i, Hg2i.
  - by apply date_list_Forall.
Qed.

Lemma en_candidates_chars first last middle alias alias2 year dob full :
  all_sat q last = true → all_sat q first = true → all_sat q middle = true →
  all_sat q alias = true → all_sat q alias2 = true →
  all_sat p year = true → all_sat (or_separator p) dob = true →
  Forall (λ c, all_sat p c = true)
    (en_candidates first last middle alias alias2 year dob full).
Proof.
  intros Hlast Hfirst Hmiddle Halias Halias2 Hyear Hdob. unfold en_candidates.
  pose proof (date_tokens_chars year dob Hyear Hdob) as Hd.
  destruct (date_tokens year dob) as [[[yr4 yr2] dy2] md]. cbn [fst snd] in Hd.
  apply Forall_cons in Hd as [D1 [D2 [D3 [D4 _]%Forall_cons]%Forall_cons]%Forall_cons].
  pose proof (name_chars first Hfirst) as Hf.
  pose proof (name_chars last Hlast) as Hl.
  pose proof (opt_name_chars middle Hmiddle) as Hm.
  pose proof (opt_name_chars alias Halias) as Ha.
  pose proof (opt_name_chars alias2 Halias2) as Ha2.
  assert (Lo : ∀ x, Py.lower (opt_name x) = opt_name x).
  { intros x. unfold opt_name, low. destruct (Py.truthy x); [apply lower_idem|done]. }
  assert (Ln : ∀ x, Py.lower (low (Py.strip x)) = low (Py.strip x))
    by (intros x; apply lower_idem).
  pose proof (ini_chars _ (Ln first) Hf) as Hfi.
  pose proof (ini_chars _ (Ln last) Hl) as Hli.
  pose proof (ini_chars _ (Lo middle) Hm) as Hmi.
  pose proof (ini_chars _ (Lo alias) Ha) as Hai.
  apply en_combos_chars; try done.
  - by rewrite all_sat_app, Hfi, Hli.
  - destruct (Py.truthy (ini_of (opt_name middle)));
      by rewrite !all_sat_app, ?Hfi, ?Hmi, ?Hli.
  - destruct (Py.truthy (opt_name middle)); [|done]. by rewrite all_sat_app, Hm, Hl.
  - by apply date_list_Forall.
Qed.

End InputChars.

(** Every character of a returned string is a dot, the padding zero, a
    character of [year] or of [dob] other than its separators, or the
    lowercase of a character of a name field: for classes [q] and [p] of
    characters with [p] holding '.', '0' and the lowercase of [q], name fields
    in [q] and date fields in [p] give results in [p]. *)
Theorem outputs_alphabet (q p : ascii → bool)
  (last first middle alias alias2 year dob : string) (full : bool) :
  p "."%char = true → p "0"%char = true →
  (∀ c, q c = true → p (Py.lower_char c) = true) →
  all_sat q last = true → all_sat q first = true → all_sat q middle = true →
  all_sat q alias = true → all_sat q alias2 = true →
  all_sat p year = true → all_sat (or_separator p) dob = true →
  (∃ r, generate_chinese last first alias alias2 year dob full = Ok r
        ∧ Forall (λ x, all_sat p x = true) r)
  ∧ (∃ r, generate_western first last middle alias alias2 year dob full = Ok r
          ∧ Forall (λ x, all_sat p x = true) r).
Proof.
  intros. split.
  - eexists. split; [apply generate_chinese_ok|].
    by apply trim_chars, (cn_candidates_chars q p).
  - eexists. split; [apply generate_western_ok|].
    by apply trim_chars, (en_candidates_chars q p).
Qed.

Lemma lower_fixed_or_separator x :
  Py.lower x = x → all_sat (or_separator lower_fixed) x = true.
Proof.
  intros E. apply all_sat_lower_fixed in E.
  eapply all_sat_impl; [|exact E]. intros c Hc. unfold or_separator. by rewrite Hc.
Qed.

(** When [year] and [dob] hold no uppercase letter, every returned string is
    lowercase. *)
Theorem outputs_lowercase
  (last first middle alias alias2 year dob : string) (full : bool) :
  Py.lower year = year → Py.lower dob = dob →
  (∃ r, generate_chinese last first alias alias2 year dob full = Ok r
        ∧ Forall (λ x, Py.lower x = x) r)
  ∧ (∃ r, generate_western first last middle alias alias2 year dob full = Ok r
          ∧ Forall (λ x, Py.lower x = x) r).
Proof.
  intros Hy Hd.
  assert (Hq : ∀ c, (λ _ : ascii, true) c = true → lower_fixed (Py.lower_char c) = true).
  { intros c _. unfold lower_fixed. rewrite lower_char_idem. apply Ascii.eqb_refl. }
  assert (Hall : ∀ x, all_sat (λ _, true) x = true).
  { intros x. induction x; [done|]. done. }
  apply all_sat_lower_fixed in Hy. apply lower_fixed_or_separator in Hd.
  split.
  - eexists. split; [apply generate_chinese_ok|].
    eapply Forall_impl;
      [apply trim_chars, (cn_candidates_chars (λ _, true) lower_fixed); auto|].
    intros x. apply all_sat_lower_fixed.
  - eexists. split; [apply generate_western_ok|].
    eapply Forall_impl;
      [apply trim_chars, (en_candidates_chars (λ _, true) lower_fixed); auto|].
    intros x. apply all_sat_lower_fixed.
Qed.

Lemma not_dash_underscore_lower c :
  not_dash_underscore c = true → not_dash_underscore (Py.lower_char c) = true.
Proof. destruct c as [[] [] [] [] [] [] [] []]; vm_compute; congruence. Qed.

Lemma not_underscore_separator x :
  all_sat not_underscore x = true →
  all_sat (or_separator not_dash_underscore) x = true.
Proof.
  apply all_sat_impl. intros c. unfold not_underscore, or_separator, not_dash_underscore.
  destruct (Ascii.eqb c "_"), (Ascii.eqb c "-"); done.
Qed.

(** The dot is the only separator: when no name field and no [year] holds
    '_' or '-', and [dob] holds no '_', no returned string holds '_' or '-';
    the '-' that separate the parts of [dob] never reach a candidate. *)
Theorem only_dot_separator
  (last first middle alias alias2 year dob : string) (full : bool) :
  Forall (λ x, all_sat not_dash_underscore x = true)
    [last; first; middle; alias; alias2; year] →
  all_sat not_underscore dob = true →
  (∃ r, generate_chinese last first alias alias2 year dob full = Ok r
        ∧ Forall (λ x, all_sat not_dash_underscore x = true) r)
  ∧ (∃ r, generate_western first last middle alias alias2 year dob full = Ok r
          ∧ Forall (λ x, all_sat not_dash_underscore x = true) r).
Proof.
  rewrite !Forall_cons. intros (Hl & Hf & Hm & Ha & Ha2 & Hy & _) Hd.
  apply not_underscore_separator in Hd. split.
  - eexists. split; [apply generate_chinese_ok|]. apply trim_chars.
    by apply (cn_candidates_chars not_dash_underscore not_dash_underscore
                eq_refl eq_refl not_dash_underscore_lower).
  - eexists. split; [apply generate_western_ok|]. apply trim_chars.
    by apply (en_candidates_chars not_dash_underscore not_dash_underscore
                eq_refl eq_refl not_dash_underscore_lower).
Qed.

Lemma only_dot_separator_witness :
  ∃ r, generate_chinese "Chan" "Tai Man" "Tommy" "" "" "2001-10-15" true = Ok r
       ∧ Forall (λ x, all_sat not_dash_underscore x = true) r.
Proof.
  destruct (only_dot_separator "Chan" "Tai Man" "" "Tommy" "" "" "2001-10-15" true)
    as [H _]; [repeat constructor|reflexivity|exact H].
Defined.

Lemma outputs_alphabet_witness :
  ∃ r, generate_western "Charlie" "Brown" "Monroe" "" "" "" "1990/03/22" true = Ok r
       ∧ Forall (λ x, all_sat not_dash_underscore x = true) r.
Proof.
  destruct (outputs_alphabet not_dash_underscore not_dash_underscore
              "Brown" "Charlie" "Monroe" "" "" "" "1990/03/22" true)
    as [_ H]; try reflexivity; [apply not_dash_underscore_lower|exact H].
Defined.

Lemma outputs_lowercase_witness :
  ∃ r, generate_chinese "CHAN" "Tai Man" "Tommy" "" "" "2001/10/15" true = Ok r
       ∧ Forall (λ x, Py.lower x = x) r.
Proof.
  destruct (outputs_lowercase "CHAN" "Tai Man" "" "Tommy" "" "" "2001/10/15" true)
    as [H _]; [reflexivity|reflexivity|exact H].
Defined.

(** An uppercase letter in [year] is kept: the names are lowercased, the
    date fields are not. *)
Lemma uppercase_year_kept :
  ∃ r, generate_chinese "Chan" "Tai Man" "Tommy" "" "MMI" "" false = Ok r
       ∧ "tommyMMI" ∈ r.
Proof. eexists. split; [vm_compute; reflexivity|concrete_list]. Qed.

(** ** Candidates that are generated twice *)

(** A block of candidates that all occur earlier in the list adds nothing. *)
Lemma trim_redundant (A B C : list string) (maxlen : nat) :
  (∀ x, x ∈ B → x ∈ A) →
  trim (A ++ B ++ C) maxlen = trim (A ++ C) maxlen.
Proof.
  intros HB. rewrite (trim_app maxlen A (B ++ C)), (trim_app maxlen A C).
  f_equal. rewrite <-(trim_refines maxlen (B ++ C)), (trim_app maxlen B C).
  rewrite filter_app.
  assert (Hnil : filter (λ y, y ∉ trim A maxlen) (trim B maxlen) = []).
  { apply elem_of_nil_inv. intros x [Hx1 Hx2]%list_elem_of_filter. apply Hx1.
    apply elem_of_trim in Hx2 as [Hx2 Hw]. apply elem_of_trim. split; [|done].
    apply list_elem_of_fmap in Hx2 as (y & -> & Hy).
    apply list_elem_of_fmap. exists y. auto. }
  rewrite Hnil. cbn [app]. apply list_filter_filter_l.
  intros x Hx1 Hx2. apply Hx1.
  apply elem_of_trim in Hx2 as [Hx2 Hw]. apply elem_of_trim. split; [|done].
  apply list_elem_of_fmap in Hx2 as (y & -> & Hy).
  apply list_elem_of_fmap. exists y. auto.
Qed.

Lemma elem_of_flat_map {A B} (f : A → list B) (l : list A) (y : B) :
  y ∈ flat_map f l ↔ ∃ x, x ∈ l ∧ y ∈ f x.
Proof.
  rewrite list_elem_of_In, in_flat_map. split.
  - intros (x & ? & ?). exists x. by rewrite !list_elem_of_In.
  - intros (x & ? & ?). exists x. by rewrite <-!list_elem_of_In.
Qed.

Section WesternTwice.

Variables (f l m a a2 fi li mi ai init_fl init_fml ml yr2 dy2 md : string).
Variable dates : list string.

Lemma en_full_alias2_earlier x :
  x ∈ en_full_alias2 f l a a2 init_fml dates →
  x ∈ en_default f l m a a2 fi li mi ai init_fl init_fml ml yr2 dy2 md dates
      ++ en_full_cores f l a a2 init_fl init_fml ml dates.
Proof.
  unfold en_full_alias2. destruct (Py.truthy a2) eqn:E; [|by intros ?%elem_of_nil].
  rewrite !elem_of_app. intros [Hx|Hx].
  - left. unfold en_default. rewrite !elem_of_app. do 10 right.
    unfold en_alias2. by rewrite E.
  - right. unfold en_full_cores. cbn zeta.
    apply elem_of_flat_map in Hx as (d & Hd & Hx).
    apply elem_of_flat_map. exists a2. split.
    + rewrite list_elem_of_In, filter_In, <-list_elem_of_In. split; [|done].
      rewrite !elem_of_cons. tauto.
    + apply elem_of_flat_map. by exists d.
Qed.

(** In full mode the second alias2 block of [generate_western] adds no
    candidate: the list without it gives the same result. *)
Theorem full_alias2_block_adds_nothing maxlen :
  trim (en_combos f l m a a2 fi li mi ai init_fl init_fml ml yr2 dy2 md dates true)
    maxlen
  = trim (en_default f l m a a2 fi li mi ai init_fl init_fml ml yr2 dy2 md dates
          ++ en_full_cores f l a a2 init_fl init_fml ml dates
          ++ en_full_middle f l m fi li mi
          ++ en_full_alias f l m a ai init_fl init_fml md dates) maxlen.
Proof.
  unfold en_combos, en_full.
  rewrite !(app_assoc (en_default _ _ _ _ _ _ _ _ _ _ _ _ _ _ _ _)).
  apply trim_redundant, en_full_alias2_earlier.
Qed.

End WesternTwice.

(** ** How many candidates *)

Lemma length_flat_map_const {A B} (f : A → list B) (l : list A) (k : nat) :
  (∀ x, length (f x) = k) → length (flat_map f l) = k * length l.
Proof.
  intros Hf. induction l as [|x l IH]; cbn; [lia|].
  rewrite length_app, Hf, IH. lia.
Qed.

Lemma length_trim_step maxlen st x :
  length (trim_step maxlen st x).2 ≤ S (length st.2).
Proof.
  destruct st as [seen result]. unfold trim_step.
  destruct (_ && _ && _ && _); cbn; [rewrite length_app; cbn; lia|lia].
Qed.

Lemma length_trim_fold maxlen lst : ∀ st,
  length (fold_left (trim_step maxlen) lst st).2 ≤ length st.2 + length lst.
Proof.
  induction lst as [|x lst IH]; intros st; cbn [fold_left length]; [lia|].
  specialize (IH (trim_step maxlen st x)).
  pose proof (length_trim_step maxlen st x). lia.
Qed.

(** [trim] returns at most as many strings as it is given. *)
Lemma length_trim lst maxlen : length (trim lst maxlen) ≤ length lst.
Proof. unfold trim. apply (length_trim_fold maxlen lst (∅, [])). Qed.

Lemma length_date_list yr4 yr2 dy2 md : length (date_list yr4 yr2 dy2 md) ≤ 4.
Proof.
  unfold date_list. cbn.
  destruct (Py.truthy yr4), (Py.truthy yr2), (Py.truthy md), (Py.truthy dy2);
    cbn; lia.
Qed.

Ltac count :=
  cbn zeta; cbn [flat_map app];
  case_guards;
  repeat first
    [ rewrite length_app
    | progress cbn [length]
    | match goal with
      | |- context [length (flat_map ?f ?l)] =>
          rewrite (length_flat_map_const f l (length (f "")))
            by (intros; reflexivity)
      end ];
  cbn [length]; lia.

Section ChineseCount.

Variables (s a a2 g g2 si gi ai init_sg init_as init_asg yr2 dy2 : string).
Variable dates : list string.
Hypothesis Hdates : length dates ≤ 4.

Lemma cn_default_count :
  length (cn_default s a a2 g g2 si gi ai init_sg init_as init_asg yr2 dy2 dates)
  ≤ 132.
Proof.
  unfold cn_default, cn_tier1, cn_tier2, cn_tier3, cn_tier4, cn_tier5, cn_tier6,
    cn_tier7, cn_tier8, cn_tier9, cn_tier10, cn_alias2.
  count.
Qed.

Lemma cn_full_count :
  length (cn_full s a a2 g g2 si gi ai init_sg dates) ≤ 84.
Proof.
  unfold cn_full, cn_full_alias, cn_full_given, cn_full_surname, cn_full_g2,
    cn_full_alias2.
  count.
Qed.

End ChineseCount.

Section WesternCount.

Variables (f l m a a2 fi li mi ai init_fl init_fml ml yr2 dy2 md : string).
Variable dates : list string.
Hypothesis Hdates : length dates ≤ 4.

Lemma en_default_count :
  length (en_default f l m a a2 fi li mi ai init_fl init_fml ml yr2 dy2 md dates)
  ≤ 141.
Proof.
  unfold en_default, en_plain, en_short, en_alias, en_alias_date, en_initials,
    en_alias_initials, en_alias_last_date, en_date_name, en_dots,
    en_first_alias, en_alias2.
  count.
Qed.

Lemma en_full_cores_count :
  length (en_full_cores f l a a2 init_fl init_fml ml dates) ≤ 56.
Proof.
  unfold en_full_cores. cbn zeta.
  rewrite (length_flat_map_const _ _ (2 * length dates)).
  - assert (length (List.filter Py.truthy [f; l; a; a2; init_fml; init_fl; ml]) ≤ 7)
      by apply filter_length_le.
    nia.
  - intros name. by rewrite (length_flat_map_const _ _ 2).
Qed.

Lemma en_full_count :
  length (en_full f l m a a2 fi li mi ai init_fl init_fml ml md dates) ≤ 90.
Proof.
  unfold en_full. rewrite length_app. pose proof en_full_cores_count.
  assert (length (en_full_alias2 f l a a2 init_fml dates
                  ++ en_full_middle f l m fi li mi
                  ++ en_full_alias f l m a ai init_fl init_fml md dates) ≤ 34);
    [|lia].
  unfold en_full_alias2, en_full_middle, en_full_alias. count.
Qed.

End WesternCount.

(** The generators return at most 132 (Chinese) and 141 (Western) strings in
    default mode, and at most 216 and 231 in full mode. *)
Theorem candidate_count_bounds
  (last first middle alias alias2 year dob : string) (full : bool) :
  (∃ r, generate_chinese last first alias alias2 year dob full = Ok r
        ∧ length r ≤ (if full then 216 else 132))
  ∧ (∃ r, generate_western first last middle alias alias2 year dob full = Ok r
          ∧ length r ≤ (if full then 231 else 141)).
Proof.
  split.
  - eexists. split; [apply generate_chinese_ok|].
    etrans; [apply length_trim|]. unfold cn_candidates.
    destruct (date_tokens year dob) as [[[yr4 yr2] dy2] md].
    pose proof (length_date_list yr4 yr2 dy2 md) as Hd.
    unfold cn_combos. rewrite length_app.
    match goal with
    | |- length (cn_default ?s ?a ?a2 ?g ?g2 ?si ?gi ?ai ?isg ?ias ?iasg _ _ _) + _ ≤ _ =>
        pose proof (cn_default_count s a a2 g g2 si gi ai isg ias iasg yr2 dy2 _ Hd);
        pose proof (cn_full_count s a a2 g g2 si gi ai isg _ Hd)
    end.
    destruct full; cbn [length]; lia.
  - eexists. split; [apply generate_western_ok|].
    etrans; [apply length_trim|]. unfold en_candidates.
    destruct (date_tokens year dob) as [[[yr4 yr2] dy2] md].
    pose proof (length_date_list yr4 yr2 dy2 md) as Hd.
    unfold en_combos. rewrite length_app.
    match goal with
    | |- length (en_default ?f ?l ?m ?a ?a2 ?fi ?li ?mi ?ai ?ifl ?ifml ?ml _ _ _ _) + _ ≤ _ =>
        pose proof (en_default_count f l m a a2 fi li mi ai ifl ifml ml yr2 dy2 md _ Hd);
        pose proof (en_full_count f l m a a2 fi li mi ai ifl ifml ml md _ Hd)
    end.
    destruct full; cbn [length]; lia.
Qed.

(** ** The date token of a candidate: no month alone *)

Lemma parts_digits t : all_digits t → name_part t = "" ∧ date_part t = t.
Proof.
  unfold all_digits. destruct t as [|c t]; [done|]. intros H.
  cbn [name_part date_part]. by rewrite H.
Qed.

Lemma parts_app x t :
  no_digit x → all_digits t → name_part (x +:+ t) = x ∧ date_part (x +:+ t) = t.
Proof.
  unfold no_digit. intros Hx Ht. induction x as [|c x IH].
  - rewrite str_app_nil_l. by apply parts_digits.
  - cbn in Hx. apply andb_true_iff in Hx as [Hc Hx].
    destruct (IH Hx) as [IH1 IH2]. rewrite str_app_cons.
    cbn [name_part date_part all_sat].
    unfold not_digit in Hc. apply negb_true_iff in Hc. rewrite Hc. cbn [andb].
    by rewrite IH1, IH2.
Qed.

Lemma date_part_digits c : all_digits (date_part c).
Proof.
  induction c as [|a c IH]; [done|]. cbn [date_part].
  by destruct (all_sat is_digit (String a c)) eqn:E.
Qed.

Lemma parts_join c : name_part c +:+ date_part c = c.
Proof.
  induction c as [|a c IH]; [done|]. cbn [name_part date_part].
  destruct (all_sat is_digit (String a c)); [done|].
  by rewrite str_app_cons, IH.
Qed.

Lemma lstrip_app_hd x t :
  hd_sat not_space t = true → Py.lstrip (x +:+ t) = Py.lstrip x +:+ t.
Proof.
  intros Ht. induction x as [|c x IH].
  - rewrite !str_app_nil_l. by apply lstrip_hd.
  - rewrite str_app_cons. cbn [Py.lstrip].
    destruct (Py.is_space c); [done|]. by rewrite str_app_cons.
Qed.

Lemma rstrip_app_lst x t :
  lst_sat not_space t = true → Py.rstrip (x +:+ t) = x +:+ t.
Proof.
  intros Ht. induction x as [|c x IH].
  - rewrite !str_app_nil_l. by apply rstrip_lst.
  - rewrite str_app_cons. cbn [Py.rstrip]. rewrite IH, truthy_app.
    rewrite (lst_sat_truthy _ _ Ht), orb_true_r. cbn. by rewrite andb_false_r.
Qed.

Lemma strip_app_digits x t :
  all_digits t → t ≠ "" → Py.strip (x +:+ t) = Py.lstrip x +:+ t.
Proof.
  intros Ht Hne. unfold Py.strip.
  assert (Hs : all_sat not_space t = true)
    by exact (all_sat_impl is_digit not_space t digit_not_space Ht).
  rewrite lstrip_app_hd by by apply all_sat_hd.
  apply rstrip_app_lst. by apply all_sat_lst.
Qed.

Section Dated.

Variable D : list string.
Hypothesis Hnil : "" ∈ D.
Hypothesis HD : Forall all_digits D.

Lemma dated_split x t : no_digit x → t ∈ D → dated D (x +:+ t).
Proof.
  intros Hx Ht. assert (Hd : all_digits t) by by rewrite Forall_forall in HD; apply HD.
  destruct (parts_app x t Hx Hd) as [E1 E2]. unfold dated. by rewrite E1, E2.
Qed.

Lemma dated_name x : no_digit x → dated D x.
Proof. intros Hx. rewrite <-(str_app_nil_r x). by apply dated_split. Qed.

Lemma dated_strip c : dated D c → dated D (Py.strip c).
Proof.
  intros [Hn Hd]. rewrite <-(parts_join c).
  destruct (decide (date_part c = "")) as [E|Hne].
  - rewrite E, str_app_nil_r. apply dated_name. by apply all_sat_strip.
  - rewrite strip_app_digits; [|apply date_part_digits|done].
    apply dated_split; [by apply all_sat_lstrip|done].
Qed.

Lemma trim_dated lst maxlen : Forall (dated D) lst → Forall (dated D) (trim lst maxlen).
Proof.
  intros Hl. apply Forall_forall. intros x [Hx _]%elem_of_trim.
  apply list_elem_of_fmap in Hx as (c & -> & Hc).
  rewrite Forall_forall in Hl. by apply dated_strip, Hl.
Qed.

Ltac solve_name :=
  lazymatch goal with
  | |- no_digit (?t +:+ ?r) => apply no_digit_app; [solve_name|solve_name]
  | |- no_digit ?t => first [assumption|reflexivity]
  end.

Ltac solve_dated :=
  cbn beta;
  first
    [ apply dated_name; solve_name
    | apply dated_split; [solve_name|assumption]
    | rewrite <-!str_app_assoc; apply dated_split; [solve_name|assumption] ].

Ltac use_dates dates Hdates :=
  repeat match goal with
    | H : ?d ∈ dates |- _ =>
        pose proof (proj1 (Forall_forall _ _) Hdates _ H); clear H
    end.

Section Chinese.

Variables (s a a2 g g2 si gi ai init_sg init_as init_asg yr2 dy2 : string).
Variable dates : list string.

Hypothesis Hs : no_digit s.
Hypothesis Ha : no_digit a.
Hypothesis Ha2 : no_digit a2.
Hypothesis Hg : no_digit g.
Hypothesis Hg2 : no_digit g2.
Hypothesis Hsi : no_digit si.
Hypothesis Hgi : no_digit gi.
Hypothesis Hai : no_digit ai.
Hypothesis Hinit_sg : no_digit init_sg.
Hypothesis Hinit_as : no_digit init_as.
Hypothesis Hinit_asg : no_digit init_asg.
Hypothesis Hyr2 : yr2 ∈ D.
Hypothesis Hdy2 : dy2 ∈ D.
Hypothesis Hpair : dy2 +:+ yr2 ∈ D.
Hypothesis Hdates : Forall (λ d, d ∈ D) dates.

Ltac datedness := case_guards; each_candidate; use_dates dates Hdates; solve_dated.

Lemma cn_combos_dated full :
  Forall (dated D)
    (cn_combos s a a2 g g2 si gi ai init_sg init_as init_asg yr2 dy2 dates full).
Proof.
  unfold cn_combos. apply Forall_app_2.
  - unfold cn_default.
    apply Forall_app_2; [unfold cn_tier1; datedness|].
    apply Forall_app_2; [unfold cn_tier2; datedness|].
    apply Forall_app_2; [unfold cn_tier3; datedness|].
    apply Forall_app_2; [unfold cn_tier4; datedness|].
    apply Forall_app_2; [unfold cn_tier5; datedness|].
    apply Forall_app_2; [unfold cn_tier6; datedness|].
    apply Forall_app_2; [unfold cn_tier7; datedness|].
    apply Forall_app_2; [unfold cn_tier8; datedness|].
    apply Forall_app_2; [unfold cn_tier9; datedness|].
    apply Forall_app_2; [unfold cn_tier10; datedness|].
    unfold cn_alias2; datedness.
  - destruct full; [|constructor]. unfold cn_full.
    apply Forall_app_2; [unfold cn_full_alias; datedness|].
    apply Forall_app_2; [unfold cn_full_given; datedness|].
    apply Forall_app_2; [unfold cn_full_surname; datedness|].
    apply Forall_app_2; [unfold cn_full_g2; datedness|].
    unfold cn_full_alias2; datedness.
Qed.

End Chinese.

Section Western.

Variables (f l m a a2 fi li mi ai init_fl init_fml ml yr2 dy2 md : string).
Variable dates : list string.

Hypothesis Hf : no_digit f.
Hypothesis Hl : no_digit l.
Hypothesis Hm : no_digit m.
Hypothesis Ha : no_digit a.
Hypothesis Ha2 : no_digit a2.
Hypothesis Hfi : no_digit fi.
Hypothesis Hli : no_digit li.
Hypothesis Hmi : no_digit mi.
Hypothesis Hai : no_digit ai.
Hypothesis Hinit_fl : no_digit init_fl.
Hypothesis Hinit_fml : no_digit init_fml.
Hypothesis Hml : no_digit ml.
Hypothesis Hyr2 : yr2 ∈ D.
Hypothesis Hdy2 : dy2 ∈ D.
Hypothesis Hmd : md ∈ D.
Hypothesis Hpair : dy2 +:+ yr2 ∈ D.
Hypothesis Hdates : Forall (λ d, d ∈ D) dates.

Ltac datedness :=
  cbn zeta; cbn [flat_map app]; rewrite ?str_app_nil_l;
  case_guards; each_candidate; use_dates dates Hdates; solve_dated.

Lemma en_cores_no_digit name :
  name ∈ List.filter Py.truthy [f; l; a; a2; init_fml; init_fl; ml] →
  no_digit name.
Proof.
  rewrite list_elem_of_In, filter_In, <-list_elem_of_In.
  rewrite !elem_of_cons, elem_of_nil.
  intros [[->|[->|[->|[->|[->|[->|[->|[]]]]]]]] _]; done.
Qed.

Lemma en_combos_dated full :
  Forall (dated D)
    (en_combos f l m a a2 fi li mi ai init_fl init_fml ml yr2 dy2 md dates full).
Proof.
  unfold en_combos. apply Forall_app_2.
  - unfold en_default.
    apply Forall_app_2; [unfold en_plain; datedness|].
    apply Forall_app_2; [unfold en_short; datedness|].
    apply Forall_app_2; [unfold en_alias; datedness|].
    apply Forall_app_2; [unfold en_alias_date; datedness|].
    apply Forall_app_2; [unfold en_initials; datedness|].
    apply Forall_app_2; [unfold en_alias_initials; datedness|].
    apply Forall_app_2; [unfold en_alias_last_date; datedness|].
    apply Forall_app_2; [unfold en_date_name; datedness|].
    apply Forall_app_2; [unfold en_dots; datedness|].
    apply Forall_app_2; [unfold en_first_alias; datedness|].
    unfold en_alias2; datedness.
  - destruct full; [|constructor]. unfold en_full.
    apply Forall_app_2.
    { unfold en_full_cores. cbn zeta. apply Forall_flat_map. intros name Hn.
      apply en_cores_no_digit in Hn.
      each_candidate; use_dates dates Hdates; solve_dated. }
    apply Forall_app_2; [unfold en_full_alias2; datedness|].
    apply Forall_app_2; [unfold en_full_middle; datedness|].
    unfold en_full_alias; datedness.
Qed.

End Western.

End Dated.

Lemma date_suffixes_digits yr4 yr2 dy2 md :
  all_digits yr4 → all_digits yr2 → all_digits dy2 → all_digits md →
  Forall all_digits (date_suffixes yr4 yr2 dy2 md).
Proof.
  intros. unfold date_suffixes. repeat constructor; try done.
  by apply all_digits_app.
Qed.

Lemma date_list_suffixes yr4 yr2 dy2 md :
  Forall (λ d, d ∈ date_suffixes yr4 yr2 dy2 md) (date_list yr4 yr2 dy2 md).
Proof.
  apply date_list_Forall; unfold date_suffixes; rewrite !elem_of_cons; tauto.
Qed.

Lemma date_list_digits yr4 yr2 dy2 md :
  Forall all_digits (date_list yr4 yr2 dy2 md) →
  all_digits yr4 ∧ all_digits yr2 ∧ all_digits dy2 ∧ all_digits md.
Proof.
  intros Hdig.
  assert (Hopt : ∀ x, x ∈ [yr4; yr2; md; dy2] → all_digits x).
  { intros x Hx. destruct (decide (x = "")) as [->|Hx_ne]; [done|].
    rewrite Forall_forall in Hdig. apply Hdig, elem_of_date_list. done. }
  repeat split; apply Hopt; rewrite !elem_of_cons; tauto.
Qed.

Lemma cn_candidates_dated last first alias alias2 year dob full yr4 yr2 dy2 md :
  date_tokens year dob = (yr4, yr2, dy2, md) →
  no_digit last → no_digit first → no_digit alias → no_digit alias2 →
  Forall all_digits (dates_of year dob) →
  Forall (dated (date_suffixes yr4 yr2 dy2 md))
    (cn_candidates last first alias alias2 year dob full).
Proof.
  intros E Hlast Hfirst Halias Halias2 Hdig.
  unfold cn_candidates, dates_of in *. rewrite E in *.
  destruct (date_list_digits _ _ _ _ Hdig) as (D4 & D2 & Dd & Dm).
  destruct (given_parts_tokens first Hfirst) as [[Hg1 _] [Hg2 _]].
  pose proof (no_digit_name last Hlast) as Hs.
  pose proof (no_digit_opt_name alias Halias) as Ha.
  pose proof (no_digit_opt_name alias2 Halias2) as Ha2.
  pose proof (no_digit_ini _ Hs) as Hsi.
  pose proof (no_digit_ini _ Ha) as Hai.
  pose proof (no_digit_ini _ Hg1) as Hg1i.
  pose proof (no_digit_ini _ Hg2) as Hg2i.
  apply cn_combos_dated;
    try done;
    try (unfold date_suffixes; rewrite !elem_of_cons; tauto);
    try (by apply date_suffixes_digits);
    try (by apply date_list_suffixes);
    repeat (apply no_digit_app; try done).
  - destruct (Py.truthy (ini_of (opt_name alias))); [|done].
    by apply no_digit_app.
  - destruct (Py.truthy (ini_of (opt_name alias))); [|done].
    repeat (apply no_digit_app; try done).
Qed.

Lemma en_candidates_dated first last middle alias alias2 year dob full
  yr4 yr2 dy2 md :
  date_tokens year dob = (yr4, yr2, dy2, md) →
  no_digit last → no_digit first → no_digit middle → no_digit alias →
  no_digit alias2 →
  Forall all_digits (dates_of year dob) →
  Forall (dated (date_suffixes yr4 yr2 dy2 md))
    (en_candidates first last middle alias alias2 year dob full).
Proof.
  intros E Hlast Hfirst Hmiddle Halias Halias2 Hdig.
  unfold en_candidates, dates_of in *. rewrite E in *.
  destruct (date_list_digits _ _ _ _ Hdig) as (D4 & D2 & Dd & Dm).
  pose proof (no_digit_name first Hfirst) as Hf.
  pose proof (no_digit_name last Hlast) as Hl.
  pose proof (no_digit_opt_name middle Hmiddle) as Hm.
  pose proof (no_digit_opt_name alias Halias) as Ha.
  pose proof (no_digit_opt_name alias2 Halias2) as Ha2.
  pose proof (no_digit_ini _ Hf) as Hfi.
  pose proof (no_digit_ini _ Hl) as Hli.
  pose proof (no_digit_ini _ Hm) as Hmi.
  pose proof (no_digit_ini _ Ha) as Hai.
  apply en_combos_dated;
    try done;
    try (unfold date_suffixes; rewrite !elem_of_cons; tauto);
    try (by apply date_suffixes_digits);
    try (by apply date_list_suffixes);
    try (by apply no_digit_app).
  - destruct (Py.truthy (ini_of (opt_name middle)));
      repeat (apply no_digit_app; try done).
  - destruct (Py.truthy (opt_name middle)); [|done]. by apply no_digit_app.
Qed.

Lemma len_zfill_short x : Py.len x ≤ 2 → Py.len (Py.zfill 2 x) = 2.
Proof.
  intros H. unfold Py.zfill.
  destruct (2 <=? Py.len x) eqn:E.
  - apply Nat.leb_le in E. lia.
  - apply Nat.leb_gt in E. destruct x as [|c x].
    + apply len_zeros.
    + destruct (Ascii.eqb c "+" || Ascii.eqb c "-").
      * rewrite len_cons, len_app, len_zeros. rewrite len_cons in *. lia.
      * rewrite len_app, len_zeros. lia.
Qed.

(** A date token among the possible ones is the padded month only if the
    year token, the 2-character year or the day is. *)
Lemma month_not_suffix year dob y mo dy yr4 yr2 dy2 md t :
  dob_parts dob = [y; mo; dy] →
  date_tokens year dob = (yr4, yr2, dy2, md) →
  Py.len mo ≤ 2 →
  Py.zfill 2 mo ∉ [yr4; yr2; dy2] →
  t ∈ date_suffixes yr4 yr2 dy2 md →
  t ≠ Py.zfill 2 mo.
Proof.
  intros Hp E Hlen Hmo Ht ->.
  rewrite (date_tokens_3 _ _ _ _ _ Hp) in E. cbn zeta in E.
  injection E as E4 E2 Ed Em.
  pose proof (len_zfill_short mo Hlen) as Hl.
  unfold date_suffixes in Ht. rewrite !elem_of_cons, elem_of_nil in Ht.
  rewrite !elem_of_cons, elem_of_nil in Hmo.
  destruct Ht as [H|[H|[H|[H|[H|[H|[]]]]]]]; try tauto.
  - rewrite H in Hl. done.
  - rewrite <-Em in H. symmetry in H. by apply zfill_app_ne in H.
  - pose proof H as H'. apply (f_equal Py.len) in H.
    rewrite len_app, Hl, <-Ed, len_last_n in H.
    pose proof (len_zfill 2 dy).
    assert (Hy : Py.len yr2 = 0) by lia.
    apply len_zero in Hy. rewrite Hy, str_app_nil_r in H'. tauto.
Qed.

(** C6, as the code has it.  The tuple of [parse_dates] has no component
    computed from the month alone: [md] is the padded month followed by the
    padded day, never the padded month itself, and [yr4], [yr2] and [dy2] do
    not change with the month part.  When the name fields hold no digit and
    the date tokens are made of digits, every string returned by either
    generator, in default and in full mode, is a name part without digits
    followed by a date token that is empty or one of [yr4], [yr2], [md],
    [dy2] and [dy2] followed by [yr2].  So, for a month part of at most 2
    characters whose padded form differs from [yr4], [yr2] and [dy2], no
    returned string has the padded month as its date token. *)
Theorem no_month_only_component
  (last first middle alias alias2 year dob : string) (full : bool) :
  ∃ yr4 yr2 dy2 md,
    parse_dates year dob = Ok (yr4, yr2, dy2, md)
    ∧ (∀ y mo dy, dob_parts dob = [y; mo; dy] →
         md = Py.zfill 2 mo +:+ Py.zfill 2 dy
         ∧ md ≠ Py.zfill 2 mo
         ∧ (∀ mo' dob', dob_parts dob' = [y; mo'; dy] →
              ∃ md', parse_dates year dob' = Ok (yr4, yr2, dy2, md')))
    ∧ (no_digit last → no_digit first → no_digit middle → no_digit alias →
       no_digit alias2 →
       Forall all_digits (dates_of year dob) →
       ∃ rc rw,
         generate_chinese last first alias alias2 year dob full = Ok rc
         ∧ generate_western first last middle alias alias2 year dob full = Ok rw
         ∧ Forall (dated (date_suffixes yr4 yr2 dy2 md)) (rc ++ rw)
         ∧ (∀ y mo dy, dob_parts dob = [y; mo; dy] →
              Py.len mo ≤ 2 →
              Py.zfill 2 mo ∉ [yr4; yr2; dy2] →
              Forall (λ c, date_part c ≠ Py.zfill 2 mo) (rc ++ rw))).
Proof.
  rewrite generate_chinese_ok, generate_western_ok, parse_dates_ok.
  destruct (date_tokens year dob) as [[[yr4 yr2] dy2] md] eqn:E.
  exists yr4, yr2, dy2, md. split; [done|]. split.
  - intros y mo dy Hp. pose proof E as E'.
    rewrite (date_tokens_3 _ _ _ _ _ Hp) in E'. cbn zeta in E'.
    injection E' as <- <- <- <-.
    split; [done|]. split; [apply zfill_app_ne|].
    intros mo' dob' Hp'. rewrite parse_dates_ok, (date_tokens_3 _ _ _ _ _ Hp').
    cbn zeta. eauto.
  - intros Hlast Hfirst Hmiddle Halias Halias2 Hdig.
    assert (Hall : Forall (dated (date_suffixes yr4 yr2 dy2 md))
              (trim (cn_candidates last first alias alias2 year dob full) MAX_LEN_CN
               ++ trim (en_candidates first last middle alias alias2 year dob full)
                    MAX_LEN_EN)).
    { pose proof Hdig as Hdig'. unfold dates_of in Hdig'. rewrite E in Hdig'.
      destruct (date_list_digits _ _ _ _ Hdig') as (D4 & D2 & Dd & Dm).
      apply Forall_app_2; apply trim_dated;
        try (unfold date_suffixes; rewrite !elem_of_cons; tauto);
        try (by apply date_suffixes_digits).
      - by apply cn_candidates_dated.
      - by apply en_candidates_dated. }
    do 2 eexists. split; [reflexivity|]. split; [reflexivity|].
    split; [exact Hall|].
    intros y mo dy Hp Hlen Hmo. eapply Forall_impl; [exact Hall|].
    intros c [_ Hc]. by apply (month_not_suffix year dob y mo dy yr4 yr2 dy2 md).
Qed.

Lemma no_month_only_component_witness :
  ∃ rc rw,
    generate_chinese "Chan" "Tai Man" "Tommy" "" "" "2001/10/15" true = Ok rc
    ∧ generate_western "Tai Man" "Chan" "" "Tommy" "" "" "2001/10/15" true = Ok rw
    ∧ Forall (λ c, date_part c ≠ "10") (rc ++ rw).
Proof.
  destruct (no_month_only_component "Chan" "Tai Man" "" "Tommy" "" "" "2001/10/15" true)
    as (yr4 & yr2 & dy2 & md & Hp & _ & Hc).
  vm_compute in Hp. injection Hp as <- <- <- <-.
  destruct Hc as (rc & rw & Hrc & Hrw & _ & Hmo); try reflexivity.
  { vm_compute. repeat constructor. }
  exists rc, rw. split; [exact Hrc|]. split; [exact Hrw|].
  apply (Hmo "2001" "10" "15"); [reflexivity|vm_compute; lia|concrete_list].
Defined.

(** ** The console layer *)

Lemma print_ok s w :
  encodable (stdout_encodes (env w)) s = true →
  print s w = Returned tt (World (stdin w) (stdout w ++ [s +:+ nl]) (files w) (env w)).
Proof. unfold print. by intros ->. Qed.

Lemma print_retry w :
  print "    Please enter 1 or 2." w
  = Returned tt
      (World (stdin w) (stdout w ++ ["    Please enter 1 or 2." +:+ nl])
         (files w) (env w)).
Proof. by apply print_ok. Qed.

Lemma ask_loop_stdin lines i i' o f e :
  ask_loop lines (World i o f e) = ask_loop lines (World i' o f e).
Proof. by destruct lines. Qed.

Lemma ask_loop_bad bad : ∀ lines w,
  Forall not_answer bad →
  ask_loop (bad ++ lines) w
  = ask_loop lines
      (World (stdin w) (stdout w ++ flat_map (λ _, ask_retry) bad) (files w)
         (env w)).
Proof.
  induction bad as [|b bad IH]; intros lines w Hbad.
  - cbn. rewrite app_nil_r. by destruct w.
  - apply Forall_cons in Hbad as [[H1 H2] Hbad]. cbn [app ask_loop].
    apply String.eqb_neq in H1, H2. rewrite H1, H2, print_retry.
    cbn [stdin stdout files env].
    rewrite (ask_loop_stdin _ _ (stdin w)), (IH _ _ Hbad).
    cbn [flat_map stdin stdout files env]. unfold ask_retry at 3.
    by rewrite <-!app_assoc.
Qed.


Lemma ask_style_unfold w :
  ask_style w
  = ask_loop (stdin w)
      (World (stdin w) (stdout w ++ ask_banner) (files w) (env w)).
Proof.
  unfold ask_style, ask_banner, mbind, io_bind.
  rewrite print_ok by reflexivity.
  rewrite print_ok by reflexivity.
  rewrite print_ok by reflexivity.
  cbn [stdin stdout files env]. by rewrite <-!app_assoc.
Qed.



Lemma effects_ret {A} e (a : A) : effects e (mret a) a [] [].
Proof. intros w <-. by rewrite !app_nil_r; destruct w. Qed.

Lemma effects_print e s :
  encodable (stdout_encodes e) s = true → effects e (print s) tt [s +:+ nl] [].
Proof. intros Hs w <-. rewrite print_ok by done. by rewrite app_nil_r. Qed.

Lemma effects_write e path content :
  can_open e path = true → encodable (file_encodes e) content = true →
  effects e (write_file path content) tt [] [(path, content)].
Proof.
  intros Hp Hc w <-. unfold write_file. by rewrite Hp, Hc, app_nil_r.
Qed.

Lemma effects_lift {A} e (o : outcome A) a : o = Ok a → effects e (lift o) a [] [].
Proof. intros -> w <-. cbn. by rewrite !app_nil_r; destruct w. Qed.

Lemma effects_bind {A B} e (m : io A) (k : A → io B) a b o1 f1 o2 f2 :
  effects e m a o1 f1 → effects e (k a) b o2 f2 →
  effects e (m ≫= k) b (o1 ++ o2) (f1 ++ f2).
Proof.
  intros Hm Hk w Hw. unfold mbind, io_bind. rewrite (Hm w Hw), Hk by done.
  cbn [stdin stdout files env]. by rewrite !app_assoc.
Qed.

Lemma effects_when e (c : bool) m o f :
  (c = true → effects e m tt o f) →
  effects e (when c m) tt (if c then o else []) (if c then f else []).
Proof. intros Hm. destruct c; [by apply Hm|apply effects_ret]. Qed.

Lemma effects_print_all e l :
  Forall (λ u, encodable (stdout_encodes e) u = true) l →
  effects e (print_all l) tt ((λ u, u +:+ nl) <$> l) [].
Proof.
  induction 1 as [|u l Hu Hl IH]; [apply effects_ret|]. cbn [print_all].
  apply (effects_bind _ _ _ tt tt [u +:+ nl] [] _ []); [by apply effects_print|done].
Qed.

Lemma raises_bind_l {A B} e (m : io A) (k : A → io B) x o f :
  raises e m x o f → raises e (m ≫= k) x o f.
Proof. intros Hm w Hw. unfold mbind, io_bind. by rewrite (Hm w Hw). Qed.

Lemma raises_bind_r {A B} e (m : io A) (k : A → io B) a x o1 f1 o2 f2 :
  effects e m a o1 f1 → raises e (k a) x o2 f2 →
  raises e (m ≫= k) x (o1 ++ o2) (f1 ++ f2).
Proof.
  intros Hm Hk w Hw. unfold mbind, io_bind. rewrite (Hm w Hw), Hk by done.
  cbn [stdin stdout files env]. by rewrite !app_assoc.
Qed.

Lemma raises_print e s :
  encodable (stdout_encodes e) s = false →
  raises e (print s) UnicodeEncodeError [] [].
Proof.
  intros Hs w <-. unfold print. rewrite Hs, !app_nil_r. by destruct w.
Qed.

Lemma raises_open e path content :
  can_open e path = false → raises e (write_file path content) OSError [] [].
Proof.
  intros Hp w <-. unfold write_file. rewrite Hp, !app_nil_r. by destruct w.
Qed.

Lemma if_same {A} (c : bool) (x : A) : (if c then x else x) = x.
Proof. by destruct c. Qed.

(** *** What can be encoded *)

Lemma encodable_app enc x y :
  encodable enc (x +:+ y) = encodable enc x && encodable enc y.
Proof. apply all_sat_app. Qed.

Lemma encodable_lower enc x :
  encodable enc (Py.lower x)
  = all_sat (λ c, is_ascii (Py.lower_char c) || enc (Py.lower_char c)) x.
Proof. unfold encodable. induction x as [|c x IH]; [done|]. cbn. by rewrite IH. Qed.

Lemma encodable_pretty_go enc x : ∀ s,
  encodable enc s = true → encodable enc (pretty_N_go x s) = true.
Proof.
  induction (N.lt_wf_0 x) as [x _ IH]. intros s Hs.
  destruct (decide (0 < x)%N) as [Hx|Hx].
  - rewrite pretty_N_go_step by done. apply IH.
    + apply N.div_lt; lia.
    + unfold encodable in *. cbn [all_sat]. rewrite Hs, andb_true_r.
      unfold pretty_N_char. by repeat case_match.
  - assert (x = 0%N) as -> by lia. by rewrite pretty_N_go_0.
Qed.

Lemma encodable_pretty enc (n : nat) : encodable enc (pretty n) = true.
Proof.
  unfold pretty, pretty_nat, pretty, pretty_N.
  destruct (decide (N.of_nat n = 0%N)); [done|]. by apply encodable_pretty_go.
Qed.

Lemma encodable_repeat enc s n :
  encodable enc s = true → encodable enc (repeat_str s n) = true.
Proof.
  intros Hs. induction n as [|n IH]; [done|]. cbn [repeat_str].
  by rewrite encodable_app, Hs, IH.
Qed.


Lemma encodable_middot enc :
  enc "183"%char = true → encodable enc (String "183" "") = true.
Proof. intros H. unfold encodable. cbn. by rewrite H. Qed.

Lemma args_encodable_fields enc ar :
  args_encodable enc ar →
  encodable enc (Py.lower (a_first ar)) = true
  ∧ encodable enc (Py.lower (a_last ar)) = true
  ∧ encodable enc (Py.lower (a_middle ar)) = true
  ∧ encodable enc (Py.lower (a_alias ar)) = true
  ∧ encodable enc (Py.lower (a_alias2 ar)) = true
  ∧ encodable enc (a_year ar) = true
  ∧ encodable enc (a_dob ar) = true.
Proof.
  intros [Hn Hd]. rewrite Forall_forall in Hn, Hd.
  repeat split; (apply Hn || apply Hd); rewrite !elem_of_cons; tauto.
Qed.

Lemma main_usernames_encodable enc ar st :
  args_encodable enc ar →
  Forall (λ x, encodable enc x = true) (main_usernames ar st).
Proof.
  intros (Hf & Hl & Hm & Ha & Ha2 & Hy & Hdob)%args_encodable_fields.
  rewrite encodable_lower in Hf, Hl, Hm, Ha, Ha2.
  assert (Hsep : all_sat (or_separator (λ c, is_ascii c || enc c)) (a_dob ar) = true).
  { eapply all_sat_impl; [|exact Hdob]. intros c Hc. unfold or_separator.
    by rewrite Hc. }
  unfold main_usernames. destruct (String.eqb st "chinese").
  - apply trim_chars.
    by apply (cn_candidates_chars
                (λ c, is_ascii (Py.lower_char c) || enc (Py.lower_char c))
                (λ c, is_ascii c || enc c) eq_refl eq_refl).
  - apply trim_chars.
    by apply (en_candidates_chars
                (λ c, is_ascii (Py.lower_char c) || enc (Py.lower_char c))
                (λ c, is_ascii c || enc c) eq_refl eq_refl).
Qed.

Ltac run_io :=
  cbn beta zeta;
  lazymatch goal with
  | |- effects _ (mbind _ _) _ _ _ => eapply effects_bind; [run_io|run_io]
  | |- effects _ (mret _) _ _ _ => apply effects_ret
  | |- effects _ (print _) _ _ _ => apply effects_print
  | |- effects _ (write_file _ _) _ _ _ => apply effects_write
  | |- effects _ (when _ _) _ _ _ => eapply effects_when; intros ?; run_io
  | |- effects _ (print_all _) _ _ _ => apply effects_print_all
  | |- effects _ (lift _) _ _ _ =>
      eapply effects_lift;
      first [apply generate_chinese_ok|apply generate_western_ok]
  end.

Ltac solve_enc :=
  rewrite ?encodable_app;
  repeat (apply andb_true_intro; split);
  first
    [ assumption
    | reflexivity
    | apply encodable_pretty
    | by apply encodable_middot
    | by apply encodable_repeat
    | match goal with
      | |- encodable _ (if ?c then _ else _) = true => by destruct c
      end ].


Lemma main_generator (ar : args) (st : string) :
  (if String.eqb st "chinese"
   then generate_chinese (a_last ar) (a_first ar) (a_alias ar) (a_alias2 ar)
          (a_year ar) (a_dob ar) (a_full ar)
   else generate_western (a_first ar) (a_last ar) (a_middle ar) (a_alias ar)
          (a_alias2 ar) (a_year ar) (a_dob ar) (a_full ar))
  = Ok (main_usernames ar st).
Proof.
  unfold main_usernames.
  destruct (String.eqb st "chinese");
    [apply generate_chinese_ok|apply generate_western_ok].
Qed.



Section SplitJoin.

Variable sep : ascii.



End SplitJoin.






(** Without a style on the command line [main] asks for it first; when
    stdin holds no answer it raises [EOFError] before any generator runs and
    writes no file. *)
Theorem main_without_style_no_answer (ar : args) (w : world) :
  a_style ar = None ∨ a_style ar = Some "" →
  Forall not_answer (stdin w) →
  ∃ w', main ar w = Raised EOFError w' ∧ stdin w' = [] ∧ files w' = files w.
Proof.
  intros Hst Hbad. eexists. split; [|split].
  - unfold main. destruct Hst as [-> | ->]; cbn [Py.truthy].
    all: unfold mbind at 1, io_bind at 1; rewrite ask_style_unfold.
    all: rewrite <-(app_nil_r (stdin w)) at 1.
    all: rewrite (ask_loop_bad _ _ _ Hbad); reflexivity.
  - reflexivity.
  - reflexivity.
Qed.

Lemma main_without_style_no_answer_witness :
  ∃ w',
    main (Args None "Charlie" "Brown" "" "" "" "" "" false "out.txt" false)
      (World ["3"; "chinese"] [] [] ascii_only)
    = Raised EOFError w' ∧ stdin w' = [] ∧ files w' = [].
Proof.
  apply (main_without_style_no_answer
           (Args None "Charlie" "Brown" "" "" "" "" "" false "out.txt" false)
           (World ["3"; "chinese"] [] [] ascii_only)).
  - by left.
  - repeat constructor; vm_compute; discriminate.
Defined.




(** *** Where [main] raises *)

Lemma same_files_refl w : same_files w w.
Proof. done. Qed.

Lemma quiet_ret {A} (a : A) : quiet (mret a).
Proof. intros w. left. by exists a, w. Qed.

Lemma quiet_print s : quiet (print s).
Proof.
  intros w. unfold print. destruct (encodable _ s).
  - left. by eexists _, _.
  - right. by eexists.
Qed.

Lemma quiet_lift {A} (o : outcome A) a : o = Ok a → quiet (lift o).
Proof. intros -> w. left. by exists a, w. Qed.

Lemma quiet_bind {A B} (m : io A) (k : A → io B) :
  quiet m → (∀ a, quiet (k a)) → quiet (m ≫= k).
Proof.
  intros Hm Hk w. unfold mbind, io_bind.
  destruct (Hm w) as [(a & w1 & -> & H1 & H2 & H3)|(w1 & -> & H)].
  - destruct (Hk a w1) as [(b & w2 & -> & H4 & H5 & H6)|(w2 & -> & H4 & H5 & H6)].
    + left. exists b, w2. split; [done|]. split; [|split]; congruence.
    + right. exists w2. split; [done|]. split; [|split]; congruence.
  - right. by exists w1.
Qed.

Lemma quiet_when c m : quiet m → quiet (when c m).
Proof. destruct c; [done|]. intros _. apply quiet_ret. Qed.

Lemma fails_bind {A B} e (m : io A) (k : A → io B) :
  quiet m → (∀ a, fails_encoding e (k a)) → fails_encoding e (m ≫= k).
Proof.
  intros Hm Hk w Hw. unfold mbind, io_bind.
  destruct (Hm w) as [(a & w1 & -> & H1 & H2 & H3)|(w1 & -> & H)].
  - destruct (Hk a w1) as (w2 & -> & H4 & H5 & H6); [congruence|].
    exists w2. split; [done|]. split; [|split]; congruence.
  - by exists w1.
Qed.

Lemma fails_bind_l {A B} e (m : io A) (k : A → io B) :
  fails_encoding e m → fails_encoding e (m ≫= k).
Proof.
  intros Hm w Hw. unfold mbind, io_bind.
  destruct (Hm w Hw) as (w1 & -> & H). by exists w1.
Qed.

Lemma fails_print e s :
  encodable (stdout_encodes e) s = false → fails_encoding e (print s).
Proof. intros Hs w <-. unfold print. rewrite Hs. by exists w. Qed.

Ltac run_quiet :=
  cbn beta zeta;
  lazymatch goal with
  | |- quiet (mbind _ _) => apply quiet_bind; [run_quiet|intros ?; run_quiet]
  | |- quiet (mret _) => apply quiet_ret
  | |- quiet (print _) => apply quiet_print
  | |- quiet (when _ _) => apply quiet_when; run_quiet
  | |- quiet (lift _) =>
      eapply quiet_lift;
      first [apply generate_chinese_ok|apply generate_western_ok]
  end.

(** When the style is given and stdout cannot encode the middle dot of the
    header line, [main] raises [UnicodeEncodeError], whatever the other
    arguments; nothing is read from stdin and no file is written, even when
    an output path is given. *)
Theorem main_header_not_encodable (ar : args) (st : string) (w : world) :
  a_style ar = Some st → st ≠ "" →
  stdout_encodes (env w) "183"%char = false →
  ∃ w', main ar w = Raised UnicodeEncodeError w'
        ∧ stdin w' = stdin w ∧ files w' = files w.
Proof.
  intros Hst Hne H183. apply truthy_ne in Hne.
  assert (Hfail : fails_encoding (env w) (main ar)).
  { unfold main. rewrite Hst, Hne.
    apply fails_bind; [apply quiet_ret|]. intros style. cbn beta.
    apply fails_bind; [destruct (String.eqb style "chinese"); run_quiet|].
    intros usernames. cbn beta.
    apply fails_bind; [run_quiet|]. intros _. cbn zeta.
    apply fails_bind_l, fails_print. apply not_true_is_false. intros E.
    rewrite !encodable_app, !andb_true_iff in E.
    destruct E as (_ & _ & _ & _ & _ & _ & E & _).
    unfold encodable in E. cbn in E. by rewrite H183 in E. }
  destruct (Hfail w eq_refl) as (w' & Hm & H1 & H2 & _). by exists w'.
Qed.

Lemma main_header_not_encodable_witness :
  ∃ w',
    main (Args (Some "western") "Al" "Bo" "" "" "" "" "" false "out.txt" true)
      (World ["left"] [] [] ascii_only)
    = Raised UnicodeEncodeError w' ∧ stdin w' = ["left"] ∧ files w' = [].
Proof.
  apply (main_header_not_encodable
           (Args (Some "western") "Al" "Bo" "" "" "" "" "" false "out.txt" true)
           "western" (World ["left"] [] [] ascii_only));
    [reflexivity|discriminate|reflexivity].
Defined.

Lemma raises_write e path content :
  can_open e path = true → encodable (file_encodes e) content = false →
  raises e (write_file path content) UnicodeEncodeError [] [(path, "")].
Proof.
  intros Hp Hc w <-. unfold write_file. by rewrite Hp, Hc, !app_nil_r.
Qed.

Lemma raises_when_true e (m : io unit) (x : io_exn) o f :
  raises e m x o f → raises e (when true m) x o f.
Proof. done. Qed.

Ltac run_raise :=
  cbn beta zeta;
  lazymatch goal with
  | |- raises _ (mbind _ _) _ _ _ =>
      first [ eapply raises_bind_r; [run_io|run_raise]
            | eapply raises_bind_l; run_raise ]
  | |- raises _ (when true _) _ _ _ => apply raises_when_true; run_raise
  | |- raises _ (write_file _ _) _ _ _ =>
      first [ apply raises_open; assumption
            | apply raises_write; assumption ]
  end.



(** When the style is given, stdout can encode what is printed, the output
    path can be opened and the candidates cannot be encoded in the file,
    [main] raises [UnicodeEncodeError] after everything but the last line
    has been printed, and leaves the output file empty. *)
Theorem main_file_not_encodable (ar : args) (st : string) (w : world) :
  a_style ar = Some st → st ≠ "" →
  console_ok (env w) ar →
  a_output ar ≠ "" → can_open (env w) (a_output ar) = true →
  ∃ usernames out,
    (if String.eqb st "chinese"
     then generate_chinese (a_last ar) (a_first ar) (a_alias ar) (a_alias2 ar)
            (a_year ar) (a_dob ar) (a_full ar)
     else generate_western (a_first ar) (a_last ar) (a_middle ar) (a_alias ar)
            (a_alias2 ar) (a_year ar) (a_dob ar) (a_full ar))
    = Ok usernames
    ∧ (encodable (file_encodes (env w)) (join nl usernames) = false →
       main ar w
       = Raised UnicodeEncodeError
           (World (stdin w) (stdout w ++ out)
              (files w ++ [(a_output ar, "")]) (env w))).
Proof.
  intros Hst Hne (H183 & Hargs & Hpath) Hout Hopen.
  apply truthy_ne in Hne, Hout.
  pose proof (main_usernames_encodable _ ar st Hargs) as Hus.
  apply args_encodable_fields in Hargs as (Hf & Hl & Hm & Ha & Ha2 & Hy & Hdob).
  exists (main_usernames ar st).
  assert (∃ out, encodable (file_encodes (env w)) (join nl (main_usernames ar st))
                 = false →
            ∃ fs, raises (env w) (main ar) UnicodeEncodeError out fs
                  ∧ fs = [(a_output ar, "")]) as [out H].
  { unfold main, main_usernames in *. rewrite Hst, Hne, Hout.
    destruct (String.eqb st "chinese") eqn:E.
    - eexists. intros Henc.
      assert (Hc : encodable (file_encodes (env w))
                (join nl (trim (cn_candidates (a_last ar) (a_first ar) (a_alias ar)
                   (a_alias2 ar) (a_year ar) (a_dob ar) (a_full ar)) MAX_LEN_CN)
                 +:+ nl) = false)
        by by rewrite encodable_app, Henc.
      eexists. split.
      + eapply raises_bind_r; [apply effects_ret|]. cbn beta. rewrite E.
        run_raise. all: try solve_enc.
      + rewrite !if_same. reflexivity.
    - eexists. intros Henc.
      assert (Hc : encodable (file_encodes (env w))
                (join nl (trim (en_candidates (a_first ar) (a_last ar) (a_middle ar)
                   (a_alias ar) (a_alias2 ar) (a_year ar) (a_dob ar) (a_full ar))
                   MAX_LEN_EN)
                 +:+ nl) = false)
        by by rewrite encodable_app, Henc.
      eexists. split.
      + eapply raises_bind_r; [apply effects_ret|]. cbn beta. rewrite E.
        run_raise. all: try solve_enc.
      + rewrite !if_same. reflexivity. }
  exists out. split; [apply main_generator|]. intros Henc.
  destruct (H Henc) as (fs & Hr & ->). by rewrite (Hr w eq_refl).
Qed.

Lemma main_file_not_encodable_witness :
  ∃ out,
    main (Args (Some "western") (String "233" "tienne") "Brown" "" "" "" "" ""
            false "out.txt" true)
      (World [] [] [] ascii_files)
    = Raised UnicodeEncodeError (World [] out [("out.txt", "")] ascii_files).
Proof.
  destruct (main_file_not_encodable
              (Args (Some "western") (String "233" "tienne") "Brown" "" "" "" "" ""
                 false "out.txt" true)
              "western" (World [] [] [] ascii_files))
    as (us & out & Hg & H);
    [reflexivity|discriminate|repeat constructor|discriminate|reflexivity|].
  exists out. apply H. vm_compute in Hg. injection Hg as <-.
  vm_compute. reflexivity.
Defined.
